(** * Entity-linking evaluation and UniRel reformatting: a shallow embedding

    The notebooks [evaluations/quantitative/nel_eval.ipynb] and
    [re/UniRel/unirel_reformat.ipynb] are embedded as Rocq functions.
    Python exceptions are values of [result], the text written by [print]
    is threaded in the [Py] monad, and pandas objects are lists carrying
    the default positional index of [read_csv]. Floats and [str.upper]
    are interfaces, instantiated only to run the code on examples. *)

From Stdlib Require Import List ZArith Lia Bool Arith String Ascii QArith.
From Stdlib Require Import DecimalString Permutation.
Import ListNotations.

Open Scope string_scope.
Open Scope list_scope.

(** ** Python values, exceptions, output *)

Module Python.

Inductive exn : Type :=
| IndexError
| KeyError
| ValueError
| TypeError
| AttributeError
| ZeroDivisionError.

Inductive result (A : Type) : Type :=
| Ok (a : A)
| Raise (e : exn).
Arguments Ok {A} a.
Arguments Raise {A} e.

Definition rbind {A B} (r : result A) (k : A -> result B) : result B :=
  match r with
  | Ok a => k a
  | Raise e => Raise e
  end.

Notation "'let?' x ':=' e 'in' k" := (rbind e (fun x => k))
  (at level 10, x pattern, e at level 100, k at level 200).

(** A computation that may print: it receives the lines written so far
    and returns its outcome with the lines written at its end.  Lines
    printed before an exception stay printed. *)
Definition Py (A : Type) : Type := list string -> result A * list string.

Definition ret {A} (a : A) : Py A := fun out => (Ok a, out).

Definition bind {A B} (m : Py A) (k : A -> Py B) : Py B :=
  fun out =>
    match m out with
    | (Ok a, out') => k a out'
    | (Raise e, out') => (Raise e, out')
    end.

Definition print (line : string) : Py unit :=
  fun out => (Ok tt, out ++ [line]).

Definition liftR {A} (r : result A) : Py A := fun out => (r, out).

Notation "x <- e ;; k" := (bind e (fun x => k))
  (at level 100, e at next level, right associativity).
Notation "' p <- e ;; k" := (bind e (fun x => match x with p => k end))
  (at level 100, p pattern, e at next level, right associativity).
Notation "e ;;; k" := (bind e (fun _ => k))
  (at level 100, right associativity).

(** The runtime values that reach [is_match]. [PNaN] is the float NaN
    pandas puts in an empty cell. *)
Inductive pyval : Type :=
| PNone
| PBool (b : bool)
| PInt (z : Z)
| PNaN
| PStr (s : string).

(** [sub in s] on two [str]: [sub] occurs in [s] as a contiguous run. *)
Fixpoint str_contains (sub s : string) : bool :=
  String.prefix sub s ||
  match s with
  | EmptyString => false
  | String _ s' => str_contains sub s'
  end.

(** [str.upper] is kept abstract: it is the case mapping of Unicode,
    which the code takes from Python as it is. *)
Class PyStr : Type := {
  upper : string -> string
}.

(** [str.upper] on ASCII text, to run the code on concrete tables. *)
Definition upper_ascii (c : ascii) : ascii :=
  let n := nat_of_ascii c in
  if (97 <=? n)%nat && (n <=? 122)%nat then ascii_of_nat (n - 32) else c.

Fixpoint ascii_upper (s : string) : string :=
  match s with
  | EmptyString => EmptyString
  | String c s' => String (upper_ascii c) (ascii_upper s')
  end.

#[export] Instance AsciiStr : PyStr := {|
  upper := ascii_upper
|}.

(** [str(n)] for an int, as an f-string renders it. *)
Definition str_of_int (z : Z) : string := NilEmpty.string_of_int (Z.to_int z).

(** [l[i]]: a negative index counts from the end; outside the list it
    raises IndexError. *)
Definition py_getitem {A} (l : list A) (i : Z) : result A :=
  let n := Z.of_nat (List.length l) in
  let j := if (i <? 0)%Z then (i + n)%Z else i in
  if ((0 <=? j) && (j <? n))%Z then
    match nth_error l (Z.to_nat j) with
    | Some a => Ok a
    | None => Raise IndexError
    end
  else Raise IndexError.

Fixpoint set_nth {A} (l : list A) (k : nat) (v : A) : list A :=
  match l, k with
  | [], _ => []
  | _ :: t, O => v :: t
  | h :: t, S k' => h :: set_nth t k' v
  end.

(** [l[i] = v] on a list: IndexError outside the list. *)
Definition py_setitem {A} (l : list A) (i : Z) (v : A) : result (list A) :=
  let n := Z.of_nat (List.length l) in
  let j := if (i <? 0)%Z then (i + n)%Z else i in
  if ((0 <=? j) && (j <? n))%Z then Ok (set_nth l (Z.to_nat j) v)
  else Raise IndexError.

(** [l[start:stop]] with step 1: negative bounds count from the end and
    both bounds are clamped to the list. *)
Definition clamp_bound (n i : Z) : Z :=
  if (i <? 0)%Z then Z.max 0 (i + n) else Z.min i n.

Definition py_slice {A} (l : list A) (start stop : Z) : list A :=
  let n := Z.of_nat (List.length l) in
  let a := clamp_bound n start in
  let b := clamp_bound n stop in
  firstn (Z.to_nat (b - a)) (skipn (Z.to_nat a) l).

(** [l.index(x)] with the test given as a predicate: position of the first
    element that satisfies it, ValueError when there is none. *)
Fixpoint index_of {A} (p : A -> bool) (l : list A) : result Z :=
  match l with
  | [] => Raise ValueError
  | a :: t => if p a then Ok 0%Z
              else let? k := index_of p t in Ok (k + 1)%Z
  end.

(** [any(l)] on a list of bools. *)
Definition any (l : list bool) : bool := existsb (fun b => b) l.

End Python.

Import Python.

(** ** nel_eval.ipynb *)

Module NelEval.

(** A cell that holds a [str], or is missing ([None] in a gold-standard
    list literal, NaN in a dataframe read from CSV). *)
Definition cell : Type := option string.

Definition is_match (ent1 ent2 : pyval) (matching : string)
  : Py (option bool) :=
  match ent1, ent2 with
  | PStr s1, PStr s2 =>
      if matching =? "STRONG" then ret (Some (s1 =? s2))
      else if matching =? "WEAK" then
        ret (Some (any [str_contains s1 s2; str_contains s2 s1]))
      else
        print "Error: matching must be 'STRONG' or 'WEAK'" ;;;
        ret None
  | _, _ => ret (Some false)
  end.

(** [pd.Series(l)]: the values with their labels 0, 1, ... *)
Definition Series (A : Type) : Type := list (nat * A).

Definition pd_Series {A} (l : list A) : Series A :=
  combine (seq 0 (List.length l)) l.

(** [s.apply(f)]: [f] is called on each value in order. *)
Fixpoint series_apply {A B} (f : A -> Py B) (s : Series A) : Py (Series B) :=
  match s with
  | [] => ret []
  | (lbl, a) :: t =>
      b <- f a ;;
      t' <- series_apply f t ;;
      ret ((lbl, b) :: t')
  end.

(** [s[mask]] for a mask aligned with [s]: the entries whose mask is
    True are kept and an empty mask selects nothing; pandas refuses a
    mask that holds [None] (ValueError in current versions). *)
Fixpoint series_mask {A} (s : Series A) (mask : Series (option bool))
  : result (Series A) :=
  match s, mask with
  | (lbl, a) :: s', (_, m) :: mask' =>
      match m with
      | None => Raise ValueError
      | Some b =>
          let? rest := series_mask s' mask' in
          Ok (if b then (lbl, a) :: rest else rest)
      end
  | _, _ => Ok []
  end.

Fixpoint find_match_loop (gs_entities : list string)
    (tool_entities : Series string) (matching : string)
    (range : list nat) : Py (Z * Z) :=
  match range with
  | [] => ret ((-1)%Z, (-1)%Z)
  | gold_idx :: range' =>
      ent2 <- liftR (py_getitem gs_entities (Z.of_nat gold_idx)) ;;
      mask <- series_apply
                (fun ent1 => is_match (PStr ent1) (PStr ent2) matching)
                tool_entities ;;
      matches <- liftR (series_mask tool_entities mask) ;;
      match matches with
      | (lbl, _) :: _ => ret (Z.of_nat gold_idx, Z.of_nat lbl)
      | [] => find_match_loop gs_entities tool_entities matching range'
      end
  end.

Definition find_match (gs_entities tool_entities : list string)
    (matching gold_set : string) : Py (Z * Z) :=
  let tool_entities := pd_Series tool_entities in
  let stop_idx :=
    if gold_set =? "EXTENDED" then List.length gs_entities else 1%nat in
  find_match_loop gs_entities tool_entities matching (seq 0 stop_idx).

(** [a and b] where evaluating [b] can raise: [b] is not evaluated when
    [a] is False. *)
Definition py_and (a : bool) (b : result bool) : result bool :=
  if a then b else Ok false.

Definition is_none (c : cell) : bool :=
  match c with
  | None => true
  | Some _ => false
  end.

(** [c != None] *)
Definition not_none (c : cell) : bool := negb (is_none c).

(** The body of [if fill_in_qids and None in gs_qids:], which rewrites
    [gs_qids] in place; the rewritten list is returned. *)
Definition fill_in (gs_qids : list cell) : result (list cell) :=
  let? none_idx := index_of is_none gs_qids in
  let? c1 := py_and (none_idx =? 0)%Z
               (let? q := py_getitem gs_qids 1 in Ok (not_none q)) in
  if c1 then
    let? q := py_getitem gs_qids 1 in
    py_setitem gs_qids 0 q
  else
    let? c2 := py_and (none_idx =? 0)%Z
                 (let? q := py_getitem gs_qids 2 in Ok (not_none q)) in
    if c2 then
      let? q := py_getitem gs_qids 2 in
      let? gs_qids := py_setitem gs_qids 0 q in
      let? q := py_getitem gs_qids 2 in
      py_setitem gs_qids 1 q
    else
      let? c3 := py_and (none_idx =? 1)%Z
                   (let? q := py_getitem gs_qids 2 in Ok (not_none q)) in
      if c3 then
        let? q := py_getitem gs_qids 2 in
        py_setitem gs_qids 1 q
      else Ok gs_qids.

(** [pd.DataFrame({'ents': ents, 'qids': qids})]: one row per position;
    columns of different lengths are refused with ValueError. *)
Definition pd_DataFrame (ents qids : list cell) : result (list (cell * cell)) :=
  if (List.length ents =? List.length qids)%nat then Ok (combine ents qids)
  else Raise ValueError.

(** [df.dropna()]: the rows with no missing cell. *)
Fixpoint dropna (rows : list (cell * cell)) : list (string * string) :=
  match rows with
  | [] => []
  | (Some e, Some q) :: t => (e, q) :: dropna t
  | _ :: t => dropna t
  end.

Definition prune_gold_set (gs_entities gs_qids : list cell)
    (gold_set : string) (fill_in_qids : bool)
  : result (list string * list string) :=
  let? gs_qids :=
    (if fill_in_qids && existsb is_none gs_qids then fill_in gs_qids
     else Ok gs_qids) in
  let stop_idx := if gold_set =? "EXTENDED" then 3%nat else 1%nat in
  let? df := pd_DataFrame gs_entities gs_qids in
  let valid_data := dropna (firstn stop_idx df) in
  Ok (map fst valid_data, map snd valid_data).

(** A gold-standard row: its id and the lists that [ast.literal_eval]
    yields for its 'entity' and 'qid' cells. *)
Record gold_row : Type := {
  gs_id : string;
  gs_entity : list cell;
  gs_qid : list cell
}.

(** A row of [df_tool], seen through the columns named by [id_col],
    [ent_col] and [qid_col]. *)
Record tool_row : Type := {
  tool_id : cell;
  tool_ent : cell;
  tool_qid : cell
}.

(** [cell == s] for a [str] s; a missing cell equals nothing. *)
Definition cell_eqb (c : cell) (s : string) : bool :=
  match c with
  | Some s' => s' =? s
  | None => false
  end.

(** The rows of a dataframe with their labels 0, 1, ... *)
Definition labelled {A} (df : list A) : list (nat * A) :=
  combine (seq 0 (List.length df)) df.

(** [df_tool[df_tool[id_col] == gs_id][qid_col].dropna().index] *)
Definition selected_rows (df_tool : list tool_row) (gs_id : string)
  : list nat :=
  let same_doc :=
    filter (fun lr => cell_eqb (tool_id (snd lr)) gs_id) (labelled df_tool) in
  let qids := map (fun lr => (fst lr, tool_qid (snd lr))) same_doc in
  map fst (filter (fun lq => not_none (snd lq)) qids).

(** [df.loc[labels]]: the rows under the labels, KeyError for a label
    the dataframe does not have. *)
Fixpoint loc {A} (df : list A) (labels : list nat) : result (list A) :=
  match labels with
  | [] => Ok []
  | lbl :: t =>
      match nth_error df lbl with
      | Some r => let? rest := loc df t in Ok (r :: rest)
      | None => Raise KeyError
      end
  end.

(** [[entity.upper() for entity in col]]: a missing cell is a float and
    has no [upper]. *)
Fixpoint upper_all {Str : PyStr} (col : list cell) : result (list string) :=
  match col with
  | [] => Ok []
  | Some s :: t => let? rest := upper_all t in Ok (upper s :: rest)
  | None :: t => Raise AttributeError
  end.

(** [q in l] for a cell and a list of [str]. *)
Definition py_in (q : cell) (l : list string) : bool :=
  existsb (cell_eqb q) l.

(** The counters TP, FP, FN. *)
Definition counts : Type := (Z * Z * Z)%type.

(** One pass through the body of the loop over the gold rows. *)
Definition score_row {Str : PyStr} (df_tool : list tool_row)
    (matching gold_set : string) (fill_in_qids : bool)
    (c : counts) (gs_row : gold_row) : Py counts :=
  let '(TP, FP, FN) := c in
  ' (gs_entities, gs_qids) <-
      liftR (prune_gold_set (gs_entity gs_row) (gs_qid gs_row)
               gold_set fill_in_qids) ;;
  if (List.length gs_entities =? 0)%nat then ret (TP, FP, FN)
  else
    let selected := selected_rows df_tool (gs_id gs_row) in
    rows <- liftR (loc df_tool selected) ;;
    tool_entities <- liftR (upper_all (map tool_ent rows)) ;;
    rows' <- liftR (loc df_tool selected) ;;
    let tool_qids := map tool_qid rows' in
    ' (gs_match_idx, tool_match_idx) <-
        find_match gs_entities tool_entities matching gold_set ;;
    if (gs_match_idx =? -1)%Z then ret (TP, FP, (FN + 1)%Z)
    else
      let start_idx :=
        if gold_set =? "EXTENDED" then 0%Z else gs_match_idx in
      q <- liftR (py_getitem tool_qids tool_match_idx) ;;
      if py_in q (py_slice gs_qids start_idx (gs_match_idx + 1)%Z)
      then ret ((TP + 1)%Z, FP, FN)
      else ret (TP, (FP + 1)%Z, FN).

(** The loop [for index, gs_row in gs.iterrows()]. *)
Fixpoint count_links {Str : PyStr} (df_tool : list tool_row)
    (matching gold_set : string) (fill_in_qids : bool)
    (c : counts) (gs : list gold_row) : Py counts :=
  match gs with
  | [] => ret c
  | gs_row :: gs' =>
      c' <- score_row df_tool matching gold_set fill_in_qids c gs_row ;;
      count_links df_tool matching gold_set fill_in_qids c' gs'
  end.

(** Python floats are kept abstract: the operations the scoring uses,
    as an interface. [int_truediv a b] is [a / b] on two ints with
    [b] not zero. *)
Class PyFloat : Type := {
  float : Type;
  float_of_int : Z -> float;
  int_truediv : Z -> Z -> float;
  float_add : float -> float -> float;
  float_mul : float -> float -> float;
  float_truediv : float -> float -> float;
  float_gt : float -> float -> bool;
  float_eq : float -> float -> bool
}.

(** What the scoring needs of the comparisons: a float greater than
    another is not equal to it. *)
Class PyFloatLaws (F : PyFloat) : Prop := {
  float_gt_neq : forall x y : float, float_gt x y = true -> float_eq x y = false
}.

Section Scores.

Context {F : PyFloat}.

(** A Python number: an int or a float. *)
Inductive pynum : Type :=
| NInt (z : Z)
| NFloat (f : float).

Definition to_float (n : pynum) : float :=
  match n with
  | NInt z => float_of_int z
  | NFloat f => f
  end.

Definition py_add (a b : pynum) : pynum :=
  match a, b with
  | NInt x, NInt y => NInt (x + y)
  | _, _ => NFloat (float_add (to_float a) (to_float b))
  end.

Definition py_mul (a b : pynum) : pynum :=
  match a, b with
  | NInt x, NInt y => NInt (x * y)
  | _, _ => NFloat (float_mul (to_float a) (to_float b))
  end.

Definition py_gt (a b : pynum) : bool :=
  match a, b with
  | NInt x, NInt y => (y <? x)%Z
  | _, _ => float_gt (to_float a) (to_float b)
  end.

(** [a / b]: ZeroDivisionError on a zero divisor. *)
Definition py_truediv (a b : pynum) : result pynum :=
  match a, b with
  | NInt x, NInt y =>
      if (y =? 0)%Z then Raise ZeroDivisionError
      else Ok (NFloat (int_truediv x y))
  | _, _ =>
      if float_eq (to_float b) (float_of_int 0) then Raise ZeroDivisionError
      else Ok (NFloat (float_truediv (to_float a) (to_float b)))
  end.

Definition calculate_precision_recall_f1 {Str : PyStr} (gs : list gold_row)
    (df_tool : list tool_row) (matching gold_set : string)
    (fill_in_qids : bool) : Py (pynum * pynum * pynum) :=
  ' (TP, FP, FN) <-
      count_links df_tool matching gold_set fill_in_qids (0, 0, 0)%Z gs ;;
  print ("TP =" ++ str_of_int TP ++ ", FP=" ++ str_of_int FP
         ++ ", FN=" ++ str_of_int FN) ;;;
  precision <- liftR (if (0 <? TP + FP)%Z
                      then py_truediv (NInt TP) (NInt (TP + FP))
                      else Ok (NInt 0)) ;;
  recall <- liftR (if (0 <? TP + FN)%Z
                   then py_truediv (NInt TP) (NInt (TP + FN))
                   else Ok (NInt 0)) ;;
  f1_score <- liftR (if py_gt (py_add precision recall) (NInt 0)
                     then py_truediv
                            (py_mul (NInt 2) (py_mul precision recall))
                            (py_add precision recall)
                     else Ok (NInt 0)) ;;
  ret (precision, recall, f1_score).

End Scores.

(** Exact rational arithmetic as an instance of the float interface, to
    run the scoring on concrete tables. *)
#[export] Instance QFloat : PyFloat := {|
  float := Q;
  float_of_int := inject_Z;
  int_truediv := fun a b => Qred (Qmake a 1 / Qmake b 1);
  float_add := fun x y => Qred (x + y);
  float_mul := fun x y => Qred (x * y);
  float_truediv := fun x y => Qred (x / y);
  float_gt := fun x y => negb (Qle_bool x y);
  float_eq := fun x y => Qeq_bool x y
|}.

(** *** The pairs handed to the similarity service *)

(** The five lists [match_gold_pred] returns: id, tool_ent, gold_ent,
    q1_gold, q2_pred. *)
Definition matched : Type :=
  (list string * list string * list string * list string * list cell)%type.

(** One pass through the body of the loop of [match_gold_pred]. *)
Definition gather_row {Str : PyStr} (df_tool : list tool_row)
    (matching gold_set : string) (fill_in_qids : bool)
    (acc : matched) (gs_row : gold_row) : Py matched :=
  let '(ids, tool_ents, gold_ents, q1_gold, q2_pred) := acc in
  ' (gs_entities, gs_qids) <-
      liftR (prune_gold_set (gs_entity gs_row) (gs_qid gs_row)
               gold_set fill_in_qids) ;;
  if (List.length gs_entities =? 0)%nat then ret acc
  else
    let selected := selected_rows df_tool (gs_id gs_row) in
    rows <- liftR (loc df_tool selected) ;;
    tool_entities <- liftR (upper_all (map tool_ent rows)) ;;
    rows' <- liftR (loc df_tool selected) ;;
    let tool_qids := map tool_qid rows' in
    ' (gs_match_idx, tool_match_idx) <-
        find_match gs_entities tool_entities matching gold_set ;;
    if (gs_match_idx =? -1)%Z then ret acc
    else
      g <- liftR (py_getitem gs_entities gs_match_idx) ;;
      t <- liftR (py_getitem tool_entities tool_match_idx) ;;
      q1 <- liftR (py_getitem gs_qids gs_match_idx) ;;
      q2 <- liftR (py_getitem tool_qids tool_match_idx) ;;
      ret (ids ++ [gs_id gs_row], tool_ents ++ [t], gold_ents ++ [g],
           q1_gold ++ [q1], q2_pred ++ [q2]).

Fixpoint gather {Str : PyStr} (df_tool : list tool_row)
    (matching gold_set : string) (fill_in_qids : bool)
    (acc : matched) (gs : list gold_row) : Py matched :=
  match gs with
  | [] => ret acc
  | gs_row :: gs' =>
      acc' <- gather_row df_tool matching gold_set fill_in_qids acc gs_row ;;
      gather df_tool matching gold_set fill_in_qids acc' gs'
  end.

Definition match_gold_pred {Str : PyStr}
    (gs : list gold_row) (df_tool : list tool_row)
    (matching gold_set : string) (fill_in_qids : bool) : Py matched :=
  gather df_tool matching gold_set fill_in_qids ([], [], [], [], []) gs.

(** [f"{c}"] for a cell: a missing cell is the float NaN. *)
Definition format_cell (c : cell) : string :=
  match c with
  | Some s => s
  | None => "nan"
  end.

Definition tab : string := String (ascii_of_nat 9) EmptyString.

(** The comprehension of [make_temp] over [range(len(q1_gold))]. *)
Fixpoint temp_lines (q1_gold : list string) (q2_pred : list cell)
    (range : list nat) : result (list string) :=
  match range with
  | [] => Ok []
  | i :: range' =>
      let? q1 := py_getitem q1_gold (Z.of_nat i) in
      let? q2 := py_getitem q2_pred (Z.of_nat i) in
      let? rest := temp_lines q1_gold q2_pred range' in
      Ok ((q1 ++ tab ++ format_cell q2)%string :: rest)
  end.

(** A one-column frame: the column name and its values. *)
Definition frame : Type := (string * list string)%type.

(** The files written so far: name and frame, the latest first. *)
Definition files : Type := list (string * frame).

(** [make_temp] builds the one-column frame and writes it to
    'temp.csv'. *)
Definition make_temp (q1_gold : list string) (q2_pred : list cell)
    (fs : files) : result files :=
  let? lines := temp_lines q1_gold q2_pred (seq 0 (List.length q1_gold)) in
  let temp : frame := (("q1" ++ tab ++ "q2")%string, lines) in
  Ok (("temp.csv", temp) :: fs).

(** [a == b] on two cells: a missing cell equals nothing. *)
Definition cell_eq (a b : cell) : bool :=
  match a, b with
  | Some x, Some y => x =? y
  | _, _ => false
  end.

Section ScoreTable.

(** A row of [score_df] and the value type of the column read. *)
Variables R V : Type.

(** The cells of a row of [score_df] under 'q1' and 'q2'. *)
Variables q1 q2 : R -> cell.

(** [col] is given as the projection of a row on that column;
    [eval_df] is given by its 'gold_qid' and 'pred_qid' columns. *)
Definition retrieve_score_vals (i : Z) (col : R -> V) (score_df : list R)
    (gold_qid : list string) (pred_qid : list cell) : result (option V) :=
  let? g := py_getitem gold_qid i in
  let? p := py_getitem pred_qid i in
  let rows :=
    filter (fun r => cell_eqb (q1 r) g && cell_eq (q2 r) p) score_df in
  let output := map col rows in
  match output with
  | v :: _ => Ok (Some v)
  | [] => Ok None
  end.

End ScoreTable.

(** *** Wikidata descriptions *)

(** A decoded JSON document. *)
#[warnings="-register-all"]
Inductive pyjson : Type :=
| JNull
| JBool (b : bool)
| JNum (z : Z)
| JStr (s : string)
| JList (items : list pyjson)
| JDict (entries : list (string * pyjson)).

(** The value under [key] in a decoded object, whose keys are
    distinct. *)
Fixpoint dict_lookup (entries : list (string * pyjson)) (key : string)
  : option pyjson :=
  match entries with
  | [] => None
  | (k, v) :: rest => if k =? key then Some v else dict_lookup rest key
  end.

(** [v.get(key, default)]: only a dict has [get]. *)
Definition py_get (v : pyjson) (key : string) (default : pyjson)
  : result pyjson :=
  match v with
  | JDict entries =>
      Ok (match dict_lookup entries key with
          | Some x => x
          | None => default
          end)
  | _ => Raise AttributeError
  end.

(** The truth value of [v] in [if v:]. *)
Definition truthy (v : pyjson) : bool :=
  match v with
  | JNull => false
  | JBool b => b
  | JNum z => negb (z =? 0)%Z
  | JStr s => negb (s =? "")
  | JList items => negb (List.length items =? 0)%nat
  | JDict entries => negb (List.length entries =? 0)%nat
  end.

(** [v[0]] *)
Definition first_item (v : pyjson) : result pyjson :=
  match v with
  | JList items => py_getitem items 0
  | JStr s =>
      let? c := py_getitem (list_ascii_of_string s) 0 in
      Ok (JStr (String c EmptyString))
  | JDict _ => Raise KeyError
  | _ => Raise TypeError
  end.

(** [v[key]] for a [str] key *)
Definition py_item (v : pyjson) (key : string) : result pyjson :=
  match v with
  | JDict entries =>
      match dict_lookup entries key with
      | Some x => Ok x
      | None => Raise KeyError
      end
  | _ => Raise TypeError
  end.

(** What the function reads of an HTTP response; [resp_json] is the
    outcome of [response.json()]. *)
Record response : Type := {
  status_code : Z;
  resp_json : result pyjson
}.

Definition newline : string := String (ascii_of_nat 10) EmptyString.

Definition dquote : string := String (ascii_of_nat 34) EmptyString.

Section Wikidata.

(** [requests.get(url, headers=..., params=...)] *)
Variable requests_get :
  string -> list (string * string) -> list (string * string)
  -> result response.

Definition get_wikidata_description (qid : string) : result pyjson :=
  let endpoint_url := "https://query.wikidata.org/sparql" in
  let query :=
    (newline ++ "    SELECT ?itemDescription WHERE {" ++ newline
     ++ "        wd:" ++ qid ++ " schema:description ?itemDescription."
     ++ newline
     ++ "        FILTER(LANG(?itemDescription) = " ++ dquote ++ "en"
     ++ dquote ++ ")" ++ newline
     ++ "    }" ++ newline ++ "    ")%string in
  let headers := [("Accept", "application/sparql-results+json")] in
  let? response := requests_get endpoint_url headers [("query", query)] in
  if (status_code response =? 200)%Z then
    let? data := resp_json response in
    let? results := py_get data "results" (JDict []) in
    let? descriptions := py_get results "bindings" (JList []) in
    if truthy descriptions then
      let? d := first_item descriptions in
      let? item := py_item d "itemDescription" in
      py_item item "value"
    else Ok (JStr "No description found.")
  else Ok (JStr "Failed to fetch data.").

End Wikidata.

(** *** Similarity scores *)

(** [s.unique()]: the values in order of first appearance. *)
Fixpoint unique (l : list string) : list string :=
  match l with
  | [] => []
  | x :: t => x :: filter (fun y => negb (y =? x)) (unique t)
  end.

Section SimilarityScores.

(** The floats of the score columns, kept abstract: [num_gt] is [>],
    [num_eq] is [==], [num_isnan] is [math.isnan] and [mean] is the
    mean pandas takes of a list of floats. *)
Variable num : Type.

Variables num_gt num_eq : num -> num -> bool.

Variable num_isnan : num -> bool.

Variable mean : list num -> num.

(** What [.mean()] answers on a column of text. The pandas versions
    differ (NaN under pandas 2, where such a column is a column of
    objects, TypeError under pandas 3, where it is a column of [str]),
    and the code asks for none. *)
Variable text_mean : result num.

(** A cell of a score column: missing, a [str], or a float. *)
Inductive scoreval : Type :=
| SNone
| SStr (s : string)
| SNum (x : num).

(** A row of [score_df]: the cells under 'q1', 'q2', 'q1_label',
    'q2_label', 'class' and 'jc'. *)
Record score_rec : Type := {
  sc_q1 : cell;
  sc_q2 : cell;
  sc_q1_label : cell;
  sc_q2_label : cell;
  sc_class : scoreval;
  sc_jc : scoreval
}.

(** [s.apply(retrieve_score_vals, col=..., score_df=..., eval_df=...)]
    on a column that holds [range(len(id))]. *)
Fixpoint apply_retrieve {V : Type} (col : score_rec -> V)
    (score_df : list score_rec) (gold_qid : list string)
    (pred_qid : list cell) (range : list nat) : result (list (option V)) :=
  match range with
  | [] => Ok []
  | i :: range' =>
      let? v := retrieve_score_vals score_rec V sc_q1 sc_q2 (Z.of_nat i)
                  col score_df gold_qid pred_qid in
      let? rest := apply_retrieve col score_df gold_qid pred_qid range' in
      Ok (v :: rest)
  end.

(** A retrieved value as a cell of the column: None is a missing
    cell. *)
Definition as_cell (v : option scoreval) : scoreval :=
  match v with
  | Some x => x
  | None => SNone
  end.

(** The test [score != None and score != "" and not(math.isnan(score))]
    with the number it lets through; [math.isnan] refuses a [str]. *)
Definition as_number (score : scoreval) : result (option num) :=
  match score with
  | SNone => Ok None
  | SStr s => if s =? "" then Ok None else Raise TypeError
  | SNum x => Ok (if num_isnan x then None else Some x)
  end.

(** [[score for score in col if ...]] *)
Fixpoint numeric_scores (col : list scoreval) : result (list num) :=
  match col with
  | [] => Ok []
  | score :: col' =>
      let? n := as_number score in
      let? rest := numeric_scores col' in
      Ok (match n with
          | Some x => x :: rest
          | None => rest
          end)
  end.

(** [max] of a list that starts with [m]: a later item replaces the
    maximum when it is greater. *)
Fixpoint py_max (m : num) (l : list num) : num :=
  match l with
  | [] => m
  | x :: l' => py_max (if num_gt x m then x else m) l'
  end.

(** [score == m] for a float [m] *)
Definition equals (m : num) (score : scoreval) : bool :=
  match score with
  | SNum y => num_eq y m
  | _ => false
  end.

(** A row of [eval_df] as the loops see it: label, 'id', 'pred_ent'
    and the score column. *)
Definition eval_row : Type := (nat * (string * string * scoreval))%type.

Definition id_of (r : eval_row) : string := fst (fst (snd r)).

Definition ent_of (r : eval_row) : string := snd (fst (snd r)).

Definition score_of (r : eval_row) : scoreval := snd (snd r).

(** The body of the inner loop: the label of the first row that holds
    the greatest score of [rows], if [rows] has a score. *)
Definition best_row (rows : list eval_row) : result (option nat) :=
  let? class_scores := numeric_scores (map score_of rows) in
  match class_scores with
  | [] => Ok None
  | m0 :: rest =>
      let m := py_max m0 rest in
      let? pos := index_of (equals m) (map score_of rows) in
      let? idx := py_getitem (map fst rows) pos in
      Ok (Some idx)
  end.

(** The loop [for ent in eval_df[eval_df['id']==id]['pred_ent'].unique()] *)
Fixpoint keep_ents (eval_df : list eval_row) (id : string)
    (ents : list string) (rows_to_keep : list nat) : result (list nat) :=
  match ents with
  | [] => Ok rows_to_keep
  | ent :: ents' =>
      let rows :=
        filter (fun r => (id_of r =? id) && (ent_of r =? ent)) eval_df in
      let? best := best_row rows in
      keep_ents eval_df id ents'
        (match best with
         | Some idx => rows_to_keep ++ [idx]
         | None => rows_to_keep
         end)
  end.

(** The loop [for id in eval_df['id'].unique()] *)
Fixpoint keep_ids (eval_df : list eval_row) (ids : list string)
    (rows_to_keep : list nat) : result (list nat) :=
  match ids with
  | [] => Ok rows_to_keep
  | id :: ids' =>
      let ents :=
        unique (map ent_of (filter (fun r => id_of r =? id) eval_df)) in
      let? rows_to_keep := keep_ents eval_df id ents rows_to_keep in
      keep_ids eval_df ids' rows_to_keep
  end.

(** The two loops that fill [class_rows_to_keep] (or
    [jc_rows_to_keep]), over the 'id', 'pred_ent' and score columns of
    [eval_df]. *)
Definition rows_to_keep (ids pred_ents : list string)
    (scores : list scoreval) : result (list nat) :=
  let eval_df := labelled (combine (combine ids pred_ents) scores) in
  keep_ids eval_df (unique ids) [].

(** [col.dropna()] on a score column *)
Definition dropna_scores (col : list scoreval) : list scoreval :=
  filter (fun v => match v with
                   | SNone => false
                   | SStr _ => true
                   | SNum x => negb (num_isnan x)
                   end) col.

(** [col.mean()]: the mean of the floats; a [str] cannot be averaged. *)
Fixpoint numbers (col : list scoreval) : result (list num) :=
  match col with
  | [] => Ok []
  | SNum x :: col' => let? rest := numbers col' in Ok (x :: rest)
  | _ :: _ => Raise TypeError
  end.

(** A column of text: it holds a [str], and only missing values
    besides. *)
Definition text_column (col : list scoreval) : bool :=
  existsb (fun v => match v with
                    | SStr _ => true
                    | _ => false
                    end) col
  && forallb (fun v => match v with
                       | SNum x => num_isnan x
                       | _ => true
                       end) col.

(** [col.loc[rows_to_keep].dropna().mean()] *)
Definition kept_mean (col : list scoreval) (rows_to_keep : list nat)
  : result num :=
  let? kept := loc col rows_to_keep in
  if text_column col then text_mean
  else
    let? kept := numbers (dropna_scores kept) in
    Ok (mean kept).

(** [pd.DataFrame({'id': id, 'pred_ent': tool_ent, ...})] with four
    more columns [range(len(id))]: the lists must have one length. *)
Definition eval_frame (id tool_ent gold_ent q1_gold : list string)
    (q2_pred : list cell) : result unit :=
  if (List.length tool_ent =? List.length id)%nat
     && (List.length gold_ent =? List.length id)%nat
     && (List.length q1_gold =? List.length id)%nat
     && (List.length q2_pred =? List.length id)%nat
  then Ok tt else Raise ValueError.

Definition get_class_score (score_df : list score_rec)
    (id tool_ent gold_ent q1_gold : list string) (q2_pred : list cell)
  : result num :=
  let? _ := eval_frame id tool_ent gold_ent q1_gold q2_pred in
  let range := seq 0 (List.length id) in
  let? gold_label :=
    apply_retrieve sc_q1_label score_df q1_gold q2_pred range in
  let? pred_label :=
    apply_retrieve sc_q2_label score_df q1_gold q2_pred range in
  let? class := apply_retrieve sc_class score_df q1_gold q2_pred range in
  let class := map as_cell class in
  let? class_rows_to_keep := rows_to_keep id tool_ent class in
  kept_mean class class_rows_to_keep.

Definition get_jc_score (score_df : list score_rec)
    (id tool_ent gold_ent q1_gold : list string) (q2_pred : list cell)
  : result num :=
  let? _ := eval_frame id tool_ent gold_ent q1_gold q2_pred in
  let range := seq 0 (List.length id) in
  let? gold_label :=
    apply_retrieve sc_q1_label score_df q1_gold q2_pred range in
  let? pred_label :=
    apply_retrieve sc_q2_label score_df q1_gold q2_pred range in
  let? jc := apply_retrieve sc_jc score_df q1_gold q2_pred range in
  let jc := map as_cell jc in
  let? jc_rows_to_keep := rows_to_keep id tool_ent jc in
  kept_mean jc jc_rows_to_keep.

End SimilarityScores.

End NelEval.

(** ** unirel_reformat.ipynb *)

Module UniRel.

(** The values [ast.literal_eval] builds for the 'c119_output' cells. *)
#[warnings="-register-all"]
Inductive pylit : Type :=
| LNone
| LStr (s : string)
| LInt (z : Z)
| LList (items : list pylit)
| LTuple (items : list pylit).

(** A row of [result_df]: the cells under 'c5', 'c119', 'c119_output'. *)
Record result_row : Type := {
  c5 : string;
  c119 : string;
  c119_output : string
}.

(** A row of [out_df]. *)
Record out_row : Type := {
  c5_id : string;
  c119_input : string;
  out_c119_output : string;
  head : pylit;
  relation : pylit;
  tail : pylit
}.

Definition chars (s : string) : list pylit :=
  map (fun c => LStr (String c EmptyString)) (list_ascii_of_string s).

(** The items of a value that can be sized, indexed and iterated. *)
Definition items_of (v : pylit) : result (list pylit) :=
  match v with
  | LStr s => Ok (chars s)
  | LList l => Ok l
  | LTuple l => Ok l
  | LNone => Raise TypeError
  | LInt _ => Raise TypeError
  end.

(** [len(v)] *)
Definition py_len (v : pylit) : result Z :=
  let? l := items_of v in Ok (Z.of_nat (List.length l)).

(** [v[i]] *)
Definition py_subscript (v : pylit) (i : Z) : result pylit :=
  let? l := items_of v in py_getitem l i.

Section Reformat.

(** [ast.literal_eval], applied to the text of a cell. *)
Variable literal_eval : string -> result pylit.

(** [out_df.loc[len(out_df)] = row]: the labels of [out_df] are
    0 .. len-1, so the row is added at the end. *)
Definition append_row (out_df : list out_row) (row : out_row)
  : list out_row :=
  out_df ++ [row].

(** The loop [for triple in output]. *)
Fixpoint emit_triples (r : result_row) (output : list pylit)
    (out_df : list out_row) : result (list out_row) :=
  match output with
  | [] => Ok out_df
  | triple :: output' =>
      let? h := py_subscript triple 0 in
      let? rel := py_subscript triple 1 in
      let? t := py_subscript triple 2 in
      emit_triples r output'
        (append_row out_df
           {| c5_id := c5 r; c119_input := c119 r;
              out_c119_output := c119_output r;
              head := h; relation := rel; tail := t |})
  end.

(** The loop [for i in range(len(result_df))], which reads row i. *)
Fixpoint reformat_loop (result_df : list result_row)
    (out_df : list out_row) : result (list out_row) :=
  match result_df with
  | [] => Ok out_df
  | r :: result_df' =>
      let? parsed := literal_eval (c119_output r) in
      let? output := py_subscript parsed 0 in
      let? n := py_len output in
      let? out_df :=
        (if (n =? 0)%Z then
           Ok (append_row out_df
                 {| c5_id := c5 r; c119_input := c119 r;
                    out_c119_output := c119_output r;
                    head := LNone; relation := LNone; tail := LNone |})
         else
           let? triples := items_of output in
           emit_triples r triples out_df) in
      reformat_loop result_df' out_df
  end.

(** The cell that builds [out_df], from an empty frame. *)
Definition reformat (result_df : list result_row) : result (list out_row) :=
  reformat_loop result_df [].

(** [out_df] is a global frame that the loops fill in place, so the
    rows written before an exception stay in it. The run of a loop is
    its outcome and the frame it leaves. *)
Definition run : Type := (result unit * list out_row)%type.

(** The loop [for triple in output] on the frame itself; the row is
    built before it is written. *)
Fixpoint fill_triples (r : result_row) (output : list pylit)
    (out_df : list out_row) : run :=
  match output with
  | [] => (Ok tt, out_df)
  | triple :: output' =>
      match (let? h := py_subscript triple 0 in
             let? rel := py_subscript triple 1 in
             let? t := py_subscript triple 2 in
             Ok {| c5_id := c5 r; c119_input := c119 r;
                   out_c119_output := c119_output r;
                   head := h; relation := rel; tail := t |}) with
      | Ok row => fill_triples r output' (append_row out_df row)
      | Raise e => (Raise e, out_df)
      end
  end.

(** The loop [for i in range(len(result_df))] on the frame itself. *)
Fixpoint fill_loop (result_df : list result_row) (out_df : list out_row)
  : run :=
  match result_df with
  | [] => (Ok tt, out_df)
  | r :: result_df' =>
      match (let? parsed := literal_eval (c119_output r) in
             let? output := py_subscript parsed 0 in
             let? n := py_len output in
             Ok (output, n)) with
      | Raise e => (Raise e, out_df)
      | Ok (output, n) =>
          let filled : run :=
            if (n =? 0)%Z then
              (Ok tt,
               append_row out_df
                 {| c5_id := c5 r; c119_input := c119 r;
                    out_c119_output := c119_output r;
                    head := LNone; relation := LNone; tail := LNone |})
            else
              match items_of output with
              | Ok triples => fill_triples r triples out_df
              | Raise e => (Raise e, out_df)
              end in
          match filled with
          | (Ok _, out_df) => fill_loop result_df' out_df
          | (Raise e, out_df) => (Raise e, out_df)
          end
      end
  end.

(** The cell, with the frame it leaves in [out_df]. *)
Definition reformat_in_place (result_df : list result_row) : run :=
  fill_loop result_df [].

End Reformat.

End UniRel.

(** * Vocabulary of the properties *)

Module NelEvalSpec.

Import NelEval.

(** [sub] occurs in [s]: [s] is [sub] with text before and after. *)
Definition substring_of (sub s : string) : Prop :=
  exists pre post : string, s = (pre ++ sub ++ post)%string.

Definition error_line : string := "Error: matching must be 'STRONG' or 'WEAK'".

(** [is_match] answers None after writing the error line. *)
Definition answers_None (ent1 ent2 : pyval) (matching : string) : Prop :=
  forall out,
    is_match ent1 ent2 matching out = (Ok None, out ++ [error_line]).

Definition is_str (v : pyval) : bool :=
  match v with
  | PStr _ => true
  | _ => false
  end.

(** On two strings and a valid policy, [is_match] is this test, and it
    prints nothing. *)
Definition matches (matching ent1 ent2 : string) : bool :=
  if matching =? "STRONG" then ent1 =? ent2
  else str_contains ent1 ent2 || str_contains ent2 ent1.

Definition valid_policy (matching : string) : Prop :=
  matching = "STRONG" \/ matching = "WEAK".

(** How many gold entities [find_match] considers. *)
Definition considered (gs_entities : list string) (gold_set : string) : nat :=
  if gold_set =? "EXTENDED" then List.length gs_entities else 1%nat.

(** [is_match] answers True on a tool entity and a gold entity. *)
Definition is_match_true (matching tool_entity gs_entity : string) : Prop :=
  forall out,
    is_match (PStr tool_entity) (PStr gs_entity) matching out
    = (Ok (Some true), out).

(** Gold entity [i] is considered and tool entity [j] matches it. *)
Definition considered_match (gs_entities tool_entities : list string)
    (matching gold_set : string) (i j : nat) : Prop :=
  (i < considered gs_entities gold_set)%nat /\
  exists g t, nth_error gs_entities i = Some g
              /\ nth_error tool_entities j = Some t
              /\ is_match_true matching t g.

(** How many leading positions of the gold lists the gold set keeps. *)
Definition kept_positions (gold_set : string) : nat :=
  if gold_set =? "EXTENDED" then 3%nat else 1%nat.

(** Both cells of a row are present. *)
Definition both_present (row : cell * cell) : bool :=
  not_none (fst row) && not_none (snd row).

Definition as_row (p : string * string) : cell * cell :=
  (Some (fst p), Some (snd p)).

(** The first None of [gs_qids] is at position [k]. *)
Definition first_none_at (gs_qids : list cell) (k : Z) : Prop :=
  index_of is_none gs_qids = Ok k.

(** The tool row belongs to document [gs_id]. *)
Definition same_doc (gs_id : string) (r : tool_row) : bool :=
  cell_eqb (tool_id r) gs_id.

(** The tool row has a QID. *)
Definition has_qid (r : tool_row) : bool := not_none (tool_qid r).

(** The rows of [df_tool] on document [gs_id] that carry a QID. *)
Definition tool_predictions (df_tool : list tool_row) (gs_id : string)
  : list tool_row :=
  filter (fun r => same_doc gs_id r && has_qid r) df_tool.

(** A gold record with a primary and a secondary entity, and a tool
    table that links the secondary entity to the primary QID. *)
Definition pump_gold : gold_row :=
  {| gs_id := "19890723054159I";
     gs_entity := [Some "FUEL PUMP"; Some "PUMP"; None];
     gs_qid := [Some "Q1"; Some "Q2"; None] |}.

Definition pump_tool : list tool_row :=
  [ {| tool_id := Some "19890723054159I"; tool_ent := Some "pump";
       tool_qid := Some "Q1" |};
    {| tool_id := Some "19900101000000A"; tool_ent := Some "fuel pump";
       tool_qid := Some "Q1" |} ].

(** A tool table that names the primary entity of [pump_gold] but gives
    no QID for it. *)
Definition unlinked_tool : list tool_row :=
  [ {| tool_id := Some "19890723054159I"; tool_ent := Some "fuel pump";
       tool_qid := None |} ].

(** The gold row still has an entity after pruning. *)
Definition pruned_nonempty (gold_set : string) (fill_in_qids : bool)
    (gs_row : gold_row) : bool :=
  match prune_gold_set (gs_entity gs_row) (gs_qid gs_row)
          gold_set fill_in_qids with
  | Ok (_ :: _, _) => true
  | _ => false
  end.

(** Exactly one of the three counters went up by one. *)
Definition one_more (c c' : counts) : Prop :=
  let '(TP, FP, FN) := c in
  c' = ((TP + 1)%Z, FP, FN) \/ c' = (TP, (FP + 1)%Z, FN)
  \/ c' = (TP, FP, (FN + 1)%Z).

Definition total (c : counts) : Z :=
  let '(TP, FP, FN) := c in (TP + FP + FN)%Z.

(** Every tool row with a QID names an entity. *)
Definition usable (df_tool : list tool_row) : Prop :=
  forall r, In r df_tool -> has_qid r = true -> not_none (tool_ent r) = true.

(** Pruning succeeds on every gold row. *)
Definition prunable (gold_set : string) (fill_in_qids : bool)
    (gs : list gold_row) : Prop :=
  forall gs_row, In gs_row gs ->
    exists p, prune_gold_set (gs_entity gs_row) (gs_qid gs_row)
                gold_set fill_in_qids = Ok p.

(** Three gold rows: one linked, one never named by the tool, one with
    no primary entity. *)
Definition sample_gold : list gold_row :=
  [ pump_gold;
    {| gs_id := "19900101000000A";
       gs_entity := [Some "PROPELLER"; None; None];
       gs_qid := [Some "Q3"; None; None] |};
    {| gs_id := "19910202000000B";
       gs_entity := [None; None; None];
       gs_qid := [None; None; None] |} ].

Section ScoresSpec.

Context {F : PyFloat}.

(** [a / b] where the divisor is known not to be zero. *)
Definition quotient (a b : pynum) : pynum :=
  match a, b with
  | NInt x, NInt y => NFloat (int_truediv x y)
  | _, _ => NFloat (float_truediv (to_float a) (to_float b))
  end.

(** precision = TP/(TP+FP) if TP+FP > 0 else 0 *)
Definition precision_of (TP FP : Z) : pynum :=
  if (0 <? TP + FP)%Z then quotient (NInt TP) (NInt (TP + FP)) else NInt 0.

(** recall = TP/(TP+FN) if TP+FN > 0 else 0 *)
Definition recall_of (TP FN : Z) : pynum :=
  if (0 <? TP + FN)%Z then quotient (NInt TP) (NInt (TP + FN)) else NInt 0.

(** f1 = 2*precision*recall/(precision+recall) if precision+recall > 0
    else 0, the product taken as 2 * (precision * recall). *)
Definition f1_of (precision recall : pynum) : pynum :=
  if py_gt (py_add precision recall) (NInt 0)
  then quotient (py_mul (NInt 2) (py_mul precision recall))
         (py_add precision recall)
  else NInt 0.

Definition scores_of (c : counts) : pynum * pynum * pynum :=
  let '(TP, FP, FN) := c in
  (precision_of TP FP, recall_of TP FN,
   f1_of (precision_of TP FP) (recall_of TP FN)).

(** The line printed before the scores are computed. *)
Definition tally_line (c : counts) : string :=
  let '(TP, FP, FN) := c in
  "TP =" ++ str_of_int TP ++ ", FP=" ++ str_of_int FP
  ++ ", FN=" ++ str_of_int FN.

End ScoresSpec.

(** *** Vocabulary of the further properties *)

Definition misses (c : counts) : Z := snd c.

Definition add_counts (c d : counts) : counts :=
  let '(TP, FP, FN) := c in
  let '(a, b, m) := d in
  ((TP + a)%Z, (FP + b)%Z, (FN + m)%Z).

(** What one gold row adds to the counters, or the exception it
    raises. *)
Definition row_counts {Str : PyStr}
    (df_tool : list tool_row) (matching gold_set : string)
    (fill_in_qids : bool) (gs_row : gold_row) : result counts :=
  fst (score_row df_tool matching gold_set fill_in_qids (0, 0, 0)%Z
         gs_row []).

(** A QID after fill-in: the one before, or one put where none was. *)
Definition filled_from (q q' : cell) : Prop := q' = q \/ q = None.

(** The found records: TP + FP. *)
Definition found (c : counts) : Z := (fst (fst c) + snd (fst c))%Z.

(** The five lists have the same length. *)
Definition aligned (acc : matched) : Prop :=
  let '(ids, tool_ents, gold_ents, q1_gold, q2_pred) := acc in
  List.length tool_ents = List.length ids
  /\ List.length gold_ents = List.length ids
  /\ List.length q1_gold = List.length ids
  /\ List.length q2_pred = List.length ids.

(** The five lists with one more record at their ends. *)
Definition push (acc : matched) (id t g q1 : string) (q2 : cell) : matched :=
  let '(ids, tool_ents, gold_ents, q1_gold, q2_pred) := acc in
  (ids ++ [id], tool_ents ++ [t], gold_ents ++ [g], q1_gold ++ [q1],
   q2_pred ++ [q2]).

Definition width (acc : matched) : nat :=
  List.length (fst (fst (fst (fst acc)))).

(** One record of [match_gold_pred]: id, tool entity, gold entity, gold
    QID, tool QID. *)
Definition record : Type := (string * string * string * string * cell)%type.

(** The five lists read record by record. *)
Definition records (acc : matched) : list record :=
  let '(ids, tool_ents, gold_ents, q1_gold, q2_pred) := acc in
  combine (combine (combine (combine ids tool_ents) gold_ents) q1_gold)
    q2_pred.

(** The record pairs an entity and QID kept from the gold row with the
    upper-cased entity and the QID of a tool row on the same document,
    and [is_match] accepts the two entities. *)
Definition sound_record {Str : PyStr} (df_tool : list tool_row)
    (matching gold_set : string) (fill_in_qids : bool)
    (gs_row : gold_row) (rec : record) : Prop :=
  let '(id, t, g, q1, q2) := rec in
  id = gs_id gs_row
  /\ is_match_true matching t g
  /\ (exists es qs i,
         prune_gold_set (gs_entity gs_row) (gs_qid gs_row) gold_set
           fill_in_qids = Ok (es, qs)
         /\ (i < considered es gold_set)%nat
         /\ nth_error es i = Some g /\ nth_error qs i = Some q1)
  /\ (exists r raw,
         In r df_tool /\ tool_id r = Some id /\ tool_ent r = Some raw
         /\ upper raw = t /\ tool_qid r = q2 /\ q2 <> None).

(** The line written for a gold QID and a tool QID. *)
Definition temp_line (p : string * cell) : string :=
  (fst p ++ tab ++ format_cell (snd p))%string.

Definition temp_header : string := ("q1" ++ tab ++ "q2")%string.

(** A score table of triples q1, q2, score. *)
Definition sample_scores : list (string * string * Z) :=
  [("Q9", "Q1", 2%Z); ("Q2", "Q1", 5%Z); ("Q2", "Q1", 7%Z)].

(** The service answers every request with [resp]. *)
Definition answers
    (requests_get : string -> list (string * string)
                    -> list (string * string) -> result response)
    (resp : response) : Prop :=
  forall url headers params, requests_get url headers params = Ok resp.

(** The JSON object [d] holds [v] under [key], whatever else it
    holds. *)
Definition holds (d : pyjson) (key : string) (v : pyjson) : Prop :=
  exists entries, d = JDict entries /\ dict_lookup entries key = Some v.

(** [b] is a SPARQL result binding whose 'itemDescription' has the
    value [v]; it may also give 'type' and 'xml:lang', and bind other
    variables. *)
Definition binding (b v : pyjson) : Prop :=
  exists item, holds b "itemDescription" item /\ holds item "value" v.

(** [body] is a SPARQL result document with the given bindings under
    'results'; it may also have a 'head'. *)
Definition sparql_results (body : pyjson) (bindings : list pyjson) : Prop :=
  exists results,
    holds body "results" results /\ holds results "bindings" (JList bindings).

(** A description as the Wikidata query service sends it. *)
Definition literal (v : string) : pyjson :=
  JDict [("xml:lang", JStr "en"); ("type", JStr "literal");
         ("value", JStr v)].

(** An answer of the service with the given bindings. *)
Definition sparql_answer (bindings : list pyjson) : pyjson :=
  JDict [("head", JDict [("vars", JList [JStr "itemDescription"])]);
         ("results", JDict [("bindings", JList bindings)])].

(** A service that always answers with the same response. *)
Definition always (resp : response)
  : string -> list (string * string) -> list (string * string)
    -> result response :=
  fun _ _ _ => Ok resp.

(** A 200 response with two descriptions, one whose first binding is
    of another variable, and one whose 'results' is null. *)
Definition described : response :=
  {| status_code := 200;
     resp_json :=
       Ok (sparql_answer
             [JDict [("itemDescription", literal "English writer")];
              JDict [("itemDescription", literal "another")]]) |}.

Definition other_variable : response :=
  {| status_code := 200;
     resp_json :=
       Ok (sparql_answer [JDict [("itemLabel", literal "Douglas Adams")]]) |}.

Definition null_results : response :=
  {| status_code := 200; resp_json := Ok (JDict [("results", JNull)]) |}.

(** The row of [score_df] is about the gold QID [g] and the tool QID
    [p]; [q1] and [q2] read its 'q1' and 'q2' cells. *)
Definition scores_pair {R : Type} (q1 q2 : R -> cell) (g : string)
    (p : cell) (r : R) : bool :=
  cell_eqb (q1 r) g && cell_eq (q2 r) p.

(** The true positives and the false positives of the counters. *)
Definition hits (c : counts) : Z := fst (fst c).

Definition wrong_links (c : counts) : Z := snd (fst c).

(** What the selection of the best rows needs of the float operations;
    binary64 has all of it: [>] is asymmetric, [x <= y <= z] gives
    [x <= z] when [y] is a number, a number equals itself, NaN equals
    nothing, and equal floats compare alike. *)
Record num_laws {num : Type} (num_gt num_eq : num -> num -> bool)
    (num_isnan : num -> bool) : Prop := {
  gt_asym : forall x y, num_gt x y = true -> num_gt y x = false;
  gt_negtrans : forall x y z,
    num_isnan y = false ->
    num_gt x y = false -> num_gt y z = false -> num_gt x z = false;
  eq_self : forall x, num_isnan x = false -> num_eq x x = true;
  eq_not_nan : forall x y, num_eq x y = true -> num_isnan x = false;
  eq_gt : forall x y z, num_eq x y = true -> num_gt z x = num_gt z y;
  eq_eq : forall x y z, num_eq x y = true -> num_eq z x = num_eq z y
}.

(** No score of the column is a [str] other than the empty one. *)
Definition no_text {num : Type} (scores : list (scoreval num)) : Prop :=
  forall s, In (SStr num s) scores -> s = "".

(** Row [k] of the three columns holds this id, entity and number, and
    the number is not NaN. *)
Definition scored_row {num : Type} (num_isnan : num -> bool)
    (ids pred_ents : list string) (scores : list (scoreval num))
    (k : nat) (id ent : string) (x : num) : Prop :=
  nth_error ids k = Some id /\ nth_error pred_ents k = Some ent
  /\ nth_error scores k = Some (SNum num x) /\ num_isnan x = false.

(** [eval_df[(eval_df['id']==id) & (eval_df['pred_ent']==ent)]] *)
Definition group {num : Type} (eval_df : list (eval_row num))
    (id ent : string) : list (eval_row num) :=
  filter (fun r => (id_of num r =? id) && (ent_of num r =? ent)) eval_df.

(** [eval_df[eval_df['id']==id]['pred_ent'].unique()] *)
Definition ents_of {num : Type} (eval_df : list (eval_row num))
    (id : string) : list string :=
  unique (map (ent_of num) (filter (fun r => id_of num r =? id) eval_df)).

(** [eval_df] as the loops see it, from its 'id', 'pred_ent' and score
    columns. *)
Definition eval_rows {num : Type} (ids pred_ents : list string)
    (scores : list (scoreval num)) : list (eval_row num) :=
  labelled (combine (combine ids pred_ents) scores).

(** What one turn of the inner loop appends. *)
Definition picked (best : result (option nat)) : list nat :=
  match best with
  | Ok (Some idx) => [idx]
  | _ => []
  end.

(** Scores for the examples: a rational number, or NaN. *)
Definition sample_num : Type := option Q.

Definition sample_gt (x y : sample_num) : bool :=
  match x, y with
  | Some a, Some b => negb (Qle_bool a b)
  | _, _ => false
  end.

Definition sample_eq (x y : sample_num) : bool :=
  match x, y with
  | Some a, Some b => Qeq_bool a b
  | _, _ => false
  end.

Definition sample_isnan (x : sample_num) : bool :=
  match x with
  | Some _ => false
  | None => true
  end.

Definition sample_sum (l : list sample_num) : Q :=
  fold_right (fun x acc => match x with
                           | Some a => (a + acc)%Q
                           | None => acc
                           end) 0%Q l.

(** The mean of no number is NaN. *)
Definition sample_mean (l : list sample_num) : sample_num :=
  match l with
  | [] => None
  | _ :: _ => Some (Qred (sample_sum l / inject_Z (Z.of_nat (List.length l))))
  end.

(** [.mean()] on a column of text, as pandas 3 answers. *)
Definition sample_text_mean : result sample_num := Raise TypeError.

Definition sample_ids : list string := ["d1"; "d1"; "d1"; "d2"].

Definition sample_ents : list string := ["FUEL"; "FUEL"; "FUEL"; "TREE"].

Definition sample_class : list (scoreval sample_num) :=
  [SNum sample_num (Some (1 # 2)); SNum sample_num (Some 1);
   SNum sample_num (Some 1); SNone sample_num].

Definition sample_score_df : list (score_rec sample_num) :=
  [ {| sc_q1 := Some "Q1"; sc_q2 := Some "Q1";
       sc_q1_label := Some "fuel"; sc_q2_label := Some "fuel";
       sc_class := SNum sample_num (Some 1);
       sc_jc := SNum sample_num (Some 1) |};
    {| sc_q1 := Some "Q1"; sc_q2 := Some "Q2";
       sc_q1_label := Some "fuel"; sc_q2_label := Some "oil";
       sc_class := SNum sample_num (Some (1 # 2));
       sc_jc := SStr sample_num EmptyString |} ].

Definition sample_q1 : list string := ["Q1"; "Q1"; "Q1"; "Q3"].

Definition sample_q2 : list cell :=
  [Some "Q2"; Some "Q1"; Some "Q1"; Some "Q9"].

End NelEvalSpec.

Module UniRelSpec.

Import UniRel.

(** The head, relation and tail of a triple. *)
Definition triple : Type := (pylit * pylit * pylit)%type.

Definition as_tuple (t : triple) : pylit :=
  let '(h, rel, tl) := t in LTuple [h; rel; tl].

(** The output row of an input row with the given last three cells. *)
Definition row_with (r : result_row) (h rel tl : pylit) : out_row :=
  {| c5_id := c5 r; c119_input := c119 r; out_c119_output := c119_output r;
     head := h; relation := rel; tail := tl |}.

(** The output rows of one input row whose first parsed element is the
    given list of triples. *)
Definition rows_for (r : result_row) (triples : list triple)
  : list out_row :=
  match triples with
  | [] => [row_with r LNone LNone LNone]
  | _ :: _ => map (fun t : triple =>
                     let '(h, rel, tl) := t in row_with r h rel tl) triples
  end.

(** [ast.literal_eval] on the cells of the examples: three literals,
    and the text nan, which names no literal and is a ValueError. The
    examples use no other text. *)
Definition sample_eval (s : string) : result pylit :=
  if s =? "[[]]" then Ok (LList [LList []])
  else if s =? "[[('RQD', '/business/person/company', 'ALCOHOL')]]" then
    Ok (LList [LList [LTuple [LStr "RQD"; LStr "/business/person/company";
                              LStr "ALCOHOL"]]])
  else if s =? "[]" then Ok (LList [])
  else Raise ValueError.

(** The output rows of the triples of an input row. *)
Definition triple_rows (r : result_row) (triples : list triple)
  : list out_row :=
  map (fun t : triple => let '(h, rel, tl) := t in row_with r h rel tl)
    triples.

(** The outcome of a run, without the frame. *)
Definition outcome (r : run) : result (list out_row) :=
  match r with
  | (Ok _, out_df) => Ok out_df
  | (Raise e, _) => Raise e
  end.

Definition sample_df : list result_row :=
  [ {| c5 := "19890723054159I"; c119 := "RQD ALCOHOL TEST.";
       c119_output := "[[('RQD', '/business/person/company', 'ALCOHOL')]]" |};
    {| c5 := "19900101000000A"; c119 := "NO DAMAGE.";
       c119_output := "[[]]" |} ].

(** The cell of the row parses to a list whose first element is the
    list of these triples, each a 3-tuple. *)
Definition parses_to (literal_eval : string -> result pylit)
    (r : result_row) (triples : list triple) : Prop :=
  exists rest,
    literal_eval (c119_output r)
    = Ok (LList (LList (map as_tuple triples) :: rest)).

(** The cells an output row copies from its input row. *)
Definition copied : Type := (string * string * string)%type.

Definition key_in (r : result_row) : copied :=
  (c5 r, c119 r, c119_output r).

Definition key_out (o : out_row) : copied :=
  (c5_id o, c119_input o, out_c119_output o).

End UniRelSpec.

(** * Lists, indexes and slices *)

Module PythonFacts.

Lemma py_getitem_nat {A} (l : list A) (i : nat) :
  py_getitem l (Z.of_nat i)
  = match nth_error l i with
    | Some a => Ok a
    | None => Raise IndexError
    end.
Proof.
  unfold py_getitem.
  destruct (Z.ltb_spec (Z.of_nat i) 0) as [H|_]; [lia|].
  rewrite Nat2Z.id.
  destruct (Z.leb_spec 0 (Z.of_nat i)) as [_|H]; [|lia]. simpl.
  destruct (Z.ltb_spec (Z.of_nat i) (Z.of_nat (List.length l))) as [H|H].
  - reflexivity.
  - destruct (nth_error l i) eqn:E; [|reflexivity].
    assert (i < List.length l)%nat by (apply nth_error_Some; congruence).
    lia.
Qed.

(** The first entry a filter keeps in a labelled list is the one with
    the smallest label among those that pass. *)
Lemma filter_labelled_nil {A} (p : A -> bool) (l : list A) (k : nat) :
  filter (fun la => p (snd la)) (combine (seq k (List.length l)) l) = [] ->
  forall j t, nth_error l j = Some t -> p t = false.
Proof.
  revert k; induction l as [|a l IH]; intros k H j t Hj.
  - destruct j; discriminate.
  - simpl in H. destruct (p a) eqn:Ea; [discriminate|].
    destruct j as [|j]; simpl in Hj.
    + congruence.
    + eapply IH; eauto.
Qed.

Lemma filter_labelled_cons {A} (p : A -> bool) (l : list A) (k lbl : nat)
    (a : A) (rest : list (nat * A)) :
  filter (fun la => p (snd la)) (combine (seq k (List.length l)) l)
  = (lbl, a) :: rest ->
  (k <= lbl)%nat /\ nth_error l (lbl - k) = Some a /\ p a = true
  /\ forall j t, (j < lbl - k)%nat -> nth_error l j = Some t -> p t = false.
Proof.
  revert k; induction l as [|b l IH]; intros k H.
  - discriminate.
  - simpl in H. destruct (p b) eqn:Eb.
    + inversion H; subst. rewrite Nat.sub_diag. repeat split; auto.
      intros j t Hj. lia.
    + apply IH in H. destruct H as (Hk & Hn & Hp & Hmin).
      repeat split; auto; try lia.
      * replace (lbl - k)%nat with (S (lbl - S k)) by lia. exact Hn.
      * intros j t Hj Ht. destruct j as [|j]; simpl in Ht.
        -- congruence.
        -- apply (Hmin j t); [lia|exact Ht].
Qed.

Lemma py_setitem_nat {A} (l : list A) (i : nat) (v : A) :
  py_setitem l (Z.of_nat i) v
  = if (i <? List.length l)%nat then Ok (set_nth l i v)
    else Raise IndexError.
Proof.
  unfold py_setitem.
  destruct (Z.ltb_spec (Z.of_nat i) 0) as [H|_]; [lia|].
  rewrite Nat2Z.id.
  destruct (Z.leb_spec 0 (Z.of_nat i)) as [_|H]; [|lia]. simpl.
  destruct (Z.ltb_spec (Z.of_nat i) (Z.of_nat (List.length l)));
    destruct (Nat.ltb_spec i (List.length l)); try reflexivity; lia.
Qed.

Lemma index_of_exn {A} (p : A -> bool) (l : list A) (e : exn) :
  index_of p l = Raise e -> e = ValueError.
Proof.
  induction l as [|a l IH]; simpl.
  - congruence.
  - destruct (p a); [discriminate|].
    destruct (index_of p l); simpl; [discriminate|].
    intros H. inversion H; subst. now apply IH.
Qed.

Lemma py_slice_nat {A} (l : list A) (a b : nat) :
  py_slice l (Z.of_nat a) (Z.of_nat b)
  = firstn (Nat.min b (List.length l) - Nat.min a (List.length l))
      (skipn (Nat.min a (List.length l)) l).
Proof.
  unfold py_slice, clamp_bound.
  destruct (Z.ltb_spec (Z.of_nat a) 0); [lia|].
  destruct (Z.ltb_spec (Z.of_nat b) 0); [lia|].
  f_equal; [|f_equal]; lia.
Qed.

Lemma in_py_slice {A} (l : list A) (a b : nat) (x : A) :
  In x (py_slice l (Z.of_nat a) (Z.of_nat b))
  <-> exists k, (a <= k < b)%nat /\ nth_error l k = Some x.
Proof.
  rewrite py_slice_nat. split.
  - intros H. apply In_nth_error in H. destruct H as [k Hk].
    rewrite nth_error_firstn in Hk.
    destruct (Nat.ltb_spec k
                (Nat.min b (List.length l) - Nat.min a (List.length l)));
      [|discriminate].
    rewrite nth_error_skipn in Hk.
    exists (Nat.min a (List.length l) + k)%nat. split; [lia|exact Hk].
  - intros (k & Hk & Hx).
    assert (k < List.length l)%nat by (apply nth_error_Some; congruence).
    apply (nth_error_In _ (k - a)).
    rewrite nth_error_firstn.
    destruct (Nat.ltb_spec (k - a)
                (Nat.min b (List.length l) - Nat.min a (List.length l)));
      [|lia].
    rewrite nth_error_skipn.
    replace (Nat.min a (List.length l) + (k - a))%nat with k by lia.
    exact Hx.
Qed.

Lemma in_labelled {A} (l : list A) (k lbl : nat) (a : A) :
  In (lbl, a) (combine (seq k (List.length l)) l) ->
  (k <= lbl)%nat /\ nth_error l (lbl - k) = Some a.
Proof.
  revert k; induction l as [|b l IH]; intros k H; [destruct H|].
  simpl in H. destruct H as [H|H].
  - inversion H; subst. rewrite Nat.sub_diag. split; [lia|reflexivity].
  - apply IH in H. destruct H as [Hk Hn]. split; [lia|].
    replace (lbl - k)%nat with (S (lbl - S k)) by lia. exact Hn.
Qed.

Lemma filter_both {A} (p q : A -> bool) (l : list A) :
  filter (fun a => p a && q a) l = filter q (filter p l).
Proof.
  induction l as [|a l IH]; [reflexivity|].
  simpl. destruct (p a); simpl; [destruct (q a)|]; now rewrite IH.
Qed.

End PythonFacts.

(** * Properties of the evaluation notebook *)

Module NelEvalFacts.

Import NelEval NelEvalSpec PythonFacts.

Lemma prefix_app (s1 s2 : string) :
  String.prefix s1 s2 = true <-> exists post : string, s2 = (s1 ++ post)%string.
Proof.
  revert s2; induction s1 as [|c s1 IH]; intros s2.
  - destruct s2; simpl; split; eauto.
  - destruct s2 as [|d s2]; simpl.
    + split; [discriminate | intros [post H]; discriminate].
    + destruct (ascii_dec c d) as [->|Hne].
      * rewrite IH. split; intros [post H]; exists post.
        -- now rewrite H.
        -- now inversion H.
      * split; [discriminate|].
        intros [post H]. inversion H. congruence.
Qed.

Lemma str_contains_spec (sub s : string) :
  str_contains sub s = true <-> substring_of sub s.
Proof.
  unfold substring_of.
  induction s as [|c s IH].
  - cbn [str_contains]. rewrite orb_false_r, prefix_app. split.
    + intros [post H]. exists "", post. exact H.
    + intros [pre [post H]]. destruct pre; [|discriminate].
      exists post. exact H.
  - cbn [str_contains]. rewrite orb_true_iff, prefix_app, IH. split.
    + intros [[post H]|[pre [post H]]].
      * exists "", post. exact H.
      * exists (String c pre), post. simpl. now rewrite H.
    + intros [pre [post H]]. destruct pre as [|d pre].
      * left. exists post. exact H.
      * right. exists pre, post. simpl in H. now inversion H.
Qed.

Lemma is_match_valid (matching ent1 ent2 : string) (out : list string) :
  matching = "STRONG" \/ matching = "WEAK" ->
  is_match (PStr ent1) (PStr ent2) matching out
  = (Ok (Some (matches matching ent1 ent2)), out).
Proof.
  intros [->| ->]; unfold is_match, matches, ret, any; simpl;
    [reflexivity | now rewrite orb_false_r].
Qed.

Example is_match_weak_overlap :
  is_match (PStr "LEFT ENGINE") (PStr "ENGINE") "WEAK" [] = (Ok (Some true), [])
  /\ is_match (PStr "LEFT ENGINE") (PStr "ENGINE") "STRONG" []
     = (Ok (Some false), []).
Proof.
  split; reflexivity.
Qed.

(** C6: on two strings, "STRONG" answers True exactly when they are
    equal and "WEAK" exactly when one occurs in the other; when an
    argument is not a string both policies answer False. Nothing is
    printed in any of these cases. *)
Theorem is_match_policies :
  (forall ent1 ent2 out, exists b,
      is_match (PStr ent1) (PStr ent2) "STRONG" out = (Ok (Some b), out)
      /\ (b = true <-> ent1 = ent2))
  /\ (forall ent1 ent2 out, exists b,
      is_match (PStr ent1) (PStr ent2) "WEAK" out = (Ok (Some b), out)
      /\ (b = true <-> substring_of ent1 ent2 \/ substring_of ent2 ent1))
  /\ (forall ent1 ent2 out,
      is_str ent1 = false \/ is_str ent2 = false ->
      is_match ent1 ent2 "STRONG" out = (Ok (Some false), out)
      /\ is_match ent1 ent2 "WEAK" out = (Ok (Some false), out)).
Proof.
  split; [|split].
  - intros ent1 ent2 out. exists (ent1 =? ent2). split; [reflexivity|].
    apply String.eqb_eq.
  - intros ent1 ent2 out.
    exists (str_contains ent1 ent2 || str_contains ent2 ent1). split.
    + unfold is_match, ret, any. simpl. now rewrite orb_false_r.
    + now rewrite orb_true_iff, !str_contains_spec.
  - intros ent1 ent2 out H.
    destruct ent1, ent2; simpl in H; try (split; reflexivity);
      destruct H; discriminate.
Qed.

Lemma is_match_policies_witness :
  is_match PNone (PStr "ENGINE") "STRONG" [] = (Ok (Some false), [])
  /\ is_match PNone (PStr "ENGINE") "WEAK" [] = (Ok (Some false), []).
Proof.
  apply (proj2 (proj2 is_match_policies) PNone (PStr "ENGINE") []).
  left. reflexivity.
Defined.

(** C9, as stated, fails: with an argument that is not a string the
    type test answers False first, whatever the policy. *)
Lemma is_match_unknown_policy_not_always_None :
  ~ answers_None PNone (PStr "ENGINE") "MEDIUM".
Proof.
  intros H. specialize (H []). discriminate H.
Qed.

(** C9, amended: with a policy other than "STRONG" and "WEAK", two
    strings get the answer None after the error line is printed, and no
    exception is raised; when an argument is not a string the answer is
    False and nothing is printed. *)
Theorem is_match_unknown_policy (ent1 ent2 : pyval) (matching : string) :
  matching <> "STRONG" -> matching <> "WEAK" ->
  (is_str ent1 = true -> is_str ent2 = true ->
   answers_None ent1 ent2 matching)
  /\ (is_str ent1 = false \/ is_str ent2 = false ->
      forall out, is_match ent1 ent2 matching out = (Ok (Some false), out)).
Proof.
  intros Hs Hw. apply String.eqb_neq in Hs, Hw. split.
  - intros H1 H2 out. destruct ent1, ent2; try discriminate.
    unfold is_match. rewrite Hs, Hw. reflexivity.
  - intros H out.
    destruct ent1, ent2; simpl in H; try reflexivity;
      destruct H; discriminate.
Qed.

Lemma is_match_unknown_policy_witness :
  answers_None (PStr "ENGINE") (PStr "ENGINE") "MEDIUM"
  /\ is_match (PStr "ENGINE") PNaN "MEDIUM" [] = (Ok (Some false), []).
Proof.
  split.
  - apply (proj1 (is_match_unknown_policy (PStr "ENGINE") (PStr "ENGINE")
                    "MEDIUM" ltac:(discriminate) ltac:(discriminate)));
      reflexivity.
  - apply (proj2 (is_match_unknown_policy (PStr "ENGINE") PNaN
                    "MEDIUM" ltac:(discriminate) ltac:(discriminate))).
    right. reflexivity.
Defined.

(** *** find_match *)

Lemma series_apply_valid (matching ent2 : string) (s : Series string)
    (out : list string) :
  valid_policy matching ->
  series_apply (fun ent1 => is_match (PStr ent1) (PStr ent2) matching) s out
  = (Ok (map (fun la => (fst la, Some (matches matching (snd la) ent2))) s),
     out).
Proof.
  intros Hv. induction s as [|[lbl a] s IH]; [reflexivity|].
  cbn [series_apply]. unfold bind at 1.
  rewrite (is_match_valid _ _ _ _ Hv).
  unfold bind at 1. rewrite IH. reflexivity.
Qed.

Lemma series_mask_map {A} (p : A -> bool) (s : Series A) :
  series_mask s (map (fun la => (fst la, Some (p (snd la)))) s)
  = Ok (filter (fun la => p (snd la)) s).
Proof.
  induction s as [|[lbl a] s IH]; [reflexivity|].
  cbn [series_mask map fst snd filter]. rewrite IH. simpl.
  destruct (p a); reflexivity.
Qed.

(** One turn of the loop of [find_match] under a valid policy. *)
Lemma find_match_loop_step (gs_entities : list string)
    (s : Series string) (matching : string) (i : nat) (range : list nat)
    (out : list string) :
  valid_policy matching ->
  find_match_loop gs_entities s matching (i :: range) out
  = match nth_error gs_entities i with
    | None => (Raise IndexError, out)
    | Some g =>
        match filter (fun la => matches matching (snd la) g) s with
        | (lbl, _) :: _ => (Ok (Z.of_nat i, Z.of_nat lbl), out)
        | [] => find_match_loop gs_entities s matching range out
        end
    end.
Proof.
  intros Hv. cbn [find_match_loop]. unfold bind at 1, liftR at 1.
  rewrite py_getitem_nat.
  destruct (nth_error gs_entities i) as [g|]; [|reflexivity].
  unfold bind at 1. rewrite (series_apply_valid _ _ _ _ Hv).
  unfold bind at 1, liftR at 1.
  rewrite (series_mask_map (fun t => matches matching t g)).
  destruct (filter _ s) as [|[lbl a] rest]; reflexivity.
Qed.

(** What the loop returns over the gold positions [start .. start+n-1]
    when they all exist. *)
Lemma find_match_loop_spec (gs_entities tool_entities : list string)
    (matching : string) (out : list string) (n start : nat) :
  valid_policy matching ->
  (start + n <= List.length gs_entities)%nat ->
  let hit i j :=
    exists g t, nth_error gs_entities i = Some g
                /\ nth_error tool_entities j = Some t
                /\ matches matching t g = true in
  (find_match_loop gs_entities (pd_Series tool_entities) matching
     (seq start n) out = (Ok ((-1)%Z, (-1)%Z), out)
   /\ forall i j, (start <= i < start + n)%nat -> ~ hit i j)
  \/ exists i j,
      find_match_loop gs_entities (pd_Series tool_entities) matching
        (seq start n) out = (Ok (Z.of_nat i, Z.of_nat j), out)
      /\ (start <= i < start + n)%nat /\ hit i j
      /\ (forall i' j', (start <= i' < start + n)%nat -> hit i' j' ->
                        (i <= i')%nat)
      /\ (forall j', hit i j' -> (j <= j')%nat).
Proof.
  intros Hv. revert start. induction n as [|n IH]; intros start Hlen hit.
  - left. split; [reflexivity|]. intros i j Hi. lia.
  - cbn [seq]. rewrite (find_match_loop_step _ _ _ _ _ _ Hv).
    destruct (nth_error gs_entities start) as [g|] eqn:Eg.
    2:{ apply nth_error_None in Eg. lia. }
    unfold pd_Series.
    destruct (filter _ (combine _ tool_entities)) as [|[lbl a] rest] eqn:Ef.
    + pose proof (filter_labelled_nil (fun t => matches matching t g)
                    _ _ Ef) as Hnone. cbv beta in Hnone.
      destruct (IH (S start) ltac:(lia))
        as [[Hr Hno]|(i & j & Hr & Hi & Hh & Hmi & Hmj)].
      * left. split; [exact Hr|].
        intros i j Hi (g' & t & Hg' & Ht & Hm).
        destruct (Nat.eq_dec i start) as [->|Hne].
        -- rewrite Eg in Hg'. inversion Hg'; subst.
           rewrite (Hnone j t Ht) in Hm. discriminate.
        -- apply (Hno i j); [lia|]. exists g', t. auto.
      * right. exists i, j. split; [exact Hr|].
        split; [lia|]. split; [exact Hh|]. split; [|exact Hmj].
        intros i' j' Hi' (g' & t & Hg' & Ht & Hm).
        destruct (Nat.eq_dec i' start) as [->|Hne].
        -- rewrite Eg in Hg'. inversion Hg'; subst.
           rewrite (Hnone j' t Ht) in Hm. discriminate.
        -- apply (Hmi i' j'); [lia|]. exists g', t. auto.
    + apply (filter_labelled_cons (fun t => matches matching t g)) in Ef.
      cbv beta in Ef.
      destruct Ef as (_ & Hn & Hp & Hmin). rewrite Nat.sub_0_r in *.
      right. exists start, lbl. split; [reflexivity|].
      split; [lia|]. split; [exists g, a; auto|]. split.
      * intros i' j' Hi' _. lia.
      * intros j' (g' & t & Hg' & Ht & Hm).
        rewrite Eg in Hg'. inversion Hg'; subst.
        destruct (Nat.le_gt_cases lbl j') as [Hle|Hlt]; [exact Hle|].
        rewrite (Hmin j' t Hlt Ht) in Hm. discriminate.
Qed.

Example find_match_extended_second :
  find_match ["FUEL PUMP"; "PUMP"] ["ENGINE"; "PUMP"] "STRONG" "EXTENDED" []
  = (Ok (1%Z, 1%Z), [])
  /\ find_match ["FUEL PUMP"; "PUMP"] ["ENGINE"; "PUMP"] "STRONG" "PRIMARY" []
     = (Ok ((-1)%Z, (-1)%Z), []).
Proof.
  split; reflexivity.
Qed.

(** The gold positions [find_match] visits exist, unless the gold list
    is empty and the gold set is not "EXTENDED". *)
Lemma considered_le (gs_entities : list string) (gold_set : string) :
  gold_set = "EXTENDED" \/ gs_entities <> [] ->
  (0 + considered gs_entities gold_set <= List.length gs_entities)%nat.
Proof.
  intros Hne. unfold considered.
  destruct (gold_set =? "EXTENDED") eqn:E; [lia|].
  destruct Hne as [->|Hne]; [discriminate|].
  destruct gs_entities; [congruence|simpl; lia].
Qed.


(** Why both callers skip a gold record whose pruned list is empty:
    under PRIMARY the loop would still read the first gold entity. *)
Lemma find_match_empty_primary_raises :
  (forall i j, ~ considered_match [] ["ENGINE"] "STRONG" "PRIMARY" i j)
  /\ find_match [] ["ENGINE"] "STRONG" "PRIMARY" []
     = (Raise IndexError, []).
Proof.
  split; [|reflexivity].
  intros i j (_ & g & t & Hg & _). destruct i; discriminate.
Qed.




(** *** prune_gold_set *)

Lemma dropna_filter (rows : list (cell * cell)) :
  map as_row (dropna rows) = filter both_present rows.
Proof.
  induction rows as [|[e q] rows IH]; [reflexivity|].
  destruct e, q; simpl; try exact IH.
  now rewrite IH.
Qed.

Example prune_gold_set_fill :
  prune_gold_set [Some "FUEL PUMP"; Some "PUMP"; Some "PART"]
    [None; None; Some "Q3"] "EXTENDED" true
  = Ok (["FUEL PUMP"; "PUMP"; "PART"], ["Q3"; "Q3"; "Q3"])
  /\ prune_gold_set [Some "FUEL PUMP"; Some "PUMP"; Some "PART"]
       [None; None; Some "Q3"] "EXTENDED" false
     = Ok (["PART"], ["Q3"]).
Proof.
  split; reflexivity.
Qed.

(** C7, as stated, fails when the two lists differ in length: the
    two-column frame cannot be built and the call raises ValueError,
    although position 0 holds an entity and a QID. *)
Lemma prune_gold_set_unequal_lengths :
  prune_gold_set [Some "ENGINE"] [Some "Q1"; Some "Q2"] "PRIMARY" false
  = Raise ValueError
  /\ filter both_present
       (firstn (kept_positions "PRIMARY")
          (combine [Some "ENGINE"] [Some "Q1"; Some "Q2"]))
     = [(Some "ENGINE", Some "Q1")].
Proof.
  split; reflexivity.
Qed.

(** C7, amended: for an entity list and a QID list of the same length,
    without fill-in the result holds exactly the (entity, QID) pairs of
    the first 1 position (3 under "EXTENDED") in which both are not
    None, in their order. *)
Theorem prune_gold_set_spec (gs_entities gs_qids : list cell)
    (gold_set : string) :
  List.length gs_entities = List.length gs_qids ->
  exists kept : list (string * string),
    prune_gold_set gs_entities gs_qids gold_set false
    = Ok (map fst kept, map snd kept)
    /\ map as_row kept
       = filter both_present
           (firstn (kept_positions gold_set) (combine gs_entities gs_qids)).
Proof.
  intros Hlen. unfold prune_gold_set, pd_DataFrame. cbn [andb rbind].
  apply Nat.eqb_eq in Hlen. rewrite Hlen. cbn [rbind].
  eexists. split; [reflexivity|]. apply dropna_filter.
Qed.

Lemma prune_gold_set_spec_witness :
  exists kept : list (string * string),
    prune_gold_set [Some "FUEL PUMP"; None; Some "PUMP"]
      [Some "Q1"; Some "Q2"; Some "Q3"] "EXTENDED" false
    = Ok (map fst kept, map snd kept)
    /\ map as_row kept
       = filter both_present
           (firstn (kept_positions "EXTENDED")
              (combine [Some "FUEL PUMP"; None; Some "PUMP"]
                 [Some "Q1"; Some "Q2"; Some "Q3"])).
Proof.
  apply (prune_gold_set_spec [Some "FUEL PUMP"; None; Some "PUMP"]
           [Some "Q1"; Some "Q2"; Some "Q3"] "EXTENDED").
  reflexivity.
Defined.

(** With three or more QIDs the fill-in reads and writes inside the
    list: it does not raise IndexError. *)
Lemma fill_in_in_bounds (gs_qids : list cell) :
  (3 <= List.length gs_qids)%nat ->
  fill_in gs_qids <> Raise IndexError.
Proof.
  intros Hlen.
  destruct gs_qids as [|a [|b [|c rest]]]; simpl in Hlen; try lia.
  unfold fill_in.
  destruct (index_of is_none (a :: b :: c :: rest)) as [none_idx|e] eqn:Ei.
  2:{ apply index_of_exn in Ei. subst e. discriminate. }
  cbn [rbind].
  change 1%Z with (Z.of_nat 1). change 2%Z with (Z.of_nat 2).
  change 0%Z with (Z.of_nat 0).
  rewrite !py_getitem_nat. cbn [nth_error rbind].
  destruct (none_idx =? Z.of_nat 0)%Z, (none_idx =? Z.of_nat 1)%Z;
    cbn [py_and rbind];
    destruct (not_none b); cbn [rbind];
    rewrite ?py_setitem_nat; cbn [Nat.ltb Nat.leb List.length rbind set_nth];
    try discriminate;
    destruct (not_none c); cbn [rbind py_and];
    rewrite ?py_getitem_nat, ?py_setitem_nat;
    cbn [Nat.ltb Nat.leb List.length rbind set_nth nth_error];
    rewrite ?py_setitem_nat;
    cbn [Nat.ltb Nat.leb List.length rbind set_nth nth_error];
    discriminate.
Qed.

Lemma prune_gold_set_exn (gs_entities gs_qids : list cell)
    (gold_set : string) :
  fill_in gs_qids <> Raise IndexError ->
  prune_gold_set gs_entities gs_qids gold_set true <> Raise IndexError.
Proof.
  intros Hfill. unfold prune_gold_set. cbn [andb].
  destruct (existsb is_none gs_qids).
  - destruct (fill_in gs_qids) as [l|e]; cbn [rbind].
    + unfold pd_DataFrame. destruct (_ =? _)%nat; discriminate.
    + congruence.
  - cbn [rbind]. unfold pd_DataFrame. destruct (_ =? _)%nat; discriminate.
Qed.

(** C10, as stated, fails: two QIDs with None first and a QID second
    are filled in without any read outside the list. *)
Lemma prune_gold_set_fill_in_two_qids :
  (List.length [None; Some "Q1"] < 3)%nat
  /\ first_none_at [None; Some "Q1"] 0
  /\ prune_gold_set [Some "FUEL PUMP"; Some "PUMP"] [None; Some "Q1"]
       "EXTENDED" true
     = Ok (["FUEL PUMP"; "PUMP"], ["Q1"; "Q1"]).
Proof.
  split; [simpl; lia|]. split; reflexivity.
Qed.

(** C10, amended: with fill-in, three or more QIDs keep every index
    inside the list; with fewer than three QIDs whose first None is at
    position 0 or 1, an index is out of range except when the list is
    [None, q] with q not None, which is filled in from position 1. *)
Theorem prune_gold_set_fill_in_bounds :
  (forall gs_entities gs_qids gold_set,
      (3 <= List.length gs_qids)%nat ->
      prune_gold_set gs_entities gs_qids gold_set true <> Raise IndexError)
  /\ (forall gs_entities gs_qids gold_set,
      (List.length gs_qids < 3)%nat ->
      first_none_at gs_qids 0 \/ first_none_at gs_qids 1 ->
      (prune_gold_set gs_entities gs_qids gold_set true = Raise IndexError
       <-> forall q, gs_qids <> [None; Some q])).
Proof.
  split.
  - intros gs_entities gs_qids gold_set Hlen.
    apply prune_gold_set_exn, fill_in_in_bounds, Hlen.
  - intros gs_entities gs_qids gold_set Hlen Hnone.
    unfold first_none_at in Hnone.
    destruct gs_qids as [|a [|b [|c rest]]]; simpl in Hlen; try lia.
    + destruct Hnone; discriminate.
    + destruct a as [a|].
      * destruct Hnone; discriminate.
      * split; [intros _ q; discriminate | intros _; reflexivity].
    + destruct a as [a|], b as [b|].
      * destruct Hnone; discriminate.
      * split; [intros _ q; discriminate | intros _; reflexivity].
      * split.
        -- intros H. exfalso. revert H. apply prune_gold_set_exn.
           discriminate.
        -- intros H. exfalso. apply (H b). reflexivity.
      * split; [intros _ q; discriminate | intros _; reflexivity].
Qed.

Lemma prune_gold_set_fill_in_bounds_witness :
  prune_gold_set [Some "FUEL PUMP"; Some "PUMP"; None]
    [None; None; Some "Q3"] "EXTENDED" true <> Raise IndexError
  /\ (prune_gold_set [Some "FUEL PUMP"; Some "PUMP"] [Some "Q1"; None]
        "EXTENDED" true = Raise IndexError
      <-> forall q, [Some "Q1"; None] <> [None; Some q]).
Proof.
  split.
  - apply (proj1 prune_gold_set_fill_in_bounds). simpl. lia.
  - apply (proj2 prune_gold_set_fill_in_bounds).
    + simpl. lia.
    + right. reflexivity.
Defined.

(** *** The rows a gold record is compared with *)

Lemma selected_rows_filter (df_tool : list tool_row) (gs_id : string) :
  selected_rows df_tool gs_id
  = map fst (filter (fun lr => same_doc gs_id (snd lr) && has_qid (snd lr))
               (labelled df_tool)).
Proof.
  unfold selected_rows. generalize (labelled df_tool) as l.
  induction l as [|[lbl r] l IH]; [reflexivity|].
  cbn [filter snd fst]. fold (same_doc gs_id r).
  destruct (same_doc gs_id r); cbn [andb map filter snd fst].
  - fold (has_qid r). destruct (has_qid r); cbn [map fst]; now rewrite IH.
  - exact IH.
Qed.

Lemma loc_labelled {A} (p : A -> bool) (pre l : list A) :
  loc (pre ++ l)
    (map fst (filter (fun lr => p (snd lr))
                (combine (seq (List.length pre) (List.length l)) l)))
  = Ok (filter p l).
Proof.
  revert pre; induction l as [|a l IH]; intros pre; [reflexivity|].
  cbn [List.length seq combine filter snd].
  assert (Hrest :
    loc (pre ++ a :: l)
      (map fst (filter (fun lr => p (snd lr))
                  (combine (seq (S (List.length pre)) (List.length l)) l)))
    = Ok (filter p l)).
  { specialize (IH (pre ++ [a])).
    rewrite <- app_assoc, length_app in IH. simpl in IH.
    rewrite Nat.add_1_r in IH. exact IH. }
  destruct (p a); [|exact Hrest].
  cbn [map fst loc].
  rewrite nth_error_app2, Nat.sub_diag by lia. cbn [nth_error].
  rewrite Hrest. reflexivity.
Qed.

(** [df_tool.loc[selected_rows]] is the list of tool predictions, in
    the order of [df_tool]. *)
Lemma loc_selected_rows (df_tool : list tool_row) (gs_id : string) :
  loc df_tool (selected_rows df_tool gs_id)
  = Ok (tool_predictions df_tool gs_id).
Proof.
  rewrite selected_rows_filter.
  exact (loc_labelled (fun r => same_doc gs_id r && has_qid r) [] df_tool).
Qed.

(** *** Slices and labels *)

Lemma series_mask_incl {A} (s r : Series A) (mask : Series (option bool)) :
  series_mask s mask = Ok r -> incl r s.
Proof.
  revert r mask; induction s as [|[lbl a] s IH]; intros r mask H.
  - simpl in H. inversion H. apply incl_nil_l.
  - destruct mask as [|[lbl' [b|]] mask]; simpl in H.
    + inversion H. apply incl_nil_l.
    + destruct (series_mask s mask) as [rest|e] eqn:E; simpl in H;
        [|discriminate].
      apply IH in E. inversion H; subst.
      destruct b.
      * apply incl_cons; [left; reflexivity|]. now apply incl_tl.
      * now apply incl_tl.
    + discriminate.
Qed.

(** Whatever the policy, a pair other than (-1, -1) that the loop of
    [find_match] returns names a gold position of its range and a tool
    position that exists. *)
Lemma find_match_loop_positions (gs_entities tool_entities : list string)
    (matching : string) (range : list nat) (out out' : list string)
    (r : Z * Z) :
  find_match_loop gs_entities (pd_Series tool_entities) matching range out
  = (Ok r, out') ->
  r = ((-1)%Z, (-1)%Z)
  \/ exists i j t, r = (Z.of_nat i, Z.of_nat j) /\ In i range
                   /\ nth_error tool_entities j = Some t.
Proof.
  revert out; induction range as [|i range IH]; intros out H.
  - left. inversion H. reflexivity.
  - cbn [find_match_loop] in H. unfold bind at 1, liftR at 1 in H.
    destruct (py_getitem gs_entities (Z.of_nat i)) as [g|e]; [|discriminate].
    unfold bind at 1 in H.
    destruct (series_apply _ (pd_Series tool_entities) out)
      as [[mask|e] out1]; [|discriminate].
    unfold bind at 1, liftR at 1 in H.
    destruct (series_mask (pd_Series tool_entities) mask)
      as [[|[lbl a] rest]|e] eqn:Em; [| |discriminate].
    + apply IH in H. destruct H as [H|(i' & j & t & Hr & Hi & Ht)].
      * left. exact H.
      * right. exists i', j, t. split; [exact Hr|].
        split; [right; exact Hi|exact Ht].
    + inversion H; subst. right. exists i, lbl, a.
      split; [reflexivity|]. split; [left; reflexivity|].
      apply series_mask_incl in Em.
      specialize (Em (lbl, a) (or_introl eq_refl)).
      apply in_labelled in Em. rewrite Nat.sub_0_r in Em. apply Em.
Qed.

(** *** One gold record *)

(** The loop body, stage by stage. *)
Lemma score_row_eq {Str : PyStr}
    (df_tool : list tool_row) (matching gold_set : string)
    (fill_in_qids : bool) (TP FP FN : Z) (gs_row : gold_row)
    (out : list string) :
  score_row df_tool matching gold_set fill_in_qids (TP, FP, FN) gs_row out
  = match prune_gold_set (gs_entity gs_row) (gs_qid gs_row)
            gold_set fill_in_qids with
    | Raise e => (Raise e, out)
    | Ok (gs_entities, gs_qids) =>
        if (List.length gs_entities =? 0)%nat then (Ok (TP, FP, FN), out)
        else
          let preds := tool_predictions df_tool (gs_id gs_row) in
          match upper_all (map tool_ent preds) with
          | Raise e => (Raise e, out)
          | Ok tool_entities =>
              match find_match gs_entities tool_entities matching
                      gold_set out with
              | (Raise e, out') => (Raise e, out')
              | (Ok (gi, ti), out') =>
                  if (gi =? -1)%Z then (Ok (TP, FP, (FN + 1)%Z), out')
                  else
                    match py_getitem (map tool_qid preds) ti with
                    | Raise e => (Raise e, out')
                    | Ok q =>
                        if py_in q
                             (py_slice gs_qids
                                (if gold_set =? "EXTENDED" then 0%Z else gi)
                                (gi + 1)%Z)
                        then (Ok ((TP + 1)%Z, FP, FN), out')
                        else (Ok (TP, (FP + 1)%Z, FN), out')
                    end
              end
          end
    end.
Proof.
  unfold score_row. unfold bind at 1, liftR at 1.
  destruct (prune_gold_set _ _ _ _) as [[gs_entities gs_qids]|e];
    [|reflexivity].
  destruct (List.length gs_entities =? 0)%nat; [reflexivity|].
  unfold bind at 1, liftR at 1. rewrite loc_selected_rows.
  unfold bind at 1, liftR at 1.
  destruct (upper_all _) as [tool_entities|e]; [|reflexivity].
  unfold bind at 1, liftR at 1.
  unfold bind at 1.
  destruct (find_match _ _ _ _ out) as [[[gi ti]|e] out']; [|reflexivity].
  destruct (gi =? -1)%Z; [reflexivity|].
  unfold bind, liftR.
  destruct (py_getitem _ ti) as [q|e]; [|reflexivity].
  destruct (py_in q _); reflexivity.
Qed.

Lemma upper_all_length {Str : PyStr} (col : list cell) (l : list string) :
  upper_all col = Ok l -> List.length l = List.length col.
Proof.
  revert l; induction col as [|[s|] col IH]; intros l H; simpl in H.
  - inversion H. reflexivity.
  - destruct (upper_all col) as [rest|e]; simpl in H; [|discriminate].
    inversion H; subst. simpl. f_equal. now apply IH.
  - discriminate.
Qed.

Lemma py_in_slice (q : cell) (gs_qids : list string) (a b : nat) :
  py_in q (py_slice gs_qids (Z.of_nat a) (Z.of_nat b)) = true
  <-> exists k g, (a <= k < b)%nat /\ nth_error gs_qids k = Some g
                  /\ q = Some g.
Proof.
  unfold py_in. rewrite existsb_exists. split.
  - intros (g & Hin & Heq). apply in_py_slice in Hin.
    destruct Hin as (k & Hk & Hn). exists k, g.
    split; [exact Hk|]. split; [exact Hn|].
    destruct q as [s|]; [|discriminate].
    simpl in Heq. apply String.eqb_eq in Heq. now subst.
  - intros (k & g & Hk & Hn & ->). exists g. split.
    + apply in_py_slice. exists k. auto.
    + simpl. apply String.eqb_refl.
Qed.

(** C5: when [find_match] answers gold position i and tool position j,
    the record is a true positive exactly when the tool QID at j is one
    of the gold QIDs at positions start..i (start = 0 under "EXTENDED",
    start = i otherwise), and a false positive exactly when it is not. *)
Theorem score_row_link {Str : PyStr} (df_tool : list tool_row)
    (matching gold_set : string) (fill_in_qids : bool) (TP FP FN : Z)
    (gs_row : gold_row) (gs_entities gs_qids tool_entities : list string)
    (i j : nat) (out out' : list string) :
  prune_gold_set (gs_entity gs_row) (gs_qid gs_row) gold_set fill_in_qids
  = Ok (gs_entities, gs_qids) ->
  gs_entities <> [] ->
  upper_all (map tool_ent (tool_predictions df_tool (gs_id gs_row)))
  = Ok tool_entities ->
  find_match gs_entities tool_entities matching gold_set out
  = (Ok (Z.of_nat i, Z.of_nat j), out') ->
  let start := if gold_set =? "EXTENDED" then 0%nat else i in
  let tool_qids := map tool_qid (tool_predictions df_tool (gs_id gs_row)) in
  let scored :=
    score_row df_tool matching gold_set fill_in_qids (TP, FP, FN) gs_row out in
  exists q,
    nth_error tool_qids j = Some q
    /\ let linked := exists k g, (start <= k <= i)%nat
                                 /\ nth_error gs_qids k = Some g
                                 /\ q = Some g in
       (scored = (Ok ((TP + 1)%Z, FP, FN), out') <-> linked)
       /\ (scored = (Ok (TP, (FP + 1)%Z, FN), out') <-> ~ linked).
Proof.
  intros Hprune Hne Hup Hfind start tool_qids scored.
  assert (Hj : exists t, nth_error tool_entities j = Some t).
  { unfold find_match in Hfind.
    apply find_match_loop_positions in Hfind.
    destruct Hfind as [H|(i' & j' & t & Hr & _ & Ht)].
    - inversion H. lia.
    - inversion Hr. apply Nat2Z.inj in H1. subst j'. eauto. }
  destruct Hj as [t Ht].
  assert (Hlt : (j < List.length tool_qids)%nat).
  { unfold tool_qids. rewrite length_map.
    rewrite <- (length_map tool_ent), <- (upper_all_length _ _ Hup).
    apply nth_error_Some. congruence. }
  destruct (nth_error tool_qids j) as [q|] eqn:Eq.
  2:{ apply nth_error_None in Eq. lia. }
  exists q. split; [reflexivity|].
  intros linked.
  assert (Hscored :
    scored = if py_in q (py_slice gs_qids (Z.of_nat start) (Z.of_nat (S i)))
             then (Ok ((TP + 1)%Z, FP, FN), out')
             else (Ok (TP, (FP + 1)%Z, FN), out')).
  { unfold scored. rewrite score_row_eq, Hprune.
    destruct gs_entities as [|g0 gs_entities]; [congruence|].
    cbn [List.length Nat.eqb]. cbv zeta. rewrite Hup, Hfind.
    destruct (Z.eqb_spec (Z.of_nat i) (-1)) as [H|_]; [lia|].
    fold tool_qids. rewrite py_getitem_nat, Eq.
    replace (Z.of_nat i + 1)%Z with (Z.of_nat (S i)) by lia.
    unfold start. destruct (gold_set =? "EXTENDED"); reflexivity. }
  assert (Hlinked :
    py_in q (py_slice gs_qids (Z.of_nat start) (Z.of_nat (S i))) = true
    <-> linked).
  { rewrite py_in_slice. unfold linked.
    split; intros (k & g & Hk & Hn & Hq); exists k, g;
      (split; [lia|split; assumption]). }
  rewrite Hscored.
  destruct (py_in q _).
  - split; split; intros H.
    + apply Hlinked. reflexivity.
    + reflexivity.
    + inversion H. lia.
    + exfalso. apply H, Hlinked. reflexivity.
  - split; split; intros H.
    + inversion H. lia.
    + apply Hlinked in H. discriminate.
    + intros Hl. apply Hlinked in Hl. discriminate.
    + reflexivity.
Qed.

Lemma score_row_link_witness :
  exists q,
    nth_error (map tool_qid (tool_predictions pump_tool (gs_id pump_gold))) 0
    = Some q
    /\ let linked := exists k g, (0 <= k <= 1)%nat
                                 /\ nth_error ["Q1"; "Q2"] k = Some g
                                 /\ q = Some g in
       (score_row pump_tool "STRONG" "EXTENDED" false (0, 0, 0)%Z pump_gold []
        = (Ok ((0 + 1)%Z, 0%Z, 0%Z), []) <-> linked)
       /\ (score_row pump_tool "STRONG" "EXTENDED" false (0, 0, 0)%Z
             pump_gold []
           = (Ok (0%Z, (0 + 1)%Z, 0%Z), []) <-> ~ linked).
Proof.
  apply (score_row_link pump_tool "STRONG" "EXTENDED" false 0 0 0 pump_gold
           ["FUEL PUMP"; "PUMP"] ["Q1"; "Q2"] ["PUMP"] 1 0 [] []).
  - reflexivity.
  - discriminate.
  - reflexivity.
  - reflexivity.
Defined.

(** C3, as stated, fails: a tool row on the same document whose QID is
    missing is left out of the comparison, so a gold entity that the
    row names is scored as missing. *)
Lemma selected_rows_skip_missing_qid :
  filter (same_doc (gs_id pump_gold)) unlinked_tool = unlinked_tool
  /\ loc unlinked_tool (selected_rows unlinked_tool (gs_id pump_gold))
     = Ok []
  /\ score_row unlinked_tool "STRONG" "PRIMARY" false (0, 0, 0)%Z
       pump_gold []
     = (Ok (0, 0, 1)%Z, []).
Proof.
  repeat split.
Qed.

(** C3, amended: the tool rows a gold record is compared with are
    exactly the rows of [df_tool] whose document id equals the record's
    id and whose QID is present, in table order; rows with another
    document id never change how the record is scored. *)
Theorem score_row_same_doc {Str : PyStr} :
  (forall df_tool gs_id,
      loc df_tool (selected_rows df_tool gs_id)
      = Ok (filter (fun r => same_doc gs_id r && has_qid r) df_tool))
  /\ (forall df_tool df_tool' matching gold_set fill_in_qids c gs_row out,
      filter (same_doc (gs_id gs_row)) df_tool
      = filter (same_doc (gs_id gs_row)) df_tool' ->
      score_row df_tool matching gold_set fill_in_qids c gs_row out
      = score_row df_tool' matching gold_set fill_in_qids c gs_row out).
Proof.
  split.
  - exact loc_selected_rows.
  - intros df_tool df_tool' matching gold_set fill_in_qids [[TP FP] FN]
      gs_row out H.
    assert (Hp : tool_predictions df_tool (gs_id gs_row)
                 = tool_predictions df_tool' (gs_id gs_row)).
    { unfold tool_predictions. now rewrite !filter_both, H. }
    rewrite !score_row_eq, Hp. reflexivity.
Qed.

Lemma score_row_same_doc_witness :
  score_row pump_tool "STRONG" "EXTENDED" false (0, 0, 0)%Z pump_gold []
  = score_row (firstn 1 pump_tool) "STRONG" "EXTENDED" false (0, 0, 0)%Z
      pump_gold [].
Proof.
  apply (proj2 score_row_same_doc). reflexivity.
Defined.

(** *** The counters *)

Lemma score_row_counts {Str : PyStr} (df_tool : list tool_row)
    (matching gold_set : string) (fill_in_qids : bool) (c c' : counts)
    (gs_row : gold_row) (out out' : list string) :
  score_row df_tool matching gold_set fill_in_qids c gs_row out
  = (Ok c', out') ->
  if pruned_nonempty gold_set fill_in_qids gs_row then one_more c c'
  else c' = c.
Proof.
  destruct c as [[TP FP] FN]. rewrite score_row_eq. unfold pruned_nonempty.
  destruct (prune_gold_set _ _ _ _) as [[[|g gs_entities] gs_qids]|e];
    cbn [List.length Nat.eqb]; cbv zeta.
  - intros H. inversion H. reflexivity.
  - destruct (upper_all _) as [tool_entities|e]; [|discriminate].
    destruct (find_match _ _ _ _ out) as [[[gi ti]|e] out1]; [|discriminate].
    destruct (gi =? -1)%Z.
    + intros H. inversion H. right. right. reflexivity.
    + destruct (py_getitem _ ti) as [q|e]; [|discriminate].
      destruct (py_in q _); intros H; inversion H.
      * left. reflexivity.
      * right. left. reflexivity.
  - discriminate.
Qed.

Lemma count_links_total_from {Str : PyStr} (df_tool : list tool_row)
    (matching gold_set : string) (fill_in_qids : bool)
    (gs : list gold_row) (c c' : counts) (out out' : list string) :
  count_links df_tool matching gold_set fill_in_qids c gs out
  = (Ok c', out') ->
  total c'
  = (total c
     + Z.of_nat (List.length
                   (filter (pruned_nonempty gold_set fill_in_qids) gs)))%Z.
Proof.
  revert c out; induction gs as [|gs_row gs IH]; intros c out H.
  - inversion H. simpl. lia.
  - cbn [count_links] in H. unfold bind in H.
    destruct (score_row _ _ _ _ c gs_row out) as [[c1|e] out1] eqn:E;
      [|discriminate].
    apply IH in H. apply score_row_counts in E.
    cbn [filter]. destruct (pruned_nonempty _ _ gs_row).
    + cbn [List.length]. destruct c as [[TP FP] FN].
      destruct E as [->|[->| ->]]; rewrite H; unfold total; lia.
    + subst c1. exact H.
Qed.

Lemma upper_all_total {Str : PyStr} (col : list cell) :
  (forall c, In c col -> not_none c = true) ->
  exists l, upper_all col = Ok l.
Proof.
  induction col as [|[s|] col IH]; intros H.
  - exists []. reflexivity.
  - destruct IH as [l Hl]; [intros c Hc; apply H; right; exact Hc|].
    exists (upper s :: l). simpl. now rewrite Hl.
  - specialize (H None (or_introl eq_refl)). discriminate.
Qed.

Lemma score_row_total {Str : PyStr} (df_tool : list tool_row)
    (matching gold_set : string) (fill_in_qids : bool) (c : counts)
    (gs_row : gold_row) (out : list string) :
  valid_policy matching -> usable df_tool ->
  (exists p, prune_gold_set (gs_entity gs_row) (gs_qid gs_row)
               gold_set fill_in_qids = Ok p) ->
  exists c', score_row df_tool matching gold_set fill_in_qids c gs_row out
             = (Ok c', out).
Proof.
  intros Hv Hu [[gs_entities gs_qids] Hp]. destruct c as [[TP FP] FN].
  rewrite score_row_eq, Hp.
  destruct gs_entities as [|g gs_entities]; [eexists; reflexivity|].
  cbn [List.length Nat.eqb]. cbv zeta.
  destruct (upper_all_total
              (map tool_ent (tool_predictions df_tool (gs_id gs_row))))
    as [tool_entities Hup].
  { intros c Hc. apply in_map_iff in Hc. destruct Hc as (r & <- & Hr).
    apply filter_In in Hr. destruct Hr as [Hr Hb].
    apply andb_true_iff in Hb. apply Hu; tauto. }
  rewrite Hup.
  assert (Hlen : (0 + considered (g :: gs_entities) gold_set
                  <= List.length (g :: gs_entities))%nat).
  { apply considered_le. right. discriminate. }
  change (find_match (g :: gs_entities) tool_entities matching gold_set out)
    with (find_match_loop (g :: gs_entities) (pd_Series tool_entities)
            matching (seq 0 (considered (g :: gs_entities) gold_set)) out).
  destruct (find_match_loop_spec (g :: gs_entities) tool_entities matching
              out _ _ Hv Hlen)
    as [[Hf _]|(i & j & Hf & _ & (g' & t & _ & Ht & _) & _)]; rewrite Hf.
  { eexists. reflexivity. }
  destruct (Z.eqb_spec (Z.of_nat i) (-1)) as [H|_]; [lia|].
  rewrite py_getitem_nat.
  assert (Hlt : (j < List.length tool_entities)%nat)
    by (apply nth_error_Some; congruence).
  rewrite (upper_all_length _ _ Hup), length_map in Hlt.
  destruct (nth_error (map tool_qid _) j) as [q|] eqn:Eq.
  - destruct (py_in q _); eexists; reflexivity.
  - apply nth_error_None in Eq. rewrite length_map in Eq. lia.
Qed.

Lemma count_links_total {Str : PyStr} (df_tool : list tool_row)
    (matching gold_set : string) (fill_in_qids : bool)
    (gs : list gold_row) (c : counts) (out : list string) :
  valid_policy matching -> usable df_tool ->
  prunable gold_set fill_in_qids gs ->
  exists c', count_links df_tool matching gold_set fill_in_qids c gs out
             = (Ok c', out).
Proof.
  intros Hv Hu. revert c; induction gs as [|gs_row gs IH]; intros c Hp.
  - exists c. reflexivity.
  - destruct (score_row_total df_tool matching gold_set fill_in_qids c
                gs_row out Hv Hu) as [c1 H1].
    { apply Hp. left. reflexivity. }
    destruct (IH c1) as [c' Hc'].
    { intros r Hr. apply Hp. right. exact Hr. }
    exists c'. cbn [count_links]. unfold bind. rewrite H1. exact Hc'.
Qed.

(** C2: a gold row whose pruned entity list is not empty adds one to
    exactly one of TP, FP, FN and a row whose pruned list is empty adds
    nothing, so when the loop ends TP + FP + FN is the number of gold
    rows with a non-empty pruned list; the loop does end with counters
    under a valid policy when every gold row can be pruned and every
    tool row with a QID names an entity. *)
Theorem count_links_total_rows {Str : PyStr} (df_tool : list tool_row)
    (matching gold_set : string) (fill_in_qids : bool) :
  (forall c c' gs_row out out',
      score_row df_tool matching gold_set fill_in_qids c gs_row out
      = (Ok c', out') ->
      if pruned_nonempty gold_set fill_in_qids gs_row then one_more c c'
      else c' = c)
  /\ (forall gs TP FP FN out out',
      count_links df_tool matching gold_set fill_in_qids (0, 0, 0)%Z gs out
      = (Ok (TP, FP, FN), out') ->
      (TP + FP + FN)%Z
      = Z.of_nat (List.length
                    (filter (pruned_nonempty gold_set fill_in_qids) gs)))
  /\ (forall gs out,
      valid_policy matching -> usable df_tool ->
      prunable gold_set fill_in_qids gs ->
      exists c, count_links df_tool matching gold_set fill_in_qids
                  (0, 0, 0)%Z gs out = (Ok c, out)).
Proof.
  split; [|split].
  - intros c c' gs_row out out'. apply score_row_counts.
  - intros gs TP FP FN out out' H.
    apply count_links_total_from in H. simpl in H. exact H.
  - intros gs out Hv Hu Hp. now apply count_links_total.
Qed.

Lemma sample_usable : usable pump_tool.
Proof.
  intros r Hr _. destruct Hr as [<-|[<-|[]]]; reflexivity.
Qed.

Lemma sample_prunable : prunable "EXTENDED" false sample_gold.
Proof.
  intros r Hr. destruct Hr as [<-|[<-|[<-|[]]]]; eexists; reflexivity.
Qed.

Lemma count_links_total_rows_witness :
  (1 + 0 + 1)%Z
  = Z.of_nat (List.length
                (filter (pruned_nonempty "EXTENDED" false) sample_gold))
  /\ exists c, count_links pump_tool "STRONG" "EXTENDED" false (0, 0, 0)%Z
                 sample_gold [] = (Ok c, []).
Proof.
  split.
  - apply (proj1 (proj2 (count_links_total_rows pump_tool "STRONG"
                           "EXTENDED" false))
             sample_gold 1%Z 0%Z 1%Z [] []).
    reflexivity.
  - apply (proj2 (proj2 (count_links_total_rows pump_tool "STRONG"
                           "EXTENDED" false)) sample_gold []).
    + left. reflexivity.
    + exact sample_usable.
    + exact sample_prunable.
Defined.

(** *** The scores *)

Section ScoresFacts.

Context {F : PyFloat} {L : PyFloatLaws F}.

Lemma py_truediv_ints (x y : Z) :
  (0 <? y)%Z = true ->
  py_truediv (NInt x) (NInt y) = Ok (quotient (NInt x) (NInt y)).
Proof.
  intros H. apply Z.ltb_lt in H. unfold py_truediv.
  destruct (Z.eqb_spec y 0); [lia|reflexivity].
Qed.

Lemma py_truediv_float (a : pynum) (f : float) :
  py_gt (NFloat f) (NInt 0) = true ->
  py_truediv a (NFloat f) = Ok (quotient a (NFloat f)).
Proof.
  intros H. simpl in H. apply float_gt_neq in H.
  unfold py_truediv, quotient. destruct a; simpl; now rewrite H.
Qed.

(** No division of the scoring divides by zero. *)
Lemma scores_no_zero_division (TP FP FN : Z) :
  let precision := precision_of TP FP in
  let recall := recall_of TP FN in
  (if (0 <? TP + FP)%Z then py_truediv (NInt TP) (NInt (TP + FP))
   else Ok (NInt 0)) = Ok precision
  /\ (if (0 <? TP + FN)%Z then py_truediv (NInt TP) (NInt (TP + FN))
      else Ok (NInt 0)) = Ok recall
  /\ (if py_gt (py_add precision recall) (NInt 0)
      then py_truediv (py_mul (NInt 2) (py_mul precision recall))
             (py_add precision recall)
      else Ok (NInt 0)) = Ok (f1_of precision recall).
Proof.
  intros precision recall. unfold precision, recall, f1_of,
    precision_of, recall_of.
  destruct (0 <? TP + FP)%Z eqn:Ep, (0 <? TP + FN)%Z eqn:Er;
    rewrite ?py_truediv_ints by assumption;
    (split; [reflexivity|split; [reflexivity|]]).
  1-3: match goal with
       | |- context [py_gt ?s (NInt 0)] =>
           destruct (py_gt s (NInt 0)) eqn:Eg; [|reflexivity];
           apply py_truediv_float; exact Eg
       end.
  reflexivity.
Qed.

(** C1: whatever the tables, the function ends as its counting loop
    ends; when the loop leaves counters TP, FP, FN it prints them and
    returns precision = TP/(TP+FP) if TP+FP > 0 else 0, recall =
    TP/(TP+FN) if TP+FN > 0 else 0 and f1 = 2*precision*recall /
    (precision+recall) if precision+recall > 0 else 0, and no division
    fails. Under a valid policy, with gold rows that can be pruned and
    tool rows that name an entity wherever they carry a QID, it does
    return such a triple. *)
Theorem calculate_precision_recall_f1_scores {Str : PyStr} (gs : list gold_row)
    (df_tool : list tool_row) (matching gold_set : string)
    (fill_in_qids : bool) (out : list string) :
  calculate_precision_recall_f1 gs df_tool matching gold_set fill_in_qids out
  = match count_links df_tool matching gold_set fill_in_qids
            (0, 0, 0)%Z gs out with
    | (Ok c, out') => (Ok (scores_of c), out' ++ [tally_line c])
    | (Raise e, out') => (Raise e, out')
    end
  /\ (valid_policy matching -> usable df_tool ->
      prunable gold_set fill_in_qids gs ->
      exists c,
        calculate_precision_recall_f1 gs df_tool matching gold_set
          fill_in_qids out
        = (Ok (scores_of c), out ++ [tally_line c])).
Proof.
  assert (Heq :
    calculate_precision_recall_f1 gs df_tool matching gold_set
      fill_in_qids out
    = match count_links df_tool matching gold_set fill_in_qids
              (0, 0, 0)%Z gs out with
      | (Ok c, out') => (Ok (scores_of c), out' ++ [tally_line c])
      | (Raise e, out') => (Raise e, out')
      end).
  { unfold calculate_precision_recall_f1. unfold bind at 1.
    destruct (count_links _ _ _ _ _ gs out) as [[[[TP FP] FN]|e] out'];
      [|reflexivity].
    unfold bind at 1, print at 1.
    destruct (scores_no_zero_division TP FP FN) as (Hp & Hr & Hf).
    unfold bind at 1, liftR at 1. rewrite Hp.
    unfold bind at 1, liftR at 1. rewrite Hr.
    unfold bind at 1, liftR at 1. rewrite Hf.
    reflexivity. }
  split; [exact Heq|].
  intros Hv Hu Hp.
  destruct (count_links_total df_tool matching gold_set fill_in_qids gs
              (0, 0, 0)%Z out Hv Hu Hp) as [c Hc].
  exists c. rewrite Heq, Hc. reflexivity.
Qed.

End ScoresFacts.

Lemma QFloat_laws : PyFloatLaws QFloat.
Proof.
  constructor. intros x y. cbn [float_gt float_eq QFloat].
  intros H. apply negb_true_iff in H.
  destruct (Qeq_bool x y) eqn:E; [|reflexivity].
  apply Qeq_bool_iff in E.
  assert (Hle : Qle_bool x y = true).
  { apply Qle_bool_iff. rewrite E. apply Qle_refl. }
  congruence.
Qed.

Lemma calculate_precision_recall_f1_scores_witness :
  exists c,
    calculate_precision_recall_f1 (F := QFloat) sample_gold pump_tool
      "STRONG" "EXTENDED" false []
    = (Ok (scores_of c), [] ++ [tally_line c]).
Proof.
  apply (proj2 (calculate_precision_recall_f1_scores (L := QFloat_laws)
                  sample_gold pump_tool "STRONG" "EXTENDED" false [])).
  - left. reflexivity.
  - exact sample_usable.
  - exact sample_prunable.
Defined.

(** The sample tables under exact arithmetic: one link out of one
    answer, one gold record out of two found. *)
Example calculate_precision_recall_f1_sample :
  calculate_precision_recall_f1 (F := QFloat) sample_gold pump_tool
    "STRONG" "EXTENDED" false []
  = (Ok (NFloat (1 # 1), NFloat (1 # 2), NFloat (2 # 3)),
     ["TP =1, FP=0, FN=1"]).
Proof.
  vm_compute. reflexivity.
Qed.

End NelEvalFacts.

(** * Properties of the UniRel reformatting notebook *)

Module UniRelFacts.

Import UniRel UniRelSpec.

Section ReformatFacts.

(** [ast.literal_eval], applied to the text of a cell. *)
Variable literal_eval : string -> result pylit.

Lemma emit_triples_tuples (r : result_row) (triples : list triple)
    (out_df : list out_row) :
  emit_triples r (map as_tuple triples) out_df
  = Ok (out_df ++ map (fun t : triple =>
                         let '(h, rel, tl) := t in row_with r h rel tl)
                    triples).
Proof.
  revert out_df; induction triples as [|[[h rel] tl] triples IH];
    intros out_df.
  - simpl. now rewrite app_nil_r.
  - cbn [map emit_triples as_tuple].
    change (py_subscript (LTuple [h; rel; tl]) 0) with (Ok h).
    change (py_subscript (LTuple [h; rel; tl]) 1) with (Ok rel).
    change (py_subscript (LTuple [h; rel; tl]) 2) with (Ok tl).
    cbn [rbind]. rewrite IH. unfold append_row, row_with.
    now rewrite <- app_assoc.
Qed.

Lemma reformat_loop_rows (result_df : list result_row)
    (shape : list (list triple)) (out_df : list out_row) :
  Forall2 (parses_to literal_eval) result_df shape ->
  reformat_loop literal_eval result_df out_df
  = Ok (out_df ++ flat_map (fun rt => rows_for (fst rt) (snd rt))
                    (combine result_df shape)).
Proof.
  intros H. revert out_df.
  induction H as [|r triples result_df shape [rest Hr] _ IH]; intros out_df.
  - simpl. now rewrite app_nil_r.
  - cbn [reformat_loop combine flat_map fst snd]. rewrite Hr. cbn [rbind].
    change (py_subscript (LList (LList (map as_tuple triples) :: rest)) 0)
      with (@Ok pylit (LList (map as_tuple triples))).
    cbn [rbind py_len items_of].
    destruct triples as [|t triples].
    + cbn [map List.length Z.of_nat Z.eqb rbind rows_for].
      rewrite IH. unfold append_row, row_with. now rewrite <- app_assoc.
    + cbn [map List.length Z.of_nat Z.eqb rbind].
      change (as_tuple t :: map as_tuple triples)
        with (map as_tuple (t :: triples)).
      rewrite emit_triples_tuples. cbn [rbind].
      rewrite IH. now rewrite <- app_assoc.
Qed.

Lemma rows_for_length (r : result_row) (triples : list triple) :
  List.length (rows_for r triples) = Nat.max 1 (List.length triples).
Proof.
  destruct triples as [|t triples]; [reflexivity|].
  unfold rows_for. rewrite length_map. simpl. reflexivity.
Qed.

(** C8: when every 'c119_output' cell parses to a list whose first
    element is a list of triples, the loop emits, row after row, one
    output row with head, relation and tail None where that list is
    empty and otherwise one output row per triple carrying its three
    components; the output has the sum over the input rows of
    max(1, number of triples) rows. *)
Theorem reformat_rows (result_df : list result_row)
    (shape : list (list triple)) :
  Forall2 (parses_to literal_eval) result_df shape ->
  exists out_df,
    reformat literal_eval result_df = Ok out_df
    /\ out_df = flat_map (fun rt => rows_for (fst rt) (snd rt))
                  (combine result_df shape)
    /\ List.length out_df
       = list_sum (map (fun triples => Nat.max 1 (List.length triples))
                     shape).
Proof.
  intros H. eexists. split; [|split].
  - unfold reformat. rewrite (reformat_loop_rows _ shape [] H). reflexivity.
  - reflexivity.
  - cbn [app]. clear -H. induction H as [|r triples result_df shape _ _ IH].
    + reflexivity.
    + cbn [combine flat_map map list_sum fst snd].
      now rewrite length_app, rows_for_length, IH.
Qed.

End ReformatFacts.

Lemma reformat_rows_witness :
  exists out_df,
    reformat sample_eval sample_df = Ok out_df
    /\ out_df
       = flat_map (fun rt => rows_for (fst rt) (snd rt))
           (combine sample_df
              [[(LStr "RQD", LStr "/business/person/company",
                 LStr "ALCOHOL")]; []])
    /\ List.length out_df
       = list_sum (map (fun triples : list triple =>
                          Nat.max 1 (List.length triples))
                     [[(LStr "RQD", LStr "/business/person/company",
                        LStr "ALCOHOL")]; []]).
Proof.
  apply (reformat_rows sample_eval sample_df).
  repeat constructor; exists []; reflexivity.
Defined.

End UniRelFacts.

(** * Further properties of the evaluation notebook *)

Module NelEvalMore.

Import NelEval NelEvalSpec PythonFacts NelEvalFacts.

(** *** is_match and find_match *)

(** X1: [is_match] does not depend on the order of its two entities:
    swapping them gives the same answer and the same output, for every
    pair of values and every policy. *)
Theorem is_match_sym (ent1 ent2 : pyval) (matching : string)
    (out : list string) :
  is_match ent1 ent2 matching out = is_match ent2 ent1 matching out.
Proof.
  destruct ent1, ent2; try reflexivity.
  unfold is_match.
  destruct (matching =? "STRONG").
  - now rewrite String.eqb_sym.
  - destruct (matching =? "WEAK"); [|reflexivity].
    unfold any. simpl. now rewrite !orb_false_r, orb_comm.
Qed.

Lemma prefix_refl (s : string) : String.prefix s s = true.
Proof.
  induction s as [|c s IH]; simpl; [reflexivity|].
  destruct (ascii_dec c c); [exact IH|congruence].
Qed.

Lemma str_contains_refl (s : string) : str_contains s s = true.
Proof.
  destruct s; simpl; [reflexivity|].
  destruct (ascii_dec a a); [|congruence].
  now rewrite (prefix_refl s).
Qed.

(** A strong match is a weak match. *)
Lemma matches_strong_weak (ent1 ent2 : string) :
  matches "STRONG" ent1 ent2 = true -> matches "WEAK" ent1 ent2 = true.
Proof.
  unfold matches. simpl. intros H. apply String.eqb_eq in H. subst.
  now rewrite str_contains_refl.
Qed.

(** Whatever the policy, a pair other than (-1, -1) that the loop
    returns names a gold entity of its range and a tool entity. *)
Lemma find_match_loop_in_range (gs_entities tool_entities : list string)
    (matching : string) (range : list nat) (out out' : list string)
    (r : Z * Z) :
  find_match_loop gs_entities (pd_Series tool_entities) matching range out
  = (Ok r, out') ->
  r = ((-1)%Z, (-1)%Z)
  \/ exists i j g t, r = (Z.of_nat i, Z.of_nat j) /\ In i range
                     /\ nth_error gs_entities i = Some g
                     /\ nth_error tool_entities j = Some t.
Proof.
  revert out; induction range as [|i range IH]; intros out H.
  - left. inversion H. reflexivity.
  - cbn [find_match_loop] in H. unfold bind at 1, liftR at 1 in H.
    rewrite py_getitem_nat in H.
    destruct (nth_error gs_entities i) as [g|] eqn:Eg; [|discriminate].
    unfold bind at 1 in H.
    destruct (series_apply _ (pd_Series tool_entities) out)
      as [[mask|e] out1]; [|discriminate].
    unfold bind at 1, liftR at 1 in H.
    destruct (series_mask (pd_Series tool_entities) mask)
      as [[|[lbl a] rest]|e] eqn:Em; [| |discriminate].
    + apply IH in H. destruct H as [H|(i' & j & g' & t & Hr & Hi & Hg & Ht)].
      * left. exact H.
      * right. exists i', j, g', t. repeat split; auto. right. exact Hi.
    + inversion H; subst. right. exists i, lbl, g, a.
      split; [reflexivity|]. split; [left; reflexivity|].
      split; [exact Eg|].
      apply series_mask_incl in Em.
      specialize (Em (lbl, a) (or_introl eq_refl)).
      apply in_labelled in Em. rewrite Nat.sub_0_r in Em. apply Em.
Qed.

(** X4: whatever the policy, an answer of [find_match] is (-1, -1) or
    a pair of positions that exist in the two lists, and the gold
    position is 0 unless the gold set is "EXTENDED". *)
Theorem find_match_in_range (gs_entities tool_entities : list string)
    (matching gold_set : string) (out out' : list string) (gi ti : Z) :
  find_match gs_entities tool_entities matching gold_set out
  = (Ok (gi, ti), out') ->
  (gi = (-1)%Z /\ ti = (-1)%Z)
  \/ ((0 <= gi < Z.of_nat (List.length gs_entities))%Z
      /\ (0 <= ti < Z.of_nat (List.length tool_entities))%Z
      /\ (gold_set <> "EXTENDED" -> gi = 0%Z)).
Proof.
  intros H. unfold find_match in H.
  apply find_match_loop_in_range in H.
  destruct H as [H|(i & j & g & t & Hr & Hi & Hg & Ht)].
  - left. inversion H. split; reflexivity.
  - right. inversion Hr; subst.
    assert (i < List.length gs_entities)%nat
      by (apply nth_error_Some; congruence).
    assert (j < List.length tool_entities)%nat
      by (apply nth_error_Some; congruence).
    split; [lia|]. split; [lia|].
    intros Hg'. apply String.eqb_neq in Hg'. rewrite Hg' in Hi.
    simpl in Hi. destruct Hi as [<-|[]]. reflexivity.
Qed.

Lemma find_match_in_range_witness :
  ((1 = -1)%Z /\ (1 = -1)%Z)
  \/ ((0 <= 1 < Z.of_nat (List.length ["FUEL PUMP"; "PUMP"]))%Z
      /\ (0 <= 1 < Z.of_nat (List.length ["ENGINE"; "PUMP"]))%Z
      /\ ("EXTENDED" <> "EXTENDED" -> 1%Z = 0%Z)).
Proof.
  apply (find_match_in_range ["FUEL PUMP"; "PUMP"] ["ENGINE"; "PUMP"]
           "STRONG" "EXTENDED" [] []).
  reflexivity.
Defined.

Lemma is_match_unknown (ent1 ent2 matching : string) (out : list string) :
  matching <> "STRONG" -> matching <> "WEAK" ->
  is_match (PStr ent1) (PStr ent2) matching out
  = (Ok None, out ++ [error_line]).
Proof.
  intros Hs Hw. apply String.eqb_neq in Hs, Hw.
  unfold is_match. now rewrite Hs, Hw.
Qed.

Lemma series_apply_unknown_policy (matching ent2 : string)
    (s : Series string) (out : list string) :
  matching <> "STRONG" -> matching <> "WEAK" ->
  series_apply (fun ent1 => is_match (PStr ent1) (PStr ent2) matching) s out
  = (Ok (map (fun la => (fst la, @None bool)) s),
     out ++ repeat error_line (List.length s)).
Proof.
  intros Hs Hw.
  revert out; induction s as [|[lbl a] s IH]; intros out.
  - simpl. now rewrite app_nil_r.
  - cbn [series_apply]. unfold bind at 1.
    rewrite (is_match_unknown a ent2 matching out Hs Hw).
    unfold bind at 1. rewrite IH. cbn [List.length repeat map fst].
    unfold ret. now rewrite <- app_assoc.
Qed.

Lemma find_match_loop_no_tools (gs_entities : list string)
    (matching : string) (range : list nat) (out : list string) :
  (forall i, In i range -> (i < List.length gs_entities)%nat) ->
  find_match_loop gs_entities [] matching range out
  = (Ok ((-1)%Z, (-1)%Z), out).
Proof.
  induction range as [|i range IH]; intros H; [reflexivity|].
  cbn [find_match_loop]. unfold bind at 1, liftR at 1.
  rewrite py_getitem_nat.
  destruct (nth_error gs_entities i) eqn:E.
  - cbn. apply IH. intros k Hk. apply H. right. exact Hk.
  - apply nth_error_None in E. specialize (H i (or_introl eq_refl)). lia.
Qed.

(** X5: under a policy other than "STRONG" and "WEAK", with a gold list
    that is not empty, [find_match] never answers a match: with no tool
    entity it returns (-1, -1) and prints nothing, and with tool
    entities it raises ValueError after printing the error line once
    per tool entity. *)
Theorem find_match_unknown_policy (g : string) (gs_entities : list string)
    (tool_entities : list string) (matching gold_set : string)
    (out : list string) :
  matching <> "STRONG" -> matching <> "WEAK" ->
  find_match (g :: gs_entities) tool_entities matching gold_set out
  = match tool_entities with
    | [] => (Ok ((-1)%Z, (-1)%Z), out)
    | _ :: _ =>
        (Raise ValueError,
         out ++ repeat error_line (List.length tool_entities))
    end.
Proof.
  intros Hs Hw. unfold find_match.
  destruct tool_entities as [|t tool_entities].
  - apply find_match_loop_no_tools. intros i Hi. apply in_seq in Hi.
    destruct (gold_set =? "EXTENDED"); simpl in *; lia.
  - assert (Hseq : exists n,
               (if gold_set =? "EXTENDED"
                then List.length (g :: gs_entities) else 1%nat) = S n).
    { destruct (gold_set =? "EXTENDED"); simpl; eauto. }
    destruct Hseq as [n ->]. cbn [seq find_match_loop].
    unfold bind at 1, liftR at 1. rewrite py_getitem_nat. cbn [nth_error].
    unfold bind at 1.
    rewrite (series_apply_unknown_policy _ _ _ _ Hs Hw).
    unfold bind, liftR, pd_Series. cbn [List.length seq combine map fst].
    cbn [series_mask]. rewrite length_combine, length_seq, Nat.min_id.
    reflexivity.
Qed.

Lemma find_match_unknown_policy_witness :
  find_match ["FUEL PUMP"] ["ENGINE"; "PUMP"] "MEDIUM" "PRIMARY" []
  = (Raise ValueError,
     [] ++ repeat error_line (List.length ["ENGINE"; "PUMP"])).
Proof.
  apply (find_match_unknown_policy "FUEL PUMP" [] ["ENGINE"; "PUMP"]
           "MEDIUM" "PRIMARY" []); discriminate.
Defined.

(** What [find_match] answers on a gold list that is not empty, under a
    valid policy. *)
Lemma find_match_valid_cases (g0 : string) (gs_entities : list string)
    (tool_entities : list string) (matching gold_set : string)
    (out : list string) :
  valid_policy matching ->
  let gs := g0 :: gs_entities in
  let hit i j :=
    exists g t, nth_error gs i = Some g
                /\ nth_error tool_entities j = Some t
                /\ matches matching t g = true in
  (find_match gs tool_entities matching gold_set out
   = (Ok ((-1)%Z, (-1)%Z), out)
   /\ forall i j, (i < considered gs gold_set)%nat -> ~ hit i j)
  \/ exists i j,
      find_match gs tool_entities matching gold_set out
      = (Ok (Z.of_nat i, Z.of_nat j), out)
      /\ (i < considered gs gold_set)%nat /\ hit i j
      /\ (forall i' j', (i' < considered gs gold_set)%nat -> hit i' j' ->
                        (i <= i')%nat).
Proof.
  intros Hv gs hit.
  assert (Hlen : (0 + considered gs gold_set <= List.length gs)%nat).
  { apply considered_le. right. discriminate. }
  change (find_match gs tool_entities matching gold_set out)
    with (find_match_loop gs (pd_Series tool_entities) matching
            (seq 0 (considered gs gold_set)) out).
  destruct (find_match_loop_spec gs tool_entities matching out _ _ Hv Hlen)
    as [[Hr Hno]|(i & j & Hr & Hi & Hh & Hmi & _)].
  - left. split; [exact Hr|]. intros i j Hi. apply Hno. lia.
  - right. exists i, j. split; [exact Hr|]. split; [lia|].
    split; [exact Hh|]. intros i' j' Hi'. apply Hmi. lia.
Qed.

(** X2: a gold list on which strong matching finds a gold entity is
    also matched under weak matching, at the same or an earlier gold
    position. *)
Theorem find_match_strong_weak (gs_entities tool_entities : list string)
    (gold_set : string) (out out' : list string) (i j : nat) :
  find_match gs_entities tool_entities "STRONG" gold_set out
  = (Ok (Z.of_nat i, Z.of_nat j), out') ->
  exists i' j',
    find_match gs_entities tool_entities "WEAK" gold_set out
    = (Ok (Z.of_nat i', Z.of_nat j'), out)
    /\ (i' <= i)%nat.
Proof.
  intros H.
  destruct gs_entities as [|g0 gs_entities].
  { unfold find_match in H.
    destruct (gold_set =? "EXTENDED"); inversion H; lia. }
  destruct (find_match_valid_cases g0 gs_entities tool_entities "STRONG"
              gold_set out (or_introl eq_refl))
    as [[Hr _]|(i0 & j0 & Hr & Hi & (g & t & Hg & Ht & Hm) & _)];
    rewrite Hr in H; injection H as H1 H2 _; [lia|].
  apply Nat2Z.inj in H1, H2. subst i0 j0.
  apply matches_strong_weak in Hm.
  destruct (find_match_valid_cases g0 gs_entities tool_entities "WEAK"
              gold_set out (or_intror eq_refl))
    as [[_ Hno]|(i' & j' & Hr' & _ & _ & Hmin)].
  - exfalso. apply (Hno i j Hi). exists g, t. auto.
  - exists i', j'. split; [exact Hr'|].
    apply (Hmin i j Hi). exists g, t. auto.
Qed.

Lemma find_match_strong_weak_witness :
  exists i' j',
    find_match ["FUEL PUMP"; "PUMP"] ["ENGINE"; "PUMP"] "WEAK" "EXTENDED" []
    = (Ok (Z.of_nat i', Z.of_nat j'), [])
    /\ (i' <= 1)%nat.
Proof.
  apply (find_match_strong_weak ["FUEL PUMP"; "PUMP"] ["ENGINE"; "PUMP"]
           "EXTENDED" [] [] 1 1).
  reflexivity.
Defined.

(** *** Counting under the two policies *)

(** The tool QID that goes with a tool entity exists. *)
Lemma tool_qid_at {Str : PyStr}
    (preds : list tool_row) (tool_entities : list string)
    (j : nat) (t : string) :
  upper_all (map tool_ent preds) = Ok tool_entities ->
  nth_error tool_entities j = Some t ->
  exists q, py_getitem (map tool_qid preds) (Z.of_nat j) = Ok q.
Proof.
  intros Hup Ht. rewrite py_getitem_nat.
  assert (Hlt : (j < List.length tool_entities)%nat)
    by (apply nth_error_Some; congruence).
  rewrite (upper_all_length _ _ Hup), length_map in Hlt.
  destruct (nth_error (map tool_qid preds) j) as [q|] eqn:E; [eauto|].
  apply nth_error_None in E. rewrite length_map in E. lia.
Qed.

(** A gold row scored under "STRONG" is scored under "WEAK" too, and it
    is counted as missing under "WEAK" only if it is under "STRONG". *)
Lemma score_row_strong_weak {Str : PyStr}
    (df_tool : list tool_row) (gold_set : string)
    (fill_in_qids : bool) (cs cw cs' : counts) (gs_row : gold_row)
    (out out' : list string) :
  score_row df_tool "STRONG" gold_set fill_in_qids cs gs_row out
  = (Ok cs', out') ->
  exists cw',
    score_row df_tool "WEAK" gold_set fill_in_qids cw gs_row out
    = (Ok cw', out)
    /\ out' = out
    /\ (misses cw' - misses cw <= misses cs' - misses cs)%Z
    /\ (total cw' - total cw = total cs' - total cs)%Z.
Proof.
  destruct cs as [[TP FP] FN], cw as [[TP' FP'] FN'].
  rewrite !score_row_eq.
  destruct (prune_gold_set _ _ _ _) as [[[|g0 gs_entities] gs_qids]|e];
    cbn [List.length Nat.eqb]; cbv zeta; [| |discriminate].
  { intros H. injection H as <- <-. eexists. split; [reflexivity|].
    split; [reflexivity|]. unfold misses, total. simpl. lia. }
  destruct (upper_all _) as [tool_entities|e] eqn:Hup; [|discriminate].
  destruct (find_match_valid_cases g0 gs_entities tool_entities "STRONG"
              gold_set out (or_introl eq_refl))
    as [[Hr _]|(i & j & Hr & Hi & (g & t & Hg & Ht & Hm) & _)]; rewrite Hr.
  - cbn [Z.eqb]. intros H. injection H as <- <-.
    destruct (find_match_valid_cases g0 gs_entities tool_entities "WEAK"
                gold_set out (or_intror eq_refl))
      as [[Hr' _]|(i' & j' & Hr' & _ & (g' & t' & _ & Ht' & _) & _)];
      rewrite Hr'.
    + cbn [Z.eqb]. eexists. split; [reflexivity|].
      split; [reflexivity|]. unfold misses, total. simpl. lia.
    + destruct (Z.eqb_spec (Z.of_nat i') (-1)) as [E|_]; [lia|].
      destruct (tool_qid_at _ _ _ _ Hup Ht') as [q ->].
      destruct (py_in q _); eexists; (split; [reflexivity|]);
        (split; [reflexivity|]); unfold misses, total; simpl; lia.
  - destruct (Z.eqb_spec (Z.of_nat i) (-1)) as [E|_]; [lia|].
    destruct (tool_qid_at _ _ _ _ Hup Ht) as [q ->].
    apply matches_strong_weak in Hm.
    destruct (find_match_valid_cases g0 gs_entities tool_entities "WEAK"
                gold_set out (or_intror eq_refl))
      as [[_ Hno]|(i' & j' & Hr' & _ & (g' & t' & _ & Ht' & _) & _)].
    { exfalso. apply (Hno i j Hi). exists g, t. auto. }
    rewrite Hr'.
    destruct (Z.eqb_spec (Z.of_nat i') (-1)) as [E|_]; [lia|].
    destruct (tool_qid_at _ _ _ _ Hup Ht') as [q' ->].
    intros H.
    destruct (py_in q _); injection H as <- <-;
      destruct (py_in q' _); eexists; (split; [reflexivity|]);
        (split; [reflexivity|]); unfold misses, total; simpl; lia.
Qed.

Lemma count_links_strong_weak_from {Str : PyStr} (df_tool : list tool_row)
    (gold_set : string) (fill_in_qids : bool) (gs : list gold_row)
    (cs cw cs' : counts) (out out' : list string) :
  count_links df_tool "STRONG" gold_set fill_in_qids cs gs out
  = (Ok cs', out') ->
  exists cw',
    count_links df_tool "WEAK" gold_set fill_in_qids cw gs out
    = (Ok cw', out)
    /\ (misses cw' - misses cw <= misses cs' - misses cs)%Z
    /\ (total cw' - total cw = total cs' - total cs)%Z.
Proof.
  revert cs cw out; induction gs as [|gs_row gs IH]; intros cs cw out H.
  - injection H as <- <-. exists cw. split; [reflexivity|]. lia.
  - cbn [count_links] in *. unfold bind in *.
    destruct (score_row _ "STRONG" _ _ cs gs_row out) as [[cs1|e] out1]
      eqn:E; [|discriminate].
    destruct (score_row_strong_weak _ _ _ _ cw _ _ _ _ E)
      as (cw1 & -> & -> & Hm & Ht).
    destruct (IH _ cw1 _ H) as (cw' & -> & Hm' & Ht').
    exists cw'. split; [reflexivity|]. lia.
Qed.

(** X3: on the same tables, when the counting loop ends under "STRONG"
    it ends under "WEAK" as well, with the same number of scored gold
    rows, no more missing records (FN) and so at least as many found
    ones (TP + FP). *)
Theorem count_links_strong_weak {Str : PyStr} (df_tool : list tool_row)
    (gold_set : string) (fill_in_qids : bool) (gs : list gold_row)
    (TP FP FN : Z) (out out' : list string) :
  count_links df_tool "STRONG" gold_set fill_in_qids (0, 0, 0)%Z gs out
  = (Ok (TP, FP, FN), out') ->
  exists TP' FP' FN',
    count_links df_tool "WEAK" gold_set fill_in_qids (0, 0, 0)%Z gs out
    = (Ok (TP', FP', FN'), out)
    /\ (FN' <= FN)%Z
    /\ (TP + FP <= TP' + FP')%Z
    /\ (TP' + FP' + FN' = TP + FP + FN)%Z.
Proof.
  intros H.
  destruct (count_links_strong_weak_from _ _ _ _ _ (0, 0, 0)%Z _ _ _ H)
    as ([[TP' FP'] FN'] & Hw & Hm & Ht).
  exists TP', FP', FN'. split; [exact Hw|].
  unfold misses, total in *. simpl in *. lia.
Qed.

Lemma count_links_strong_weak_witness :
  exists TP' FP' FN',
    count_links pump_tool "WEAK" "EXTENDED" false (0, 0, 0)%Z sample_gold []
    = (Ok (TP', FP', FN'), [])
    /\ (FN' <= 1)%Z
    /\ (1 + 0 <= TP' + FP')%Z
    /\ (TP' + FP' + FN' = 1 + 0 + 1)%Z.
Proof.
  apply (count_links_strong_weak pump_tool "EXTENDED" false sample_gold
           1 0 1 [] []).
  reflexivity.
Defined.

(** *** The order of the gold rows *)

Lemma find_match_loop_valid_out (gs_entities : list string)
    (s : Series string) (matching : string) (range : list nat)
    (out : list string) :
  valid_policy matching ->
  find_match_loop gs_entities s matching range out
  = (fst (find_match_loop gs_entities s matching range []), out).
Proof.
  intros Hv. induction range as [|i range IH]; [reflexivity|].
  rewrite !(find_match_loop_step _ _ _ _ _ _ Hv).
  destruct (nth_error gs_entities i) as [g|]; [|reflexivity].
  destruct (filter _ s) as [|[lbl a] rest]; [exact IH|reflexivity].
Qed.

(** Under a valid policy a gold row adds the same amounts whatever the
    counters and the output so far, and prints nothing. *)
Lemma score_row_shift {Str : PyStr}
    (df_tool : list tool_row) (matching gold_set : string)
    (fill_in_qids : bool) (c : counts) (gs_row : gold_row)
    (out : list string) :
  valid_policy matching ->
  score_row df_tool matching gold_set fill_in_qids c gs_row out
  = (match row_counts df_tool matching gold_set fill_in_qids gs_row with
     | Ok d => Ok (add_counts c d)
     | Raise e => Raise e
     end, out).
Proof.
  intros Hv. destruct c as [[TP FP] FN]. unfold row_counts.
  rewrite !score_row_eq.
  destruct (prune_gold_set _ _ _ _) as [[gs_entities gs_qids]|e];
    [|reflexivity].
  destruct (List.length gs_entities =? 0)%nat.
  { simpl. now rewrite ?Z.add_0_r. }
  cbv zeta. destruct (upper_all _) as [tool_entities|e]; [|reflexivity].
  unfold find_match.
  rewrite (find_match_loop_valid_out _ _ _ _ out Hv).
  destruct (find_match_loop _ _ _ _ []) as [[[gi ti]|e] o]; [|reflexivity].
  cbn [fst]. destruct (gi =? -1)%Z.
  { simpl. now rewrite ?Z.add_0_r. }
  destruct (py_getitem _ ti) as [q|e]; [|reflexivity].
  destruct (py_in q _); simpl; now rewrite ?Z.add_0_r.
Qed.

Lemma add_counts_swap (c d1 d2 : counts) :
  add_counts (add_counts c d1) d2 = add_counts (add_counts c d2) d1.
Proof.
  destruct c as [[TP FP] FN], d1 as [[a1 b1] m1], d2 as [[a2 b2] m2].
  simpl. f_equal; [f_equal|]; lia.
Qed.

(** X9: under a valid policy the counters do not depend on the order of
    the gold rows: when the loop ends on a gold table it ends with the
    same counters, and the same output, on every rearrangement of its
    rows. *)
Theorem count_links_permutation {Str : PyStr} (df_tool : list tool_row)
    (matching gold_set : string) (fill_in_qids : bool)
    (gs gs' : list gold_row) (c c' : counts) (out out' : list string) :
  valid_policy matching ->
  Permutation gs gs' ->
  count_links df_tool matching gold_set fill_in_qids c gs out
  = (Ok c', out') ->
  count_links df_tool matching gold_set fill_in_qids c gs' out
  = (Ok c', out').
Proof.
  intros Hv Hp. revert c c' out out'.
  induction Hp as [|x l l' _ IH|x y l|l l' l'' _ IH1 _ IH2];
    intros c c' out out' H.
  - exact H.
  - cbn [count_links] in *. unfold bind in *.
    destruct (score_row _ _ _ _ c x out) as [[c1|e] out1]; [|discriminate].
    now apply IH.
  - cbn [count_links] in *. unfold bind in *.
    rewrite (score_row_shift _ _ _ _ c y out Hv) in H.
    rewrite (score_row_shift _ _ _ _ c x out Hv).
    destruct (row_counts _ _ _ _ y) as [dy|e] eqn:Ey; [|discriminate].
    rewrite (score_row_shift _ _ _ _ _ x out Hv) in H.
    destruct (row_counts _ _ _ _ x) as [dx|e] eqn:Ex; [|discriminate].
    rewrite (score_row_shift _ _ _ _ _ y out Hv), Ey.
    now rewrite add_counts_swap.
  - eapply IH2, IH1, H.
Qed.

Lemma count_links_permutation_witness :
  count_links pump_tool "STRONG" "EXTENDED" false (0, 0, 0)%Z
    (rev sample_gold) []
  = (Ok (1, 0, 1)%Z, []).
Proof.
  apply (count_links_permutation pump_tool "STRONG" "EXTENDED" false
           sample_gold (rev sample_gold) (0, 0, 0)%Z (1, 0, 1)%Z [] []).
  - left. reflexivity.
  - apply Permutation_rev.
  - reflexivity.
Defined.

(** *** Pruning and fill-in *)

Lemma index_of_head {A} (p : A -> bool) (a : A) (l : list A) (k : Z) :
  index_of p (a :: l) = Ok k ->
  (k = 0%Z /\ p a = true)
  \/ (p a = false /\ exists k', index_of p l = Ok k' /\ k = (k' + 1)%Z).
Proof.
  simpl. destruct (p a).
  - intros H. injection H as <-. left. split; reflexivity.
  - destruct (index_of p l) as [k'|e]; simpl; [|discriminate].
    intros H. injection H as <-. right. split; [reflexivity|]. eauto.
Qed.

Lemma index_of_nonneg {A} (p : A -> bool) (l : list A) (k : Z) :
  index_of p l = Ok k -> (0 <= k)%Z.
Proof.
  revert k; induction l as [|a l IH]; intros k H; [discriminate|].
  apply index_of_head in H. destruct H as [[-> _]|(_ & k' & Hk & ->)].
  - lia.
  - apply IH in Hk. lia.
Qed.

Lemma getitem_1 {A} (a b : A) (l : list A) :
  py_getitem (a :: b :: l) 1 = Ok b.
Proof.
  exact (py_getitem_nat (a :: b :: l) 1).
Qed.

Lemma getitem_2 {A} (a b c : A) (l : list A) :
  py_getitem (a :: b :: c :: l) 2 = Ok c.
Proof.
  exact (py_getitem_nat (a :: b :: c :: l) 2).
Qed.

Lemma setitem_0 {A} (a v : A) (l : list A) :
  py_setitem (a :: l) 0 v = Ok (v :: l).
Proof.
  exact (py_setitem_nat (a :: l) 0 v).
Qed.

Lemma setitem_1 {A} (a b v : A) (l : list A) :
  py_setitem (a :: b :: l) 1 v = Ok (a :: v :: l).
Proof.
  exact (py_setitem_nat (a :: b :: l) 1 v).
Qed.

(** The four things the fill-in does to a QID list. *)
Lemma fill_in_cases (gs_qids filled : list cell) :
  fill_in gs_qids = Ok filled ->
  filled = gs_qids
  \/ (exists b rest, gs_qids = None :: Some b :: rest
                     /\ filled = Some b :: Some b :: rest)
  \/ (exists c rest, gs_qids = None :: None :: Some c :: rest
                     /\ filled = Some c :: Some c :: Some c :: rest)
  \/ (exists a c rest, gs_qids = Some a :: None :: Some c :: rest
                       /\ filled = Some a :: Some c :: Some c :: rest).
Proof.
  destruct gs_qids as [|a [|b [|c rest]]].
  - discriminate.
  - destruct a; discriminate.
  - destruct a as [a|], b as [b|]; try discriminate.
    intros H. injection H as <-. right. left. eauto.
  - unfold fill_in.
    destruct (index_of is_none (a :: b :: c :: rest)) as [none_idx|e] eqn:Ei;
      [|discriminate].
    cbn [rbind]. rewrite !getitem_1, !getitem_2. cbn [rbind].
    apply index_of_head in Ei.
    destruct Ei as [[-> Ha]|(Ha & k1 & Ei & ->)].
    + destruct a as [a|]; [discriminate|]. cbn [Z.eqb py_and rbind].
      destruct b as [b|]; cbn [not_none is_none negb rbind py_and].
      * rewrite setitem_0.
        intros H. injection H as <-. right. left. eauto.
      * destruct c as [c|]; cbn [not_none is_none negb rbind py_and].
        -- rewrite setitem_0. cbn [rbind]. rewrite getitem_2. cbn [rbind].
           rewrite setitem_1.
           intros H. injection H as <-. right. right. left. eauto.
        -- intros H. injection H as <-. left. reflexivity.
    + destruct a as [a|]; [|discriminate].
      pose proof (index_of_nonneg _ _ _ Ei) as Hk1.
      destruct (Z.eqb_spec (k1 + 1) 0) as [E|_]; [lia|].
      cbn [py_and rbind].
      apply index_of_head in Ei.
      destruct Ei as [[-> Hb]|(Hb & k2 & Ei & ->)].
      * destruct b as [b|]; [discriminate|].
        cbn [Z.add Z.eqb Pos.eqb py_and rbind].
        destruct c as [c|]; cbn [not_none is_none negb rbind py_and].
        -- rewrite setitem_1.
           intros H. injection H as <-. right. right. right. eauto.
        -- intros H. injection H as <-. left. reflexivity.
      * pose proof (index_of_nonneg _ _ _ Ei) as Hk2.
        destruct (Z.eqb_spec (k2 + 1 + 1) 1) as [E|_]; [lia|].
        cbn [py_and rbind].
        intros H. injection H as <-. left. reflexivity.
Qed.

(** X7: the fill-in keeps the number of QIDs, never overwrites a QID
    that is present, and every QID of the filled list stood at the same
    or a later position of the list it was given. *)
Theorem fill_in_keeps_qids (gs_qids filled : list cell) :
  fill_in gs_qids = Ok filled ->
  List.length filled = List.length gs_qids
  /\ (forall k q, nth_error gs_qids k = Some (Some q) ->
                  nth_error filled k = Some (Some q))
  /\ (forall k q, nth_error filled k = Some (Some q) ->
                  exists k', (k <= k')%nat
                             /\ nth_error gs_qids k' = Some (Some q)).
Proof.
  intros H. apply fill_in_cases in H.
  destruct H as [->|[(b & rest & -> & ->)|[(c & rest & -> & ->)
                     |(a & c & rest & -> & ->)]]].
  - split; [reflexivity|]. split; [auto|]. intros k q Hk. exists k. auto.
  - split; [reflexivity|]. split.
    + intros [|[|k]] q Hk; simpl in *; congruence.
    + intros [|[|k]] q Hk; simpl in *.
      * exists 1%nat. split; [lia|exact Hk].
      * exists 1%nat. split; [lia|exact Hk].
      * exists (S (S k)). split; [lia|exact Hk].
  - split; [reflexivity|]. split.
    + intros [|[|[|k]]] q Hk; simpl in *; congruence.
    + intros [|[|[|k]]] q Hk; simpl in *.
      * exists 2%nat. split; [lia|exact Hk].
      * exists 2%nat. split; [lia|exact Hk].
      * exists 2%nat. split; [lia|exact Hk].
      * exists (S (S (S k))). split; [lia|exact Hk].
  - split; [reflexivity|]. split.
    + intros [|[|[|k]]] q Hk; simpl in *; congruence.
    + intros [|[|[|k]]] q Hk; simpl in *.
      * exists 0%nat. split; [lia|exact Hk].
      * exists 2%nat. split; [lia|exact Hk].
      * exists 2%nat. split; [lia|exact Hk].
      * exists (S (S (S k))). split; [lia|exact Hk].
Qed.

Lemma fill_in_keeps_qids_witness :
  List.length [Some "Q3"; Some "Q3"; Some "Q3"]
  = List.length [None; None; Some "Q3"]
  /\ (forall k q, nth_error [None; None; Some "Q3"] k = Some (Some q) ->
        nth_error [Some "Q3"; Some "Q3"; Some "Q3"] k = Some (Some q))
  /\ (forall k q,
        nth_error [Some "Q3"; Some "Q3"; Some "Q3"] k = Some (Some q) ->
        exists k', (k <= k')%nat
                   /\ nth_error [None; None; Some "Q3"] k' = Some (Some q)).
Proof.
  apply (fill_in_keeps_qids [None; None; Some "Q3"]). reflexivity.
Defined.

Lemma combine_fst_snd {A B} (l : list (A * B)) :
  combine (map fst l) (map snd l) = l.
Proof.
  induction l as [|[a b] l IH]; simpl; [reflexivity|now rewrite IH].
Qed.

Lemma dropna_In (rows : list (cell * cell)) (e q : string) :
  In (e, q) (dropna rows) <-> In (Some e, Some q) rows.
Proof.
  induction rows as [|[e' q'] rows IH]; [simpl; tauto|].
  destruct e' as [e'|], q' as [q'|]; simpl; rewrite IH.
  - split; intros [H|H]; auto; left; inversion H; reflexivity.
  - split; [auto|]. intros [H|H]; [discriminate|auto].
  - split; [auto|]. intros [H|H]; [discriminate|auto].
  - split; [auto|]. intros [H|H]; [discriminate|auto].
Qed.

Lemma dropna_length (rows : list (cell * cell)) :
  (List.length (dropna rows) <= List.length rows)%nat.
Proof.
  induction rows as [|[e q] rows IH]; [simpl; lia|].
  destruct e, q; simpl; lia.
Qed.

(** What [prune_gold_set] returns, once its QID list is settled. *)
Lemma prune_gold_set_eq (gs_entities gs_qids : list cell)
    (gold_set : string) (fill_in_qids : bool)
    (es qs : list string) :
  prune_gold_set gs_entities gs_qids gold_set fill_in_qids = Ok (es, qs) ->
  exists qids,
    (if fill_in_qids && existsb is_none gs_qids then fill_in gs_qids
     else Ok gs_qids) = Ok qids
    /\ List.length gs_entities = List.length qids
    /\ let kept := dropna (firstn (kept_positions gold_set)
                             (combine gs_entities qids)) in
       es = map fst kept /\ qs = map snd kept.
Proof.
  unfold prune_gold_set, pd_DataFrame, kept_positions.
  destruct (if fill_in_qids && existsb is_none gs_qids then _ else _)
    as [qids|e]; [|discriminate].
  cbn [rbind].
  destruct (Nat.eqb_spec (List.length gs_entities) (List.length qids))
    as [Hlen|_]; [|discriminate].
  cbn [rbind]. intros H. injection H as <- <-.
  exists qids. auto.
Qed.

(** X6: with or without fill-in, the two lists [prune_gold_set] returns
    have the same length, at most 1 (3 under "EXTENDED"), and every
    entity returned is one of the first 1 (3) entities it was given. *)
Theorem prune_gold_set_shape (gs_entities gs_qids : list cell)
    (gold_set : string) (fill_in_qids : bool) (es qs : list string) :
  prune_gold_set gs_entities gs_qids gold_set fill_in_qids = Ok (es, qs) ->
  List.length es = List.length qs
  /\ (List.length es <= kept_positions gold_set)%nat
  /\ forall e, In e es ->
       In (Some e) (firstn (kept_positions gold_set) gs_entities).
Proof.
  intros H. apply prune_gold_set_eq in H.
  destruct H as (qids & _ & _ & -> & ->).
  split; [now rewrite !length_map|]. split.
  - rewrite length_map.
    etransitivity; [apply dropna_length|]. apply firstn_le_length.
  - intros e He. apply in_map_iff in He.
    destruct He as ([e' q] & <- & He). apply dropna_In in He.
    rewrite combine_firstn in He. apply in_combine_l in He. exact He.
Qed.

Lemma prune_gold_set_shape_witness :
  List.length ["FUEL PUMP"; "PUMP"] = List.length ["Q1"; "Q2"]
  /\ (List.length ["FUEL PUMP"; "PUMP"] <= kept_positions "EXTENDED")%nat
  /\ forall e, In e ["FUEL PUMP"; "PUMP"] ->
       In (Some e)
         (firstn (kept_positions "EXTENDED") (gs_entity pump_gold)).
Proof.
  apply (prune_gold_set_shape (gs_entity pump_gold) (gs_qid pump_gold)
           "EXTENDED" false ["FUEL PUMP"; "PUMP"] ["Q1"; "Q2"]).
  reflexivity.
Defined.

Lemma filled_from_refl (l : list cell) : Forall2 filled_from l l.
Proof.
  induction l; constructor; [left; reflexivity|assumption].
Qed.

Lemma fill_in_filled_from (gs_qids filled : list cell) :
  fill_in gs_qids = Ok filled -> Forall2 filled_from gs_qids filled.
Proof.
  intros H. apply fill_in_cases in H.
  destruct H as [->|[(b & rest & -> & ->)|[(c & rest & -> & ->)
                     |(a & c & rest & -> & ->)]]].
  - apply filled_from_refl.
  - constructor; [right; reflexivity|].
    constructor; [left; reflexivity|apply filled_from_refl].
  - constructor; [right; reflexivity|].
    constructor; [right; reflexivity|].
    constructor; [left; reflexivity|apply filled_from_refl].
  - constructor; [left; reflexivity|].
    constructor; [right; reflexivity|].
    constructor; [left; reflexivity|apply filled_from_refl].
Qed.

Lemma dropna_filled (qids qids' : list cell) :
  Forall2 filled_from qids qids' ->
  forall (ents : list cell) (k : nat),
    (List.length (dropna (firstn k (combine ents qids)))
     <= List.length (dropna (firstn k (combine ents qids'))))%nat
    /\ incl (dropna (firstn k (combine ents qids)))
         (dropna (firstn k (combine ents qids'))).
Proof.
  induction 1 as [|q q' qids qids' Hq _ IH]; intros ents k.
  - destruct ents; simpl; split; auto using incl_refl.
  - destruct ents as [|e ents], k as [|k]; simpl;
      try (split; [lia|apply incl_refl]).
    destruct (IH ents k) as [Hl Hi].
    destruct Hq as [->| ->].
    + destruct e as [e|], q as [q|]; simpl; try (split; assumption).
      split; [lia|]. apply incl_cons; [left; reflexivity|].
      now apply incl_tl.
    + destruct e as [e|], q' as [q'|]; simpl; try (split; assumption).
      split; [lia|]. now apply incl_tl.
Qed.

(** X8: fill-in only adds pairs: every (entity, QID) pair returned
    without fill-in is returned with fill-in, which returns at least as
    many pairs. *)
Theorem prune_gold_set_fill_in_adds (gs_entities gs_qids : list cell)
    (gold_set : string) (es qs es' qs' : list string) :
  prune_gold_set gs_entities gs_qids gold_set false = Ok (es, qs) ->
  prune_gold_set gs_entities gs_qids gold_set true = Ok (es', qs') ->
  (forall e q, In (e, q) (combine es qs) -> In (e, q) (combine es' qs'))
  /\ (List.length es <= List.length es')%nat.
Proof.
  intros H H'. apply prune_gold_set_eq in H, H'.
  destruct H as (qids & Hq & _ & -> & ->).
  destruct H' as (qids' & Hq' & _ & -> & ->).
  cbn [andb] in Hq, Hq'. injection Hq as <-.
  assert (Hf : Forall2 filled_from gs_qids qids').
  { destruct (existsb is_none gs_qids).
    - now apply fill_in_filled_from.
    - injection Hq' as <-. apply filled_from_refl. }
  destruct (dropna_filled _ _ Hf gs_entities (kept_positions gold_set))
    as [Hl Hi].
  rewrite !combine_fst_snd, !length_map. split; [|exact Hl].
  intros e q. apply Hi.
Qed.

Lemma prune_gold_set_fill_in_adds_witness :
  (forall e q, In (e, q) (combine ["PART"] ["Q3"]) ->
     In (e, q) (combine ["FUEL PUMP"; "PUMP"; "PART"] ["Q3"; "Q3"; "Q3"]))
  /\ (List.length ["PART"] <= List.length ["FUEL PUMP"; "PUMP"; "PART"])%nat.
Proof.
  apply (prune_gold_set_fill_in_adds
           [Some "FUEL PUMP"; Some "PUMP"; Some "PART"]
           [None; None; Some "Q3"] "EXTENDED"); reflexivity.
Defined.

(** *** Primary and extended gold sets *)

(** Under another gold set than "EXTENDED" the pruned lists are empty
    or hold the one pair that heads the lists pruned under
    "EXTENDED". *)
Lemma prune_primary_extended (gs_entities gs_qids : list cell)
    (gold_set : string) (fill_in_qids : bool)
    (es qs es' qs' : list string) :
  gold_set <> "EXTENDED" ->
  prune_gold_set gs_entities gs_qids gold_set fill_in_qids = Ok (es, qs) ->
  prune_gold_set gs_entities gs_qids "EXTENDED" fill_in_qids
  = Ok (es', qs') ->
  (es = [] /\ qs = [])
  \/ exists e q es2 qs2,
      es = [e] /\ qs = [q] /\ es' = e :: es2 /\ qs' = q :: qs2.
Proof.
  intros Hg H H'. apply String.eqb_neq in Hg.
  apply prune_gold_set_eq in H, H'.
  destruct H as (qids & Hq & _ & -> & ->).
  destruct H' as (qids' & Hq' & _ & -> & ->).
  rewrite Hq in Hq'. injection Hq' as <-.
  unfold kept_positions. rewrite Hg. cbn [String.eqb Ascii.eqb Bool.eqb].
  destruct (combine gs_entities qids) as [|[e q] rows]; [left; auto|].
  destruct e as [e|], q as [q|]; cbn [firstn dropna map fst snd];
    try (left; split; reflexivity).
  right. exists e, q. do 2 eexists. repeat split; reflexivity.
Qed.

Lemma score_row_grows {Str : PyStr} (df_tool : list tool_row)
    (matching gold_set : string) (fill_in_qids : bool) (c c' : counts)
    (gs_row : gold_row) (out out' : list string) :
  score_row df_tool matching gold_set fill_in_qids c gs_row out
  = (Ok c', out') ->
  (hits c <= hits c')%Z /\ (wrong_links c <= wrong_links c')%Z.
Proof.
  intros H. apply score_row_counts in H.
  destruct c as [[TP FP] FN].
  destruct (pruned_nonempty _ _ _).
  - destruct H as [->|[->| ->]]; unfold hits, wrong_links; simpl; lia.
  - subst c'. unfold hits, wrong_links. simpl. lia.
Qed.

Lemma py_slice_head {A} (a : A) (l : list A) :
  py_slice (a :: l) 0 (0 + 1) = [a].
Proof.
  exact (py_slice_nat (a :: l) 0 1).
Qed.

(** A gold row adds to TP and to FP under "EXTENDED" at least what it
    adds under another gold set. *)
Lemma score_row_primary_extended {Str : PyStr} (df_tool : list tool_row)
    (matching gold_set : string) (fill_in_qids : bool)
    (c c1 d d1 : counts) (gs_row : gold_row) (out o1 o2 : list string) :
  valid_policy matching -> gold_set <> "EXTENDED" ->
  score_row df_tool matching gold_set fill_in_qids c gs_row out
  = (Ok c1, o1) ->
  score_row df_tool matching "EXTENDED" fill_in_qids d gs_row out
  = (Ok d1, o2) ->
  (hits c1 - hits c <= hits d1 - hits d)%Z
  /\ (wrong_links c1 - wrong_links c <= wrong_links d1 - wrong_links d)%Z.
Proof.
  intros Hv Hg H H'.
  pose proof (score_row_grows _ _ _ _ _ _ _ _ _ H') as Hmono.
  destruct c as [[TP FP] FN], d as [[TP' FP'] FN'].
  rewrite score_row_eq in H, H'.
  destruct (prune_gold_set _ _ gold_set _) as [[es qs]|e] eqn:Hp;
    [|discriminate].
  destruct (prune_gold_set _ _ "EXTENDED" _) as [[es' qs']|e] eqn:Hp';
    [|discriminate].
  destruct (prune_primary_extended _ _ _ _ _ _ _ _ Hg Hp Hp')
    as [[-> ->]|(e & q & es2 & qs2 & -> & -> & -> & ->)].
  { cbn [List.length Nat.eqb] in H. injection H as <- <-.
    unfold hits, wrong_links in *. simpl in *. lia. }
  cbn [List.length Nat.eqb] in H, H'. cbv zeta in H, H'.
  destruct (upper_all _) as [tool_entities|e0]; [|discriminate].
  unfold find_match in H, H'.
  apply String.eqb_neq in Hg. rewrite Hg in H.
  cbn [String.eqb Ascii.eqb Bool.eqb List.length seq] in H, H'.
  rewrite (find_match_loop_step _ _ _ _ _ _ Hv) in H.
  rewrite (find_match_loop_step _ _ _ _ _ _ Hv) in H'.
  cbn [nth_error] in H, H'.
  destruct (filter _ (pd_Series tool_entities)) as [|[lbl a] rest].
  - cbn in H. injection H as <- <-.
    unfold hits, wrong_links in *. simpl in *. lia.
  - destruct (Z.eqb_spec (Z.of_nat 0) (-1)) as [E|_]; [lia|].
    destruct (py_getitem _ (Z.of_nat lbl)) as [tq|e0]; [|discriminate].
    change (Z.of_nat 0) with 0%Z in H, H'.
    rewrite py_slice_head in H, H'.
    destruct (py_in tq [q]); injection H as <- <-; injection H' as <- <-;
      unfold hits, wrong_links; simpl; lia.
Qed.

(** X20: under a valid policy, going from the primary to the extended
    gold set never takes a true positive or a false positive away:
    when the counting loop ends under both gold sets, TP and FP under
    "EXTENDED" are at least TP and FP under the other gold set. *)
Theorem count_links_primary_extended {Str : PyStr} (df_tool : list tool_row)
    (matching gold_set : string) (fill_in_qids : bool)
    (gs : list gold_row) (c c' d d' : counts) (out o1 o2 : list string) :
  valid_policy matching -> gold_set <> "EXTENDED" ->
  count_links df_tool matching gold_set fill_in_qids c gs out
  = (Ok c', o1) ->
  count_links df_tool matching "EXTENDED" fill_in_qids d gs out
  = (Ok d', o2) ->
  (hits c' - hits c <= hits d' - hits d)%Z
  /\ (wrong_links c' - wrong_links c <= wrong_links d' - wrong_links d)%Z.
Proof.
  intros Hv Hg. revert c d out.
  induction gs as [|gs_row gs IH]; intros c d out H H'.
  - injection H as <- <-. injection H' as <- <-. lia.
  - cbn [count_links] in H, H'. unfold bind in H, H'.
    rewrite (score_row_shift _ _ _ _ c gs_row out Hv) in H.
    rewrite (score_row_shift _ _ _ _ d gs_row out Hv) in H'.
    destruct (row_counts _ _ gold_set _ gs_row) as [x|e] eqn:Ex;
      [|discriminate].
    destruct (row_counts _ _ "EXTENDED" _ gs_row) as [y|e] eqn:Ey;
      [|discriminate].
    assert (Hrow :
      (hits (add_counts c x) - hits c
       <= hits (add_counts d y) - hits d)%Z
      /\ (wrong_links (add_counts c x) - wrong_links c
          <= wrong_links (add_counts d y) - wrong_links d)%Z).
    { apply (score_row_primary_extended df_tool matching gold_set
               fill_in_qids c _ d _ gs_row out out out Hv Hg).
      - now rewrite (score_row_shift _ _ _ _ c gs_row out Hv), Ex.
      - now rewrite (score_row_shift _ _ _ _ d gs_row out Hv), Ey. }
    destruct (IH _ _ _ H H') as [Ht Hw]. lia.
Qed.

Lemma count_links_primary_extended_witness :
  (hits (0, 0, 2)%Z - hits (0, 0, 0)%Z
   <= hits (1, 0, 1)%Z - hits (0, 0, 0)%Z)%Z
  /\ (wrong_links (0, 0, 2)%Z - wrong_links (0, 0, 0)%Z
      <= wrong_links (1, 0, 1)%Z - wrong_links (0, 0, 0)%Z)%Z.
Proof.
  apply (count_links_primary_extended pump_tool "STRONG" "PRIMARY" false
           sample_gold (0, 0, 0)%Z (0, 0, 2)%Z (0, 0, 0)%Z (1, 0, 1)%Z
           [] [] []).
  - left. reflexivity.
  - discriminate.
  - reflexivity.
  - reflexivity.
Defined.

(** *** match_gold_pred *)

(** The loop body of [match_gold_pred], stage by stage. *)
Lemma gather_row_eq {Str : PyStr}
    (df_tool : list tool_row) (matching gold_set : string)
    (fill_in_qids : bool) (acc : matched) (gs_row : gold_row)
    (out : list string) :
  gather_row df_tool matching gold_set fill_in_qids acc gs_row out
  = match prune_gold_set (gs_entity gs_row) (gs_qid gs_row)
            gold_set fill_in_qids with
    | Raise e => (Raise e, out)
    | Ok (gs_entities, gs_qids) =>
        if (List.length gs_entities =? 0)%nat then (Ok acc, out)
        else
          let preds := tool_predictions df_tool (gs_id gs_row) in
          match upper_all (map tool_ent preds) with
          | Raise e => (Raise e, out)
          | Ok tool_entities =>
              match find_match gs_entities tool_entities matching
                      gold_set out with
              | (Raise e, out') => (Raise e, out')
              | (Ok (gi, ti), out') =>
                  if (gi =? -1)%Z then (Ok acc, out')
                  else
                    match py_getitem gs_entities gi with
                    | Raise e => (Raise e, out')
                    | Ok g =>
                    match py_getitem tool_entities ti with
                    | Raise e => (Raise e, out')
                    | Ok t =>
                    match py_getitem gs_qids gi with
                    | Raise e => (Raise e, out')
                    | Ok q1 =>
                    match py_getitem (map tool_qid preds) ti with
                    | Raise e => (Raise e, out')
                    | Ok q2 =>
                        (Ok (push acc (gs_id gs_row) t g q1 q2), out')
                    end end end end
              end
          end
    end.
Proof.
  destruct acc as [[[[ids tool_ents] gold_ents] q1_gold] q2_pred].
  unfold gather_row. unfold bind at 1, liftR at 1.
  destruct (prune_gold_set _ _ _ _) as [[gs_entities gs_qids]|e];
    [|reflexivity].
  destruct (List.length gs_entities =? 0)%nat; [reflexivity|].
  unfold bind at 1, liftR at 1. rewrite loc_selected_rows.
  unfold bind at 1, liftR at 1.
  destruct (upper_all _) as [tool_entities|e]; [|reflexivity].
  unfold bind at 1, liftR at 1.
  unfold bind at 1.
  destruct (find_match _ _ _ _ out) as [[[gi ti]|e] out']; [|reflexivity].
  destruct (gi =? -1)%Z; [reflexivity|].
  unfold bind at 1, liftR at 1.
  destruct (py_getitem gs_entities gi) as [g|e]; [|reflexivity].
  unfold bind at 1, liftR at 1.
  destruct (py_getitem tool_entities ti) as [t|e]; [|reflexivity].
  unfold bind at 1, liftR at 1.
  destruct (py_getitem gs_qids gi) as [q1|e]; [|reflexivity].
  unfold bind at 1, liftR at 1.
  destruct (py_getitem _ ti) as [q2|e]; reflexivity.
Qed.

Lemma upper_all_nth {Str : PyStr} (col : list cell) (l : list string) (j : nat)
    (t : string) :
  upper_all col = Ok l -> nth_error l j = Some t ->
  exists raw, nth_error col j = Some (Some raw) /\ upper raw = t.
Proof.
  revert l j; induction col as [|[s|] col IH]; intros l j H Hj;
    simpl in H.
  - injection H as <-. destruct j; discriminate.
  - destruct (upper_all col) as [rest|e]; simpl in H; [|discriminate].
    injection H as <-. destruct j as [|j]; simpl in *.
    + injection Hj as <-. eauto.
    + eapply IH; eauto.
  - discriminate.
Qed.

(** The record a gold row adds: what [find_match] answered, read in the
    four lists. *)
Lemma gather_row_found {Str : PyStr} (df_tool : list tool_row)
    (matching gold_set : string) (fill_in_qids : bool) (gs_row : gold_row)
    (gs_entities gs_qids tool_entities : list string) (gi ti : Z)
    (out out' : list string) :
  prune_gold_set (gs_entity gs_row) (gs_qid gs_row) gold_set fill_in_qids
  = Ok (gs_entities, gs_qids) ->
  upper_all (map tool_ent (tool_predictions df_tool (gs_id gs_row)))
  = Ok tool_entities ->
  find_match gs_entities tool_entities matching gold_set out
  = (Ok (gi, ti), out') ->
  (gi =? -1)%Z = false ->
  exists i j g t q1 r raw,
    gi = Z.of_nat i /\ ti = Z.of_nat j
    /\ (i < considered gs_entities gold_set)%nat
    /\ nth_error gs_entities i = Some g
    /\ nth_error gs_qids i = Some q1
    /\ nth_error tool_entities j = Some t
    /\ nth_error (tool_predictions df_tool (gs_id gs_row)) j = Some r
    /\ tool_ent r = Some raw /\ upper raw = t
    /\ py_getitem gs_entities gi = Ok g
    /\ py_getitem tool_entities ti = Ok t
    /\ py_getitem gs_qids gi = Ok q1
    /\ py_getitem (map tool_qid (tool_predictions df_tool (gs_id gs_row)))
         ti = Ok (tool_qid r).
Proof.
  intros Hp Hup Hf Hgi. unfold find_match in Hf.
  apply find_match_loop_in_range in Hf.
  destruct Hf as [Hf|(i & j & g & t & Hr & Hi & Hg & Ht)].
  { injection Hf as -> ->. discriminate. }
  injection Hr as -> ->.
  apply prune_gold_set_eq in Hp.
  destruct Hp as (qids & _ & _ & Hes & Hqs). cbv zeta in Hes, Hqs.
  assert (Hq1 : exists q1, nth_error gs_qids i = Some q1).
  { subst gs_entities gs_qids. rewrite nth_error_map in Hg |- *.
    destruct (nth_error _ i) as [[e q]|]; [|discriminate]. simpl. eauto. }
  destruct Hq1 as [q1 Hq1].
  destruct (upper_all_nth _ _ _ _ Hup Ht) as (raw & Hraw & Hupper).
  rewrite nth_error_map in Hraw.
  destruct (nth_error (tool_predictions _ _) j) as [r|] eqn:Er;
    [|discriminate].
  injection Hraw as Hraw.
  exists i, j, g, t, q1, r, raw. rewrite !py_getitem_nat.
  rewrite Hg, Ht, Hq1, nth_error_map, Er. apply in_seq in Hi.
  repeat split; auto. unfold considered. lia.
Qed.

(** A gold row is found by [match_gold_pred] exactly when the counting
    loop scores it TP or FP, and the two raise alike. *)
Lemma gather_row_score_row {Str : PyStr} (df_tool : list tool_row)
    (matching gold_set : string) (fill_in_qids : bool) (acc : matched)
    (c : counts) (gs_row : gold_row) (out : list string) :
  match gather_row df_tool matching gold_set fill_in_qids acc gs_row out,
        score_row df_tool matching gold_set fill_in_qids c gs_row out with
  | (Ok acc', o1), (Ok c', o2) =>
      o1 = o2
      /\ ((acc' = acc /\ found c' = found c)
          \/ (exists t g q1 q2,
                 acc' = push acc (gs_id gs_row) t g q1 q2
                 /\ found c' = (found c + 1)%Z))
  | (Raise e1, o1), (Raise e2, o2) => e1 = e2 /\ o1 = o2
  | _, _ => False
  end.
Proof.
  destruct c as [[TP FP] FN]. rewrite gather_row_eq, score_row_eq.
  destruct (prune_gold_set _ _ _ _) as [[gs_entities gs_qids]|e] eqn:Hp;
    [|split; reflexivity].
  destruct (List.length gs_entities =? 0)%nat.
  { split; [reflexivity|]. left. split; reflexivity. }
  cbv zeta.
  destruct (upper_all _) as [tool_entities|e] eqn:Hup; [|split; reflexivity].
  destruct (find_match _ _ _ _ out) as [[[gi ti]|e] out'] eqn:Hf;
    [|split; reflexivity].
  destruct (gi =? -1)%Z eqn:Hgi.
  { split; [reflexivity|]. left. split; reflexivity. }
  destruct (gather_row_found _ _ _ _ _ _ _ _ _ _ _ _ Hp Hup Hf Hgi)
    as (i & j & g & t & q1 & r & raw & _ & _ & _ & _ & _ & _ & _ & _ & _
        & -> & -> & -> & ->).
  destruct (py_in _ _); (split; [reflexivity|]); right;
    exists t, g, q1, (tool_qid r); (split; [reflexivity|]);
    unfold found; simpl; lia.
Qed.

Lemma aligned_push (acc : matched) (id t g q1 : string) (q2 : cell) :
  aligned acc -> aligned (push acc id t g q1 q2).
Proof.
  destruct acc as [[[[ids tool_ents] gold_ents] q1_gold] q2_pred].
  simpl. rewrite !length_app. simpl. lia.
Qed.

Lemma gather_count_links {Str : PyStr} (df_tool : list tool_row)
    (matching gold_set : string) (fill_in_qids : bool)
    (gs : list gold_row) (acc : matched) (c : counts) (out : list string) :
  aligned acc ->
  match gather df_tool matching gold_set fill_in_qids acc gs out,
        count_links df_tool matching gold_set fill_in_qids c gs out with
  | (Ok acc', o1), (Ok c', o2) =>
      o1 = o2 /\ aligned acc'
      /\ (Z.of_nat (width acc') - Z.of_nat (width acc)
          = found c' - found c)%Z
  | (Raise e1, o1), (Raise e2, o2) => e1 = e2 /\ o1 = o2
  | _, _ => False
  end.
Proof.
  revert acc c out; induction gs as [|gs_row gs IH]; intros acc c out Ha.
  - simpl. split; [reflexivity|]. split; [exact Ha|lia].
  - cbn [gather count_links]. unfold bind.
    pose proof (gather_row_score_row df_tool matching gold_set fill_in_qids
                  acc c gs_row out) as Hrow.
    destruct (gather_row _ _ _ _ acc gs_row out) as [[acc1|e1] o1];
      destruct (score_row _ _ _ _ c gs_row out) as [[c1|e2] o2];
      try contradiction; [|exact Hrow].
    destruct Hrow as [<- Hrow].
    assert (Ha1 : aligned acc1
                  /\ (Z.of_nat (width acc1) - Z.of_nat (width acc)
                      = found c1 - found c)%Z).
    { destruct Hrow as [[-> Hc]|(t & g & q1 & q2 & -> & Hc)].
      - split; [exact Ha|lia].
      - split; [now apply aligned_push|].
        destruct acc as [[[[ids tool_ents] gold_ents] q1_gold] q2_pred].
        unfold width. simpl. rewrite length_app. simpl. lia. }
    destruct Ha1 as [Ha1 Hw1].
    specialize (IH acc1 c1 o1 Ha1).
    destruct (gather _ _ _ _ acc1 gs o1) as [[acc'|e1] o1'];
      destruct (count_links _ _ _ _ c1 gs o1) as [[c'|e2] o2'];
      try contradiction; [|exact IH].
    destruct IH as (-> & Ha' & Hw'). split; [reflexivity|].
    split; [exact Ha'|lia].
Qed.

(** X10: on the same tables [match_gold_pred] and the counting loop of
    [calculate_precision_recall_f1] end alike: they raise the same
    exception after the same output, or both return, and then the five
    lists of [match_gold_pred] have one common length, which is
    TP + FP. *)
Theorem match_gold_pred_counts {Str : PyStr} (gs : list gold_row)
    (df_tool : list tool_row) (matching gold_set : string)
    (fill_in_qids : bool) (out : list string) :
  match match_gold_pred gs df_tool matching gold_set fill_in_qids out,
        count_links df_tool matching gold_set fill_in_qids (0, 0, 0)%Z
          gs out with
  | (Ok (ids, tool_ents, gold_ents, q1_gold, q2_pred), o1),
    (Ok (TP, FP, FN), o2) =>
      o1 = o2
      /\ Z.of_nat (List.length ids) = (TP + FP)%Z
      /\ List.length tool_ents = List.length ids
      /\ List.length gold_ents = List.length ids
      /\ List.length q1_gold = List.length ids
      /\ List.length q2_pred = List.length ids
  | (Raise e1, o1), (Raise e2, o2) => e1 = e2 /\ o1 = o2
  | _, _ => False
  end.
Proof.
  unfold match_gold_pred.
  pose proof (gather_count_links df_tool matching gold_set fill_in_qids gs
                ([], [], [], [], []) (0, 0, 0)%Z out) as H.
  destruct (gather _ _ _ _ _ gs out)
    as [[[[[[ids tool_ents] gold_ents] q1_gold] q2_pred]|e1] o1];
    destruct (count_links _ _ _ _ _ gs out) as [[[[TP FP] FN]|e2] o2];
    try (apply H; simpl; auto).
  destruct H as (-> & Ha & Hw); [simpl; auto|].
  split; [reflexivity|]. unfold width, found in Hw. simpl in Hw.
  split; [lia|exact Ha].
Qed.

Example match_gold_pred_sample :
  match_gold_pred sample_gold pump_tool "STRONG" "EXTENDED" false []
  = (Ok (["19890723054159I"], ["PUMP"], ["PUMP"], ["Q2"], [Some "Q1"]), []).
Proof.
  reflexivity.
Qed.

Lemma combine_snoc {A B} (l : list A) (l' : list B) (a : A) (b : B) :
  List.length l' = List.length l ->
  combine (l ++ [a]) (l' ++ [b]) = combine l l' ++ [(a, b)].
Proof.
  revert l'; induction l as [|x l IH]; intros [|y l'] H; simpl in *;
    try discriminate; [reflexivity|].
  rewrite IH by lia. reflexivity.
Qed.

Lemma records_push (acc : matched) (id t g q1 : string) (q2 : cell) :
  aligned acc ->
  records (push acc id t g q1 q2) = records acc ++ [(id, t, g, q1, q2)].
Proof.
  destruct acc as [[[[ids tool_ents] gold_ents] q1_gold] q2_pred].
  simpl. intros (H1 & H2 & H3 & H4).
  rewrite (combine_snoc ids tool_ents) by exact H1.
  rewrite (combine_snoc (combine ids tool_ents) gold_ents)
    by (rewrite length_combine; lia).
  rewrite (combine_snoc _ q1_gold) by (rewrite !length_combine; lia).
  rewrite (combine_snoc _ q2_pred) by (rewrite !length_combine; lia).
  reflexivity.
Qed.

Lemma gather_row_sound {Str : PyStr} (df_tool : list tool_row)
    (matching gold_set : string) (fill_in_qids : bool) (acc acc' : matched)
    (gs_row : gold_row) (out out' : list string) :
  valid_policy matching -> aligned acc ->
  gather_row df_tool matching gold_set fill_in_qids acc gs_row out
  = (Ok acc', out') ->
  aligned acc'
  /\ (records acc' = records acc
      \/ exists rec,
          records acc' = records acc ++ [rec]
          /\ sound_record df_tool matching gold_set fill_in_qids gs_row rec).
Proof.
  intros Hv Ha. rewrite gather_row_eq.
  destruct (prune_gold_set _ _ _ _) as [[gs_entities gs_qids]|e] eqn:Hp;
    [|discriminate].
  destruct gs_entities as [|g0 gs_entities].
  { intros H. injection H as <- <-. auto. }
  cbn [List.length Nat.eqb]. cbv zeta.
  destruct (upper_all _) as [tool_entities|e] eqn:Hup; [|discriminate].
  destruct (find_match _ _ _ _ out) as [[[gi ti]|e] o] eqn:Hf;
    [|discriminate].
  destruct (gi =? -1)%Z eqn:Hgi.
  { intros H. injection H as <- <-. auto. }
  destruct (gather_row_found _ _ _ _ _ _ _ _ _ _ _ _ Hp Hup Hf Hgi)
    as (i & j & g & t & q1 & r & raw & -> & -> & Hi & Hg & Hq1 & Ht & Hr
        & Hraw & Hupper & -> & -> & -> & ->).
  intros H. injection H as <- <-.
  split; [now apply aligned_push|]. right.
  exists (gs_id gs_row, t, g, q1, tool_qid r).
  split; [now apply records_push|].
  apply nth_error_In in Hr. apply filter_In in Hr.
  destruct Hr as [Hin Hb]. apply andb_true_iff in Hb.
  destruct Hb as [Hdoc Hqid].
  assert (Hm : is_match_true matching t g).
  { destruct (find_match_valid_cases g0 gs_entities tool_entities matching
                gold_set out Hv)
      as [[Hr _]|(i0 & j0 & Hr & _ & (g' & t' & Hg' & Ht' & Hm) & _)];
      rewrite Hr in Hf; injection Hf as Hi0 Hj0 _; [lia|].
    apply Nat2Z.inj in Hi0, Hj0. subst i0 j0.
    rewrite Hg in Hg'. rewrite Ht in Ht'.
    injection Hg' as <-. injection Ht' as <-.
    intros o'. now rewrite (is_match_valid _ _ _ _ Hv), Hm. }
  split; [reflexivity|]. split; [exact Hm|]. split.
  - exists (g0 :: gs_entities), gs_qids, i. auto.
  - exists r, raw. split; [exact Hin|].
    unfold same_doc, cell_eqb in Hdoc.
    destruct (tool_id r) as [d|]; [|discriminate].
    apply String.eqb_eq in Hdoc. subst d.
    repeat split; auto.
    unfold has_qid, not_none in Hqid.
    destruct (tool_qid r); [discriminate|discriminate].
Qed.

Lemma gather_sound {Str : PyStr} (df_tool : list tool_row)
    (matching gold_set : string) (fill_in_qids : bool)
    (gs : list gold_row) (acc acc' : matched) (out out' : list string)
    (P : record -> Prop) :
  valid_policy matching -> aligned acc ->
  (forall gs_row rec, In gs_row gs ->
     sound_record df_tool matching gold_set fill_in_qids gs_row rec ->
     P rec) ->
  Forall P (records acc) ->
  gather df_tool matching gold_set fill_in_qids acc gs out = (Ok acc', out') ->
  Forall P (records acc').
Proof.
  intros Hv. revert acc out; induction gs as [|gs_row gs IH];
    intros acc out Ha HP Hacc H.
  - injection H as <- <-. exact Hacc.
  - cbn [gather] in H. unfold bind in H.
    destruct (gather_row _ _ _ _ acc gs_row out) as [[acc1|e] o1] eqn:E;
      [|discriminate].
    destruct (gather_row_sound _ _ _ _ _ _ _ _ _ Hv Ha E)
      as [Ha1 [Hr|(rec & Hr & Hs)]].
    + apply (IH acc1 o1 Ha1); [|rewrite Hr; exact Hacc|exact H].
      intros r rec Hin. apply HP. right. exact Hin.
    + apply (IH acc1 o1 Ha1); [| |exact H].
      * intros r rec' Hin. apply HP. right. exact Hin.
      * rewrite Hr. apply Forall_app. split; [exact Hacc|].
        constructor; [|constructor].
        apply (HP gs_row rec); [left; reflexivity|exact Hs].
Qed.

(** X11: under a valid policy every record [match_gold_pred] returns
    comes from a gold row of the table: it carries that row's id, an
    entity and QID kept from the row at a considered position, the
    upper-cased entity and the QID of a tool row on the same document
    that has a QID, and [is_match] accepts the two entities. *)
Theorem match_gold_pred_sound {Str : PyStr} (gs : list gold_row)
    (df_tool : list tool_row) (matching gold_set : string)
    (fill_in_qids : bool) (acc : matched) (out out' : list string) :
  valid_policy matching ->
  match_gold_pred gs df_tool matching gold_set fill_in_qids out
  = (Ok acc, out') ->
  Forall (fun rec =>
            exists gs_row,
              In gs_row gs
              /\ sound_record df_tool matching gold_set fill_in_qids
                   gs_row rec)
    (records acc).
Proof.
  intros Hv H. unfold match_gold_pred in H.
  apply (gather_sound df_tool matching gold_set fill_in_qids gs
           ([], [], [], [], []) acc out out');
    [exact Hv|simpl; auto| |constructor|exact H].
  intros gs_row rec Hin Hs. exists gs_row. split; assumption.
Qed.

Lemma match_gold_pred_sound_witness :
  Forall (fun rec =>
            exists gs_row,
              In gs_row sample_gold
              /\ sound_record pump_tool "STRONG" "EXTENDED" false gs_row rec)
    (records (["19890723054159I"], ["PUMP"], ["PUMP"], ["Q2"], [Some "Q1"])).
Proof.
  apply (match_gold_pred_sound sample_gold pump_tool "STRONG" "EXTENDED"
           false _ [] []).
  - left. reflexivity.
  - reflexivity.
Defined.

(** *** make_temp *)

Lemma skipn_nth {A} (l : list A) (a : nat) (x : A) :
  nth_error l a = Some x -> skipn a l = x :: skipn (S a) l.
Proof.
  revert a; induction l as [|y l IH]; intros [|a] H; simpl in *;
    try discriminate.
  - now injection H as ->.
  - now apply IH.
Qed.

Lemma combine_firstn_r {A B} (l : list A) (l' : list B) :
  combine l (firstn (List.length l) l') = combine l l'.
Proof.
  revert l'; induction l as [|a l IH]; intros [|b l']; simpl;
    try reflexivity.
  now rewrite IH.
Qed.

Lemma temp_lines_seq (q1_gold : list string) (q2_pred : list cell)
    (n a : nat) :
  (a + n <= List.length q1_gold)%nat ->
  (a + n <= List.length q2_pred)%nat ->
  temp_lines q1_gold q2_pred (seq a n)
  = Ok (map temp_line
          (combine (firstn n (skipn a q1_gold))
             (firstn n (skipn a q2_pred)))).
Proof.
  revert a; induction n as [|n IH]; intros a H1 H2; [reflexivity|].
  cbn [seq temp_lines]. rewrite !py_getitem_nat.
  destruct (nth_error q1_gold a) as [x|] eqn:E1.
  2:{ apply nth_error_None in E1. lia. }
  destruct (nth_error q2_pred a) as [y|] eqn:E2.
  2:{ apply nth_error_None in E2. lia. }
  cbn [rbind]. rewrite IH by lia. cbn [rbind].
  rewrite (skipn_nth _ _ _ E1), (skipn_nth _ _ _ E2). reflexivity.
Qed.

Lemma temp_lines_short (q1_gold : list string) (q2_pred : list cell)
    (n a : nat) :
  (a + n <= List.length q1_gold)%nat ->
  (a <= List.length q2_pred < a + n)%nat ->
  temp_lines q1_gold q2_pred (seq a n) = Raise IndexError.
Proof.
  revert a; induction n as [|n IH]; intros a H1 H2; [lia|].
  cbn [seq temp_lines]. rewrite !py_getitem_nat.
  destruct (nth_error q1_gold a) as [x|] eqn:E1.
  2:{ apply nth_error_None in E1. lia. }
  destruct (nth_error q2_pred a) as [y|] eqn:E2; cbn [rbind];
    [|reflexivity].
  assert (a < List.length q2_pred)%nat by (apply nth_error_Some; congruence).
  rewrite IH by lia. reflexivity.
Qed.

(** X12: [make_temp] needs a tool QID for every gold QID: with fewer
    tool QIDs than gold QIDs it raises IndexError and writes nothing;
    otherwise it puts 'temp.csv' in front of the files, holding one
    line 'q1<TAB>q2' per gold QID in order, and tool QIDs beyond the
    last gold QID are ignored. *)
Theorem make_temp_lines (q1_gold : list string) (q2_pred : list cell)
    (fs : files) :
  make_temp q1_gold q2_pred fs
  = if (List.length q1_gold <=? List.length q2_pred)%nat
    then Ok (("temp.csv",
              (temp_header, map temp_line (combine q1_gold q2_pred))) :: fs)
    else Raise IndexError.
Proof.
  unfold make_temp.
  destruct (Nat.leb_spec (List.length q1_gold) (List.length q2_pred))
    as [Hle|Hlt].
  - rewrite temp_lines_seq by lia. cbn [rbind skipn].
    now rewrite firstn_all, combine_firstn_r.
  - rewrite temp_lines_short by lia. reflexivity.
Qed.

(** X13: the gold and tool QIDs that [match_gold_pred] returns always
    suit [make_temp]: it does not raise, and writes one line per
    record. *)
Theorem make_temp_after_match_gold_pred {Str : PyStr} (gs : list gold_row)
    (df_tool : list tool_row) (matching gold_set : string)
    (fill_in_qids : bool) (out out' : list string)
    (ids tool_ents gold_ents q1_gold : list string) (q2_pred : list cell)
    (fs : files) :
  match_gold_pred gs df_tool matching gold_set fill_in_qids out
  = (Ok (ids, tool_ents, gold_ents, q1_gold, q2_pred), out') ->
  exists lines,
    make_temp q1_gold q2_pred fs
    = Ok (("temp.csv", (temp_header, lines)) :: fs)
    /\ List.length lines = List.length ids.
Proof.
  intros H. unfold match_gold_pred in H.
  pose proof (gather_count_links df_tool matching gold_set fill_in_qids gs
                ([], [], [], [], []) (0, 0, 0)%Z out) as Hg.
  rewrite H in Hg.
  destruct (count_links _ _ _ _ _ gs out) as [[c|e] o];
    [|exfalso; apply Hg; simpl; auto].
  destruct Hg as (_ & (_ & _ & H3 & H4) & _); [simpl; auto|].
  unfold make_temp. rewrite temp_lines_seq by lia. cbn [rbind skipn].
  eexists. split; [reflexivity|].
  rewrite length_map, length_combine, !length_firstn. lia.
Qed.

Lemma make_temp_after_match_gold_pred_witness :
  exists lines,
    make_temp ["Q2"] [Some "Q1"] []
    = Ok (("temp.csv", (temp_header, lines)) :: [])
    /\ List.length lines = List.length ["19890723054159I"].
Proof.
  apply (make_temp_after_match_gold_pred sample_gold pump_tool "STRONG"
           "EXTENDED" false [] [] _ ["PUMP"] ["PUMP"]).
  reflexivity.
Defined.

(** *** retrieve_score_vals *)

Lemma filter_nil_iff {A} (p : A -> bool) (l : list A) :
  filter p l = [] <-> forall a, In a l -> p a = false.
Proof.
  induction l as [|x l IH]; simpl.
  - split; [intros _ a []|reflexivity].
  - destruct (p x) eqn:E.
    + split; [discriminate|]. intros H.
      specialize (H x (or_introl eq_refl)). congruence.
    + rewrite IH. split.
      * intros H a [<-|Ha]; auto.
      * intros H a Ha. apply H. right. exact Ha.
Qed.

Lemma filter_first {A} (p : A -> bool) (l : list A) (x : A)
    (rest : list A) :
  filter p l = x :: rest ->
  exists pre post,
    l = pre ++ x :: post /\ p x = true
    /\ forall a, In a pre -> p a = false.
Proof.
  induction l as [|y l IH]; simpl; [discriminate|].
  destruct (p y) eqn:E.
  - intros H. injection H as <- _. exists [], l.
    split; [reflexivity|]. split; [exact E|]. intros a [].
  - intros H. destruct (IH H) as (pre & post & -> & Hx & Hpre).
    exists (y :: pre), post. split; [reflexivity|]. split; [exact Hx|].
    intros a [<-|Ha]; auto.
Qed.

Lemma filter_first_app {A} (p : A -> bool) (pre post : list A) (x : A) :
  p x = true -> (forall a, In a pre -> p a = false) ->
  filter p (pre ++ x :: post) = x :: filter p post.
Proof.
  intros Hx Hpre. rewrite filter_app.
  replace (filter p pre) with (@nil A)
    by (symmetry; now apply filter_nil_iff).
  simpl. now rewrite Hx.
Qed.

Section ScoreTableFacts.

Variables R V : Type.

Variables q1 q2 : R -> cell.

(** X14: for a position i of [eval_df], [retrieve_score_vals] returns
    None exactly when no row of [score_df] has the gold and tool QIDs
    of record i, and otherwise the value, in column [col], of the first
    such row; rows after it are not looked at. A missing tool QID
    matches no row. For i past the end of [eval_df] it raises
    IndexError. *)
Theorem retrieve_score_vals_first (col : R -> V) (score_df : list R)
    (gold_qid : list string) (pred_qid : list cell) (i : nat) :
  (forall g p,
      nth_error gold_qid i = Some g -> nth_error pred_qid i = Some p ->
      (retrieve_score_vals R V q1 q2 (Z.of_nat i) col score_df gold_qid
         pred_qid = Ok None
       <-> forall r, In r score_df -> scores_pair q1 q2 g p r = false)
      /\ (forall v,
             retrieve_score_vals R V q1 q2 (Z.of_nat i) col score_df
               gold_qid pred_qid = Ok (Some v)
             <-> exists pre r post,
                   score_df = pre ++ r :: post
                   /\ scores_pair q1 q2 g p r = true
                   /\ (forall r', In r' pre -> scores_pair q1 q2 g p r' = false)
                   /\ v = col r)
      /\ (p = None ->
          retrieve_score_vals R V q1 q2 (Z.of_nat i) col score_df gold_qid
            pred_qid = Ok None))
  /\ ((List.length gold_qid <= i)%nat \/ (List.length pred_qid <= i)%nat ->
      retrieve_score_vals R V q1 q2 (Z.of_nat i) col score_df gold_qid
        pred_qid = Raise IndexError).
Proof.
  split.
  - intros g p Hg Hp. unfold retrieve_score_vals.
    rewrite !py_getitem_nat, Hg, Hp. cbn [rbind].
    fold (scores_pair q1 q2 g p).
    destruct (filter (scores_pair q1 q2 g p) score_df) as [|x rest] eqn:Ef.
    + split; [|split].
      * split; [intros _; now apply filter_nil_iff|reflexivity].
      * intros v. split; [discriminate|].
        intros (pre & r & post & -> & Hr & Hpre & _).
        rewrite (filter_first_app _ _ _ _ Hr Hpre) in Ef. discriminate.
      * reflexivity.
    + cbn [map]. apply filter_first in Ef.
      destruct Ef as (pre & post & -> & Hx & Hpre).
      split; [|split].
      * split; [discriminate|]. intros H.
        rewrite H in Hx; [discriminate|].
        apply in_or_app. right. left. reflexivity.
      * intros v. split.
        -- intros H. injection H as <-. exists pre, x, post. auto.
        -- intros (pre' & r & post' & E & Hr & Hpre' & ->).
           assert (Hf : filter (scores_pair q1 q2 g p) (pre ++ x :: post)
                        = filter (scores_pair q1 q2 g p) (pre' ++ r :: post'))
             by now rewrite E.
           rewrite (filter_first_app _ _ _ _ Hx Hpre),
             (filter_first_app _ _ _ _ Hr Hpre') in Hf.
           now injection Hf as ->.
      * intros ->. unfold scores_pair, cell_eq in Hx.
        rewrite andb_true_iff in Hx. destruct Hx as [_ Hx].
        destruct (q2 x); discriminate.
  - intros H. unfold retrieve_score_vals. rewrite !py_getitem_nat.
    destruct (nth_error gold_qid i) as [g|] eqn:Eg; [|reflexivity].
    cbn [rbind].
    destruct (nth_error pred_qid i) as [p|] eqn:Ep; [|reflexivity].
    exfalso.
    assert (i < List.length gold_qid)%nat by (apply nth_error_Some; congruence).
    assert (i < List.length pred_qid)%nat by (apply nth_error_Some; congruence).
    lia.
Qed.

End ScoreTableFacts.

Lemma retrieve_score_vals_first_witness :
  (retrieve_score_vals (string * string * Z) Z
     (fun r => Some (fst (fst r))) (fun r => Some (snd (fst r)))
     (Z.of_nat 0) snd sample_scores ["Q2"] [Some "Q1"] = Ok None
   <-> forall r, In r sample_scores ->
         scores_pair (fun r : string * string * Z => Some (fst (fst r)))
           (fun r => Some (snd (fst r))) "Q2" (Some "Q1") r = false)
  /\ retrieve_score_vals (string * string * Z) Z
       (fun r => Some (fst (fst r))) (fun r => Some (snd (fst r)))
       (Z.of_nat 1) snd sample_scores ["Q2"] [Some "Q1"]
     = Raise IndexError.
Proof.
  split.
  - apply (proj1 (retrieve_score_vals_first (string * string * Z) Z
                    (fun r => Some (fst (fst r)))
                    (fun r => Some (snd (fst r)))
                    snd sample_scores ["Q2"] [Some "Q1"] 0)
             "Q2" (Some "Q1")); reflexivity.
  - apply (proj2 (retrieve_score_vals_first (string * string * Z) Z
                    (fun r => Some (fst (fst r)))
                    (fun r => Some (snd (fst r)))
                    snd sample_scores ["Q2"] [Some "Q1"] 1)).
    left. simpl. lia.
Defined.

Example retrieve_score_vals_sample :
  retrieve_score_vals (string * string * Z) Z
    (fun r => Some (fst (fst r))) (fun r => Some (snd (fst r)))
    0 snd sample_scores ["Q2"] [Some "Q1"] = Ok (Some 5%Z).
Proof.
  reflexivity.
Qed.

(** *** get_class_score and get_jc_score *)

Lemma unique_In (l : list string) (x : string) :
  In x (unique l) <-> In x l.
Proof.
  induction l as [|a l IH]; simpl; [tauto|].
  split.
  - intros [H|H]; [left; exact H|].
    apply filter_In in H. right. apply IH, H.
  - intros H. destruct (string_dec a x) as [E|Hne]; [left; exact E|].
    right. apply filter_In. split.
    + apply IH. destruct H as [H|H]; [contradiction|exact H].
    + apply negb_true_iff, String.eqb_neq. congruence.
Qed.

Lemma unique_NoDup (l : list string) : NoDup (unique l).
Proof.
  induction l as [|a l IH]; simpl; constructor.
  - intros H. apply filter_In in H. destruct H as [_ H].
    apply negb_true_iff, String.eqb_neq in H. congruence.
  - now apply NoDup_filter.
Qed.

Lemma flat_map_NoDup {A B} (f : A -> list B) (l : list A) :
  NoDup l -> (forall a, In a l -> NoDup (f a)) ->
  (forall a a' b, In a l -> In a' l -> In b (f a) -> In b (f a') -> a = a') ->
  NoDup (flat_map f l).
Proof.
  induction 1 as [|a l Ha Hl IH]; intros Hf Hd; simpl; [constructor|].
  apply NoDup_app.
  - apply Hf. left. reflexivity.
  - apply IH.
    + intros x Hx. apply Hf. right. exact Hx.
    + intros x y b Hx Hy. apply Hd; right; assumption.
  - intros b Hb Hb'. apply in_flat_map in Hb'.
    destruct Hb' as (a' & Ha' & Hb').
    assert (a = a').
    { apply (Hd a a' b); [left; reflexivity|right; exact Ha'| |];
        assumption. }
    subst a'. contradiction.
Qed.

Lemma index_of_first {A} (p : A -> bool) (l : list A) (k : Z) :
  index_of p l = Ok k ->
  exists n a,
    k = Z.of_nat n /\ nth_error l n = Some a /\ p a = true
    /\ forall j b, (j < n)%nat -> nth_error l j = Some b -> p b = false.
Proof.
  revert k; induction l as [|x l IH]; intros k H; [discriminate|].
  apply index_of_head in H. destruct H as [[-> Hx]|(Hx & k' & Hk & ->)].
  - exists 0%nat, x. repeat split; auto. intros j b Hj. lia.
  - destruct (IH _ Hk) as (n & a & -> & Hn & Ha & Hmin).
    exists (S n), a. split; [lia|]. split; [exact Hn|]. split; [exact Ha|].
    intros [|j] b Hj Hb; simpl in Hb.
    + congruence.
    + apply (Hmin j b); [lia|exact Hb].
Qed.

Lemma index_of_found {A} (p : A -> bool) (l : list A) (a : A) :
  In a l -> p a = true -> exists k, index_of p l = Ok k.
Proof.
  induction l as [|x l IH]; intros Hin Ha; [destruct Hin|].
  simpl. destruct (p x) eqn:Ex; [eauto|].
  destruct Hin as [->|Hin]; [congruence|].
  destruct (IH Hin Ha) as [k ->]. simpl. eauto.
Qed.

Lemma nth_error_combine {A B} (l : list A) (l' : list B) (k : nat)
    (a : A) (b : B) :
  nth_error (combine l l') k = Some (a, b)
  <-> nth_error l k = Some a /\ nth_error l' k = Some b.
Proof.
  revert l' k; induction l as [|x l IH]; intros [|y l'] [|k]; simpl;
    try (split; [discriminate|intros [H1 H2]; discriminate]).
  - split; [intros H; injection H as -> ->; auto|].
    intros [H1 H2]. congruence.
  - apply IH.
Qed.

Lemma labelled_In {A} (l : list A) (k : nat) (a : A) :
  In (k, a) (labelled l) <-> nth_error l k = Some a.
Proof.
  split.
  - intros H. apply in_labelled in H. now rewrite Nat.sub_0_r in H.
  - intros H. unfold labelled. apply (nth_error_In _ k).
    apply nth_error_combine. split; [|exact H].
    assert (Hk : (k < List.length l)%nat) by (apply nth_error_Some; congruence).
    rewrite nth_error_seq.
    destruct (Nat.ltb_spec k (List.length l)); [reflexivity|lia].
Qed.

Lemma filter_split {A} (p : A -> bool) (l pre post : list A) (r : A) :
  filter p l = pre ++ r :: post ->
  exists pre' post',
    l = pre' ++ r :: post' /\ pre = filter p pre' /\ post = filter p post'.
Proof.
  revert pre; induction l as [|a l IH]; intros pre H; simpl in H.
  - destruct pre; discriminate.
  - destruct (p a) eqn:Ea.
    + destruct pre as [|x pre]; simpl in H.
      * injection H as Ha Hp. subst a post. exists [], l. auto.
      * injection H as Ha Hp. subst a.
        destruct (IH _ Hp) as (pre' & post' & -> & -> & ->).
        exists (x :: pre'), post'. simpl. rewrite Ea. auto.
    + destruct (IH _ H) as (pre' & post' & -> & -> & ->).
      exists (a :: pre'), post'. simpl. rewrite Ea. auto.
Qed.

(** Labels grow along a dataframe. *)
Lemma labelled_split {A} (l : list A) (s : nat) (pre post : list (nat * A))
    (r : nat * A) :
  combine (seq s (List.length l)) l = pre ++ r :: post ->
  (forall r', In r' pre -> (fst r' < fst r)%nat)
  /\ (forall r', In r' post -> (fst r < fst r')%nat).
Proof.
  revert s l; induction pre as [|x pre IH]; intros s [|a l] H;
    try discriminate; simpl in H; injection H as Hx H.
  - subst r post. split; [intros r' []|].
    intros [k b] Hin. apply in_labelled in Hin. simpl. lia.
  - subst x. destruct (IH _ _ H) as [Hpre Hpost]. split; [|exact Hpost].
    intros r' [<-|Hin]; [|auto].
    assert (Hr : In r (combine (seq (S s) (List.length l)) l))
      by (rewrite H; apply in_elt).
    destruct r as [k b]. apply in_labelled in Hr. simpl. lia.
Qed.

Section BestRows.

Variable num : Type.

Variables num_gt num_eq : num -> num -> bool.

Variable num_isnan : num -> bool.

Hypothesis laws : num_laws num_gt num_eq num_isnan.

Lemma numeric_scores_ok (col : list (scoreval num)) :
  no_text col ->
  exists nums,
    numeric_scores num num_isnan col = Ok nums
    /\ forall x, In x nums <-> In (SNum num x) col /\ num_isnan x = false.
Proof.
  induction col as [|v col IH]; intros Hnt.
  - exists []. split; [reflexivity|]. simpl. tauto.
  - destruct IH as (nums & Hn & Hin).
    { intros s Hs. apply Hnt. right. exact Hs. }
    cbn [numeric_scores]. rewrite Hn.
    destruct v as [|s|x]; cbn [as_number rbind].
    + exists nums. split; [reflexivity|]. intros x. rewrite Hin. simpl.
      split; [tauto|]. intros [[H|H] Hx]; [discriminate|tauto].
    + rewrite (Hnt s (or_introl eq_refl)). cbn [String.eqb rbind].
      exists nums. split; [reflexivity|]. intros x. rewrite Hin. simpl.
      split; [tauto|]. intros [[H|H] Hx]; [discriminate|tauto].
    + destruct (num_isnan x) eqn:Ex; cbn [rbind].
      * exists nums. split; [reflexivity|]. intros y. rewrite Hin. simpl.
        split; [tauto|]. intros [[H|H] Hy]; [|tauto].
        injection H as ->. congruence.
      * exists (x :: nums). split; [reflexivity|]. intros y. simpl.
        rewrite Hin. split.
        -- intros [->|[H1 H2]]; auto.
        -- intros [[H|H] Hy]; [injection H as ->; auto|auto].
Qed.

Lemma numeric_scores_text (col : list (scoreval num)) (s : string) :
  In (SStr num s) col -> s <> "" ->
  numeric_scores num num_isnan col = Raise TypeError.
Proof.
  intros Hin Hs. apply String.eqb_neq in Hs.
  induction col as [|v col IH]; [destruct Hin|].
  cbn [numeric_scores].
  destruct v as [|s'|x]; cbn [as_number rbind].
  - destruct Hin as [H|Hin]; [discriminate|]. now rewrite IH.
  - destruct (s' =? "") eqn:E; [|reflexivity]. cbn [rbind].
    destruct Hin as [H|Hin]; [injection H as ->; congruence|].
    now rewrite IH.
  - destruct Hin as [H|Hin]; [discriminate|]. now rewrite IH.
Qed.

Lemma gt_irrefl (x : num) : num_gt x x = false.
Proof.
  destruct (num_gt x x) eqn:E; [|reflexivity].
  now rewrite (gt_asym _ _ _ laws x x E) in E.
Qed.

(** [max] returns an item that no item is greater than. *)
Lemma py_max_spec (rest : list num) (m0 : num) :
  (forall x, In x (m0 :: rest) -> num_isnan x = false) ->
  In (py_max num num_gt m0 rest) (m0 :: rest)
  /\ forall x, In x (m0 :: rest) ->
       num_gt x (py_max num num_gt m0 rest) = false.
Proof.
  revert m0; induction rest as [|x rest IH]; intros m0 Hnan.
  - simpl. split; [auto|]. intros x [<-|[]]. apply gt_irrefl.
  - cbn [py_max].
    set (m1 := if num_gt x m0 then x else m0).
    destruct (IH m1) as [Hin Hmax].
    { intros y [<-|Hy]; [|apply Hnan; right; right; exact Hy].
      unfold m1. destruct (num_gt x m0); apply Hnan; simpl; auto. }
    split.
    + destruct Hin as [<-|Hin]; [|right; right; exact Hin].
      unfold m1. destruct (num_gt x m0); simpl; auto.
    + assert (H1 : num_gt m1 (py_max num num_gt m1 rest) = false)
        by (apply Hmax; left; reflexivity).
      intros y [<-|[<-|Hy]].
      * unfold m1 in *. destruct (num_gt x m0) eqn:E; [|exact H1].
        apply (gt_negtrans _ _ _ laws m0 x); auto.
        -- apply Hnan. simpl. auto.
        -- now apply (gt_asym _ _ _ laws).
      * unfold m1 in *. destruct (num_gt x m0) eqn:E; [exact H1|].
        apply (gt_negtrans _ _ _ laws x m0); auto.
        apply Hnan. simpl. auto.
      * apply Hmax. right. exact Hy.
Qed.

(** What the inner loop body finds in a group of rows without text
    scores: nothing when the group has no number, and otherwise the
    label of the first row whose score equals a number that none
    exceeds. *)
Lemma best_row_spec (rows : list (eval_row num)) :
  no_text (map (score_of num) rows) ->
  (best_row num num_gt num_eq num_isnan rows = Ok None
   /\ forall r z, In r rows -> score_of num r = SNum num z ->
                  num_isnan z = true)
  \/ exists pre r post y,
      rows = pre ++ r :: post
      /\ best_row num num_gt num_eq num_isnan rows = Ok (Some (fst r))
      /\ score_of num r = SNum num y
      /\ num_isnan y = false
      /\ (forall r' z, In r' rows -> score_of num r' = SNum num z ->
                       num_isnan z = false -> num_gt z y = false)
      /\ (forall r' z, In r' pre -> score_of num r' = SNum num z ->
                       num_eq z y = false).
Proof.
  intros Hnt. unfold best_row.
  destruct (numeric_scores_ok _ Hnt) as (nums & -> & Hin). cbn [rbind].
  destruct nums as [|m0 rest].
  - left. split; [reflexivity|]. intros r z Hr Hz.
    destruct (num_isnan z) eqn:E; [reflexivity|].
    exfalso. apply (Hin z). split; [|exact E].
    rewrite <- Hz. now apply in_map.
  - right.
    destruct (py_max_spec rest m0) as [Hm Hmax].
    { intros x Hx. now apply Hin in Hx. }
    set (m := py_max num num_gt m0 rest) in *.
    apply Hin in Hm. destruct Hm as [Hm Hmnan].
    destruct (index_of_found (equals num num_eq m) _ _ Hm) as [k Hk].
    { simpl. now apply (eq_self _ _ _ laws). }
    rewrite Hk. cbn [rbind].
    destruct (index_of_first _ _ _ Hk) as (n & v & -> & Hn & Hv & Hfirst).
    rewrite nth_error_map in Hn.
    destruct (nth_error rows n) as [r|] eqn:Er; [|discriminate].
    injection Hn as Hn.
    unfold eval_row in *.
    rewrite py_getitem_nat, nth_error_map, Er. cbn [option_map rbind].
    destruct v as [| |y]; try discriminate. simpl in Hv.
    destruct (nth_error_split rows n Er) as (pre & post & Hrows & Hlen).
    exists pre, r, post, y. split; [exact Hrows|].
    split; [reflexivity|]. split; [exact Hn|].
    split; [now apply (eq_not_nan _ _ _ laws y m)|]. split.
    + intros r' z Hr' Hz Hznan.
      rewrite (eq_gt _ _ _ laws y m z Hv). apply Hmax. apply Hin.
      split; [|exact Hznan]. rewrite <- Hz. now apply in_map.
    + intros r' z Hr' Hz.
      rewrite (eq_eq _ _ _ laws y m z Hv).
      apply In_nth_error in Hr'. destruct Hr' as [j Hj].
      assert (Hjn : (j < n)%nat).
      { rewrite <- Hlen. apply nth_error_Some. congruence. }
      apply (Hfirst j (SNum num z) Hjn).
      rewrite nth_error_map, Hrows, nth_error_app1, Hj by lia.
      simpl. now rewrite Hz.
Qed.

Lemma best_row_ok (rows : list (eval_row num)) :
  no_text (map (score_of num) rows) ->
  exists b, best_row num num_gt num_eq num_isnan rows = Ok b.
Proof.
  intros Hnt.
  destruct (best_row_spec rows Hnt)
    as [[H _]|(pre & r & post & y & _ & H & _)]; eauto.
Qed.

Lemma group_In (eval_df : list (eval_row num)) (id ent : string)
    (r : eval_row num) :
  In r (group eval_df id ent)
  <-> In r eval_df /\ id_of num r = id /\ ent_of num r = ent.
Proof.
  unfold group. rewrite filter_In, andb_true_iff, !String.eqb_eq. tauto.
Qed.

Lemma group_no_text (eval_df : list (eval_row num)) (id ent : string) :
  no_text (map (score_of num) eval_df) ->
  no_text (map (score_of num) (group eval_df id ent)).
Proof.
  intros Hnt s Hs. apply Hnt.
  apply in_map_iff in Hs. destruct Hs as (r & Hr & Hin).
  apply group_In in Hin. rewrite <- Hr. apply in_map. tauto.
Qed.

Lemma keep_ents_eq (eval_df : list (eval_row num)) (id : string)
    (ents : list string) (keep0 keep : list nat) :
  keep_ents num num_gt num_eq num_isnan eval_df id ents keep0 = Ok keep ->
  keep = keep0
         ++ flat_map (fun ent =>
                        picked (best_row num num_gt num_eq num_isnan
                                  (group eval_df id ent))) ents.
Proof.
  revert keep0; induction ents as [|ent ents IH]; intros keep0 H;
    cbn [keep_ents flat_map] in *.
  - injection H as <-. now rewrite app_nil_r.
  - fold (group eval_df id ent) in H.
    destruct (best_row num num_gt num_eq num_isnan (group eval_df id ent))
      as [[idx|]|e]; cbn [rbind picked] in *; [| |discriminate].
    + apply IH in H. rewrite H. now rewrite <- app_assoc.
    + apply IH in H. exact H.
Qed.

Lemma keep_ents_ok (eval_df : list (eval_row num)) (id : string)
    (ents : list string) (keep0 : list nat) :
  no_text (map (score_of num) eval_df) ->
  exists keep,
    keep_ents num num_gt num_eq num_isnan eval_df id ents keep0 = Ok keep.
Proof.
  intros Hnt. revert keep0; induction ents as [|ent ents IH]; intros keep0;
    cbn [keep_ents].
  - eauto.
  - fold (group eval_df id ent).
    destruct (best_row_ok _ (group_no_text eval_df id ent Hnt)) as [b ->].
    cbn [rbind]. apply IH.
Qed.

Lemma keep_ids_eq (eval_df : list (eval_row num)) (ids : list string)
    (keep0 keep : list nat) :
  keep_ids num num_gt num_eq num_isnan eval_df ids keep0 = Ok keep ->
  keep = keep0
         ++ flat_map (fun id =>
              flat_map (fun ent =>
                          picked (best_row num num_gt num_eq num_isnan
                                    (group eval_df id ent)))
                (ents_of eval_df id)) ids.
Proof.
  revert keep0; induction ids as [|id ids IH]; intros keep0 H;
    cbn [keep_ids flat_map] in *.
  - injection H as <-. now rewrite app_nil_r.
  - fold (ents_of eval_df id) in H.
    destruct (keep_ents num num_gt num_eq num_isnan eval_df id
                (ents_of eval_df id) keep0) as [keep1|e] eqn:E;
      cbn [rbind] in H; [|discriminate].
    apply keep_ents_eq in E. apply IH in H. rewrite H, E.
    now rewrite <- app_assoc.
Qed.

Lemma keep_ids_ok (eval_df : list (eval_row num)) (ids : list string)
    (keep0 : list nat) :
  no_text (map (score_of num) eval_df) ->
  exists keep,
    keep_ids num num_gt num_eq num_isnan eval_df ids keep0 = Ok keep.
Proof.
  intros Hnt. revert keep0; induction ids as [|id ids IH]; intros keep0;
    cbn [keep_ids].
  - eauto.
  - destruct (keep_ents_ok eval_df id
                (unique (map (ent_of num)
                           (filter (fun r => id_of num r =? id) eval_df)))
                keep0 Hnt) as [keep1 ->].
    cbn [rbind]. apply IH.
Qed.

Lemma eval_rows_In (ids pred_ents : list string)
    (scores : list (scoreval num)) (k : nat) (id ent : string)
    (v : scoreval num) :
  In (k, (id, ent, v)) (eval_rows ids pred_ents scores)
  <-> nth_error ids k = Some id /\ nth_error pred_ents k = Some ent
      /\ nth_error scores k = Some v.
Proof.
  unfold eval_rows. rewrite labelled_In, !nth_error_combine. tauto.
Qed.

Lemma eval_rows_no_text (ids pred_ents : list string)
    (scores : list (scoreval num)) :
  no_text scores ->
  no_text (map (score_of num) (eval_rows ids pred_ents scores)).
Proof.
  intros Hnt s Hs. apply Hnt.
  apply in_map_iff in Hs. destruct Hs as ([k [[id ent] v]] & Hr & Hin).
  apply eval_rows_In in Hin. destruct Hin as (_ & _ & Hv).
  unfold score_of in Hr. simpl in Hr. subst v.
  now apply nth_error_In in Hv.
Qed.

(** The row a turn of the inner loop appends: it is a row of the group
    with a number, no row of the group has a greater number, and no
    row of the group above it has an equal one. *)
Lemma picked_spec (ids pred_ents : list string)
    (scores : list (scoreval num)) (id ent : string) (k : nat) :
  no_text scores ->
  In k (picked (best_row num num_gt num_eq num_isnan
                  (group (eval_rows ids pred_ents scores) id ent))) ->
  exists x,
    best_row num num_gt num_eq num_isnan
      (group (eval_rows ids pred_ents scores) id ent) = Ok (Some k)
    /\ scored_row num_isnan ids pred_ents scores k id ent x
    /\ (forall k' x',
           scored_row num_isnan ids pred_ents scores k' id ent x' ->
           num_gt x' x = false)
    /\ (forall k' x',
           (k' < k)%nat ->
           scored_row num_isnan ids pred_ents scores k' id ent x' ->
           num_eq x' x = false).
Proof.
  intros Hnt Hk.
  pose proof (group_no_text _ id ent (eval_rows_no_text ids pred_ents _ Hnt))
    as Hg.
  destruct (best_row_spec _ Hg)
    as [[Hb _]|(pre & r & post & y & Hrows & Hb & Hy & Hnan & Hmax & Hfirst)];
    rewrite Hb in Hk; simpl in Hk; [destruct Hk|].
  destruct Hk as [<-|[]].
  assert (Hr : In r (group (eval_rows ids pred_ents scores) id ent))
    by (rewrite Hrows; apply in_elt).
  apply group_In in Hr. destruct Hr as (Hr & Hid & Hent).
  destruct r as [k [[id' ent'] v]].
  unfold id_of, ent_of, score_of in Hid, Hent, Hy. simpl in Hid, Hent, Hy.
  subst id' ent' v. apply eval_rows_In in Hr.
  exists y. split; [exact Hb|]. split; [unfold scored_row; tauto|].
  assert (Hin : forall k' x',
             scored_row num_isnan ids pred_ents scores k' id ent x' ->
             In (k', (id, ent, SNum num x'))
               (group (eval_rows ids pred_ents scores) id ent)).
  { intros k' x' (H1 & H2 & H3 & _). apply group_In.
    split; [apply eval_rows_In; tauto|split; reflexivity]. }
  split.
  - intros k' x' Hs. apply (Hmax _ x' (Hin _ _ Hs)); [reflexivity|].
    apply Hs.
  - intros k' x' Hlt Hs. simpl in Hlt.
    apply (Hfirst (k', (id, ent, SNum num x'))); [|reflexivity].
    unfold group in Hrows. apply filter_split in Hrows.
    destruct Hrows as (pre' & post' & Htab & -> & _).
    apply filter_In. pose proof (Hin _ _ Hs) as Hg'.
    apply group_In in Hg'. destruct Hg' as (Hg' & _ & _).
    split; [|simpl; now rewrite !String.eqb_refl].
    unfold eval_rows, labelled in Htab, Hg'.
    destruct (labelled_split _ _ _ _ _ Htab) as [_ Hpost].
    rewrite Htab in Hg'. apply in_app_or in Hg'.
    destruct Hg' as [Hg'|[Hg'|Hg']]; [exact Hg'| |].
    + injection Hg' as Hg' _. lia.
    + apply Hpost in Hg'. simpl in Hg'. lia.
Qed.

(** A group that holds a number gets a row. *)
Lemma picked_covers (ids pred_ents : list string)
    (scores : list (scoreval num)) (id ent : string) (k : nat) (x : num) :
  no_text scores ->
  scored_row num_isnan ids pred_ents scores k id ent x ->
  exists k',
    best_row num num_gt num_eq num_isnan
      (group (eval_rows ids pred_ents scores) id ent) = Ok (Some k').
Proof.
  intros Hnt (H1 & H2 & H3 & H4).
  pose proof (group_no_text _ id ent (eval_rows_no_text ids pred_ents _ Hnt))
    as Hg.
  destruct (best_row_spec _ Hg)
    as [[_ Hnone]|(pre & r & post & y & _ & Hb & _)]; [|eauto].
  assert (Hx : num_isnan x = true); [|congruence].
  apply (Hnone (k, (id, ent, SNum num x))); [|reflexivity].
  apply group_In. split; [apply eval_rows_In; tauto|split; reflexivity].
Qed.

Lemma rows_to_keep_ok (ids pred_ents : list string)
    (scores : list (scoreval num)) :
  no_text scores ->
  exists keep,
    rows_to_keep num num_gt num_eq num_isnan ids pred_ents scores = Ok keep.
Proof.
  intros Hnt. apply keep_ids_ok.
  now apply (eval_rows_no_text ids pred_ents).
Qed.

(** The rows kept are the rows the turns of the inner loop pick. *)
Lemma rows_to_keep_In (ids pred_ents : list string)
    (scores : list (scoreval num)) (keep : list nat) (k : nat) :
  rows_to_keep num num_gt num_eq num_isnan ids pred_ents scores = Ok keep ->
  In k keep
  <-> exists id ent,
        In id ids
        /\ In ent (ents_of (eval_rows ids pred_ents scores) id)
        /\ In k (picked (best_row num num_gt num_eq num_isnan
                           (group (eval_rows ids pred_ents scores) id ent))).
Proof.
  intros H. apply keep_ids_eq in H. rewrite H. cbn [app].
  rewrite in_flat_map. split.
  - intros (id & Hid & Hk). apply in_flat_map in Hk.
    destruct Hk as (ent & Hent & Hk). apply (proj1 (unique_In _ _)) in Hid.
    exists id, ent. repeat split; assumption.
  - intros (id & ent & Hid & Hent & Hk). exists id.
    split; [now apply (proj2 (unique_In _ _))|]. apply in_flat_map.
    exists ent.
    split; assumption.
Qed.

Lemma rows_to_keep_scored (ids pred_ents : list string)
    (scores : list (scoreval num)) (keep : list nat) (k : nat) :
  no_text scores ->
  rows_to_keep num num_gt num_eq num_isnan ids pred_ents scores = Ok keep ->
  In k keep ->
  exists id ent x, scored_row num_isnan ids pred_ents scores k id ent x.
Proof.
  intros Hnt H Hk. apply (rows_to_keep_In _ _ _ _ _ H) in Hk.
  destruct Hk as (id & ent & _ & _ & Hk).
  destruct (picked_spec _ _ _ _ _ _ Hnt Hk) as (x & _ & Hs & _). eauto.
Qed.

Lemma numeric_scores_exn (col : list (scoreval num)) (e : exn) :
  numeric_scores num num_isnan col = Raise e -> e = TypeError.
Proof.
  induction col as [|v col IH]; [discriminate|].
  cbn [numeric_scores].
  destruct v as [|s|x]; cbn [as_number rbind].
  - destruct (numeric_scores num num_isnan col); [discriminate|].
    intros H. injection H as <-. now apply IH.
  - destruct (s =? ""); cbn [rbind]; [|congruence].
    destruct (numeric_scores num num_isnan col); [discriminate|].
    intros H. injection H as <-. now apply IH.
  - destruct (numeric_scores num num_isnan col); [discriminate|].
    intros H. injection H as <-. now apply IH.
Qed.

(** The inner loop body raises nothing but the TypeError of
    [math.isnan]. *)
Lemma best_row_result (rows : list (eval_row num)) :
  (exists b, best_row num num_gt num_eq num_isnan rows = Ok b)
  \/ best_row num num_gt num_eq num_isnan rows = Raise TypeError.
Proof.
  destruct (numeric_scores num num_isnan (map (score_of num) rows))
    as [nums|e] eqn:E.
  - left. apply best_row_ok. intros s Hs.
    destruct (String.eqb_spec s ""); [assumption|].
    rewrite (numeric_scores_text _ s Hs) in E by assumption. discriminate.
  - right. unfold best_row. rewrite E.
    now rewrite (numeric_scores_exn _ _ E).
Qed.

Lemma keep_ents_text (eval_df : list (eval_row num)) (id ent : string)
    (ents : list string) (keep0 : list nat) :
  In ent ents ->
  best_row num num_gt num_eq num_isnan (group eval_df id ent)
  = Raise TypeError ->
  keep_ents num num_gt num_eq num_isnan eval_df id ents keep0
  = Raise TypeError.
Proof.
  intros Hin Hbad. revert keep0;
    induction ents as [|e ents IH]; intros keep0; [destruct Hin|].
  cbn [keep_ents]. fold (group eval_df id e).
  destruct (best_row_result (group eval_df id e)) as [[b Hb]|Hb];
    rewrite Hb; [|reflexivity].
  cbn [rbind]. destruct Hin as [->|Hin]; [congruence|]. now apply IH.
Qed.

Lemma keep_ents_result (eval_df : list (eval_row num)) (id : string)
    (ents : list string) (keep0 : list nat) :
  (exists keep,
      keep_ents num num_gt num_eq num_isnan eval_df id ents keep0 = Ok keep)
  \/ keep_ents num num_gt num_eq num_isnan eval_df id ents keep0
     = Raise TypeError.
Proof.
  revert keep0; induction ents as [|e ents IH]; intros keep0;
    cbn [keep_ents]; [eauto|].
  fold (group eval_df id e).
  destruct (best_row_result (group eval_df id e)) as [[b Hb]|Hb];
    rewrite Hb; [|now right].
  cbn [rbind]. apply IH.
Qed.

Lemma keep_ids_text (eval_df : list (eval_row num)) (id ent : string)
    (ids : list string) (keep0 : list nat) :
  In id ids -> In ent (ents_of eval_df id) ->
  best_row num num_gt num_eq num_isnan (group eval_df id ent)
  = Raise TypeError ->
  keep_ids num num_gt num_eq num_isnan eval_df ids keep0 = Raise TypeError.
Proof.
  intros Hin Hent Hbad. revert keep0;
    induction ids as [|i ids IH]; intros keep0; [destruct Hin|].
  cbn [keep_ids]. fold (ents_of eval_df i).
  destruct (keep_ents_result eval_df i (ents_of eval_df i) keep0)
    as [[keep1 Hk]|Hk]; rewrite Hk; [|reflexivity].
  cbn [rbind]. destruct Hin as [->|Hin]; [|now apply IH].
  rewrite (keep_ents_text eval_df id ent _ keep0 Hent Hbad) in Hk.
  discriminate.
Qed.

(** X22: a score that is a non-empty [str] makes the loops raise
    TypeError, whatever the other rows hold: [math.isnan] refuses it
    when the loops reach the id and the entity of its row, and nothing
    before raises anything else. *)
Theorem rows_to_keep_text (ids pred_ents : list string)
    (scores : list (scoreval num)) (k : nat) (id ent s : string) :
  nth_error ids k = Some id ->
  nth_error pred_ents k = Some ent ->
  nth_error scores k = Some (SStr num s) ->
  s <> "" ->
  rows_to_keep num num_gt num_eq num_isnan ids pred_ents scores
  = Raise TypeError.
Proof.
  intros Hid Hent Hs Hne.
  assert (Hr : In (k, (id, ent, SStr num s))
                 (eval_rows ids pred_ents scores))
    by (apply eval_rows_In; auto).
  apply (keep_ids_text (eval_rows ids pred_ents scores) id ent).
  - apply (proj2 (unique_In _ _)). now apply nth_error_In in Hid.
  - unfold ents_of. apply (proj2 (unique_In _ _)). apply in_map_iff.
    exists (k, (id, ent, SStr num s)). split; [reflexivity|].
    apply filter_In. split; [exact Hr|]. apply String.eqb_refl.
  - unfold best_row.
    rewrite (numeric_scores_text _ s); [reflexivity| |exact Hne].
    apply in_map_iff. exists (k, (id, ent, SStr num s)).
    split; [reflexivity|]. apply group_In. auto.
Qed.

(** X21: over columns without text scores, the two loops of
    get_class_score and get_jc_score return row labels without
    repetition; each kept row holds a number that no row with the same
    id and entity exceeds, and that no such row above it equals; every
    id and entity that has a number in some row gets a kept row; and no
    id and entity gets two. *)
Theorem rows_to_keep_best (ids pred_ents : list string)
    (scores : list (scoreval num)) :
  no_text scores ->
  exists keep,
    rows_to_keep num num_gt num_eq num_isnan ids pred_ents scores = Ok keep
    /\ NoDup keep
    /\ (forall k, In k keep ->
          exists id ent x,
            scored_row num_isnan ids pred_ents scores k id ent x
            /\ (forall k' x',
                   scored_row num_isnan ids pred_ents scores k' id ent x' ->
                   num_gt x' x = false)
            /\ (forall k' x',
                   (k' < k)%nat ->
                   scored_row num_isnan ids pred_ents scores k' id ent x' ->
                   num_eq x' x = false))
    /\ (forall k id ent x,
          scored_row num_isnan ids pred_ents scores k id ent x ->
          exists k' x',
            In k' keep
            /\ scored_row num_isnan ids pred_ents scores k' id ent x')
    /\ (forall k k' id ent x x',
          In k keep -> In k' keep ->
          scored_row num_isnan ids pred_ents scores k id ent x ->
          scored_row num_isnan ids pred_ents scores k' id ent x' ->
          k = k').
Proof.
  intros Hnt.
  destruct (rows_to_keep_ok ids pred_ents scores Hnt) as [keep Hk].
  exists keep. split; [exact Hk|].
  pose proof (fun k => rows_to_keep_In ids pred_ents scores keep k Hk) as Hin.
  assert (Hsc : forall k id ent,
             In k (picked (best_row num num_gt num_eq num_isnan
                             (group (eval_rows ids pred_ents scores)
                                id ent))) ->
             nth_error ids k = Some id /\ nth_error pred_ents k = Some ent).
  { intros k id ent H.
    destruct (picked_spec _ _ _ _ _ _ Hnt H) as (x & _ & (H1 & H2 & _) & _).
    auto. }
  split; [|split; [|split]].
  - apply keep_ids_eq in Hk. rewrite Hk. cbn [app].
    apply flat_map_NoDup.
    + apply unique_NoDup.
    + intros id _. apply flat_map_NoDup.
      * apply unique_NoDup.
      * intros ent _.
        destruct (best_row num num_gt num_eq num_isnan _) as [[i|]|e];
          simpl; repeat constructor. intros [].
      * intros a a' b _ _ Ha Ha'.
        apply Hsc in Ha. apply Hsc in Ha'.
        destruct Ha as [_ Ha], Ha' as [_ Ha']. congruence.
    + intros a a' b _ _ Ha Ha'.
      apply in_flat_map in Ha. apply in_flat_map in Ha'.
      destruct Ha as (e & _ & Ha), Ha' as (e' & _ & Ha').
      apply Hsc in Ha. apply Hsc in Ha'.
      destruct Ha as [Ha _], Ha' as [Ha' _]. congruence.
  - intros k Hkin. apply Hin in Hkin.
    destruct Hkin as (id & ent & _ & _ & Hp).
    destruct (picked_spec _ _ _ _ _ _ Hnt Hp) as (x & _ & Hs & Hmax & Hfirst).
    exists id, ent, x. auto.
  - intros k id ent x Hs.
    destruct (picked_covers _ _ _ _ _ _ _ Hnt Hs) as [k' Hb].
    assert (Hp : In k' (picked (best_row num num_gt num_eq num_isnan
                        (group (eval_rows ids pred_ents scores) id ent))))
      by (rewrite Hb; left; reflexivity).
    destruct (picked_spec _ _ _ _ _ _ Hnt Hp) as (x' & _ & Hs' & _).
    exists k', x'. split; [|exact Hs']. apply Hin. exists id, ent.
    destruct Hs as (H1 & H2 & H3 & H4).
    split; [now apply nth_error_In in H1|]. split; [|exact Hp].
    unfold ents_of. apply (proj2 (unique_In _ _)). apply in_map_iff.
    exists (k, (id, ent, SNum num x)). split; [reflexivity|].
    apply filter_In. split; [apply eval_rows_In; auto|].
    apply String.eqb_refl.
  - intros k k' id ent x x' Hkin Hkin' Hs Hs'.
    apply Hin in Hkin. apply Hin in Hkin'.
    destruct Hkin as (id1 & ent1 & _ & _ & Hp).
    destruct Hkin' as (id2 & ent2 & _ & _ & Hp').
    destruct (Hsc _ _ _ Hp) as [A B]. destruct (Hsc _ _ _ Hp') as [A' B'].
    destruct Hs as (S1 & S2 & _), Hs' as (S1' & S2' & _).
    assert (id1 = id) by congruence. assert (ent1 = ent) by congruence.
    assert (id2 = id) by congruence. assert (ent2 = ent) by congruence.
    subst id1 ent1 id2 ent2.
    destruct (picked_spec _ _ _ _ _ _ Hnt Hp) as (y & E & _).
    destruct (picked_spec _ _ _ _ _ _ Hnt Hp') as (y' & E' & _).
    rewrite E in E'. now injection E'.
Qed.

End BestRows.

Section ScoreMeans.

Variable num : Type.

Variables num_gt num_eq : num -> num -> bool.

Variable num_isnan : num -> bool.

Variable mean : list num -> num.

Variable text_mean : result num.

Hypothesis laws : num_laws num_gt num_eq num_isnan.

Lemma retrieve_in_range {V} (col : score_rec num -> V)
    (score_df : list (score_rec num)) (gold_qid : list string)
    (pred_qid : list cell) (i : nat) :
  (i < List.length gold_qid)%nat -> (i < List.length pred_qid)%nat ->
  exists v,
    retrieve_score_vals (score_rec num) V (sc_q1 num) (sc_q2 num)
      (Z.of_nat i) col score_df gold_qid pred_qid = Ok v
    /\ (v = None \/ exists r, In r score_df /\ v = Some (col r)).
Proof.
  intros Hg Hp. unfold retrieve_score_vals. rewrite !py_getitem_nat.
  destruct (nth_error gold_qid i) as [g|] eqn:Eg;
    [|apply nth_error_None in Eg; lia].
  destruct (nth_error pred_qid i) as [p|] eqn:Ep;
    [|apply nth_error_None in Ep; lia].
  cbn [rbind].
  destruct (filter _ score_df) as [|r rows] eqn:Ef; simpl.
  - exists None. auto.
  - exists (Some (col r)). split; [reflexivity|]. right. exists r.
    split; [|reflexivity].
    assert (Hr : In r (r :: rows)) by (left; reflexivity).
    rewrite <- Ef in Hr. now apply filter_In in Hr.
Qed.

Lemma apply_retrieve_ok {V} (col : score_rec num -> V)
    (score_df : list (score_rec num)) (gold_qid : list string)
    (pred_qid : list cell) (range : list nat) :
  (forall i, In i range ->
     (i < List.length gold_qid)%nat /\ (i < List.length pred_qid)%nat) ->
  exists cls,
    apply_retrieve num col score_df gold_qid pred_qid range = Ok cls
    /\ Forall2 (fun i v =>
                  retrieve_score_vals (score_rec num) V (sc_q1 num)
                    (sc_q2 num) (Z.of_nat i) col score_df gold_qid pred_qid
                  = Ok v) range cls
    /\ forall v, In v cls ->
         v = None \/ exists r, In r score_df /\ v = Some (col r).
Proof.
  induction range as [|i range IH]; intros Hr; cbn [apply_retrieve].
  - exists []. split; [reflexivity|]. split; [constructor|intros v []].
  - destruct (Hr i (or_introl eq_refl)) as [Hg Hp].
    destruct (retrieve_in_range col score_df _ _ _ Hg Hp) as (v & Hv & Hin).
    destruct IH as (cls & Hc & Hall & Hvals).
    { intros j Hj. apply Hr. now right. }
    rewrite Hv, Hc. cbn [rbind]. exists (v :: cls).
    split; [reflexivity|]. split; [now constructor|].
    intros v' [<-|Hv']; auto.
Qed.

Lemma kept_numbers (col : list (scoreval num)) (keep : list nat) :
  (forall k, In k keep ->
     exists x, nth_error col k = Some (SNum num x) /\ num_isnan x = false) ->
  exists xs,
    Forall2 (fun k x => nth_error col k = Some (SNum num x)
                        /\ num_isnan x = false) keep xs
    /\ exists kept,
         loc col keep = Ok kept
         /\ numbers num (dropna_scores num num_isnan kept) = Ok xs.
Proof.
  induction keep as [|k keep IH]; intros H.
  - exists []. split; [constructor|]. exists []. split; reflexivity.
  - destruct (H k (or_introl eq_refl)) as (x & Hx & Hnan).
    destruct IH as (xs & Hall & kept & Hloc & Hxs).
    { intros k' Hk'. apply H. now right. }
    exists (x :: xs). split; [now constructor|].
    exists (SNum num x :: kept). cbn [loc]. rewrite Hx, Hloc.
    split; [reflexivity|].
    cbn [dropna_scores filter]. rewrite Hnan. cbn [negb numbers].
    fold (dropna_scores num num_isnan kept). now rewrite Hxs.
Qed.

(** A column of text has no number to keep. *)
Lemma text_column_no_number (col : list (scoreval num)) (k : nat) (x : num) :
  text_column num num_isnan col = true ->
  nth_error col k = Some (SNum num x) -> num_isnan x = true.
Proof.
  unfold text_column. intros H Hk. apply andb_true_iff in H.
  destruct H as [_ H]. rewrite forallb_forall in H.
  apply nth_error_In in Hk. exact (H _ Hk).
Qed.

(** What both functions do with their score column. *)
Lemma score_mean (col : score_rec num -> scoreval num)
    (score_df : list (score_rec num)) (id tool_ent q1_gold : list string)
    (q2_pred : list cell) :
  List.length q1_gold = List.length id ->
  List.length q2_pred = List.length id ->
  (forall r s, In r score_df -> col r = SStr num s -> s = "") ->
  exists cls keep xs,
    Forall2 (fun i v =>
               retrieve_score_vals (score_rec num) (scoreval num) (sc_q1 num)
                 (sc_q2 num) (Z.of_nat i) col score_df q1_gold q2_pred
               = Ok v) (seq 0 (List.length id)) cls
    /\ rows_to_keep num num_gt num_eq num_isnan id tool_ent
         (map (as_cell num) cls) = Ok keep
    /\ Forall2 (fun k x => nth_error (map (as_cell num) cls) k
                           = Some (SNum num x)
                           /\ num_isnan x = false) keep xs
    /\ apply_retrieve num col score_df q1_gold q2_pred
         (seq 0 (List.length id)) = Ok cls
    /\ (text_column num num_isnan (map (as_cell num) cls) = false ->
        kept_mean num num_isnan mean text_mean (map (as_cell num) cls) keep
        = Ok (mean xs))
    /\ (text_column num num_isnan (map (as_cell num) cls) = true ->
        keep = []
        /\ kept_mean num num_isnan mean text_mean (map (as_cell num) cls)
             keep = text_mean).
Proof.
  intros Hq1 Hq2 Hcol.
  destruct (apply_retrieve_ok col score_df q1_gold q2_pred
              (seq 0 (List.length id))) as (cls & Hc & Hall & Hvals).
  { intros i Hi. apply in_seq in Hi. lia. }
  assert (Hnt : no_text (map (as_cell num) cls)).
  { intros s Hs. apply in_map_iff in Hs. destruct Hs as (v & Hv & Hin).
    destruct (Hvals v Hin) as [->|(r & Hr & ->)]; [discriminate|].
    now apply (Hcol r). }
  destruct (rows_to_keep_ok num num_gt num_eq num_isnan laws id tool_ent _ Hnt)
    as [keep Hk].
  assert (Hsc : forall k, In k keep ->
            exists x, nth_error (map (as_cell num) cls) k = Some (SNum num x)
                      /\ num_isnan x = false).
  { intros k Hin.
    destruct (rows_to_keep_scored num num_gt num_eq num_isnan laws
                _ _ _ _ _ Hnt Hk Hin) as (i & ent & x & _ & _ & Hx & Hnan).
    eauto. }
  destruct (kept_numbers (map (as_cell num) cls) keep Hsc)
    as (xs & Hxs & kept & Hloc & Hm).
  exists cls, keep, xs. split; [exact Hall|]. split; [exact Hk|].
  split; [exact Hxs|]. split; [exact Hc|]. split.
  - intros Ht. unfold kept_mean. rewrite Hloc, Ht. cbn [rbind].
    now rewrite Hm.
  - intros Ht.
    assert (Hnil : keep = []).
    { destruct keep as [|k keep]; [reflexivity|].
      destruct (Hsc k (or_introl eq_refl)) as (x & Hx & Hnan).
      rewrite (text_column_no_number _ _ _ Ht Hx) in Hnan. discriminate. }
    split; [exact Hnil|]. unfold kept_mean. rewrite Hloc, Ht. reflexivity.
Qed.

Lemma eval_frame_ok (id tool_ent gold_ent q1_gold : list string)
    (q2_pred : list cell) :
  List.length tool_ent = List.length id ->
  List.length gold_ent = List.length id ->
  List.length q1_gold = List.length id ->
  List.length q2_pred = List.length id ->
  eval_frame id tool_ent gold_ent q1_gold q2_pred = Ok tt.
Proof.
  intros H1 H2 H3 H4. unfold eval_frame.
  now rewrite H1, H2, H3, H4, !Nat.eqb_refl.
Qed.

(** X23: on lists of one length and a 'class' column of [score_df]
    without text other than the empty [str], the loops of
    get_class_score return their rows, each with a number in 'class',
    where the 'class' value of row i is what retrieve_score_vals
    returns for i. Unless the retrieved column is a column of text,
    get_class_score returns the mean of exactly these numbers, none
    being lost to [dropna]. On a column of text no row is kept and the
    result is what [.mean()] answers on such a column. *)
Theorem get_class_score_mean (score_df : list (score_rec num))
    (id tool_ent gold_ent q1_gold : list string) (q2_pred : list cell) :
  List.length tool_ent = List.length id ->
  List.length gold_ent = List.length id ->
  List.length q1_gold = List.length id ->
  List.length q2_pred = List.length id ->
  (forall r s, In r score_df -> sc_class num r = SStr num s -> s = "") ->
  exists cls keep xs,
    Forall2 (fun i v =>
               retrieve_score_vals (score_rec num) (scoreval num) (sc_q1 num)
                 (sc_q2 num) (Z.of_nat i) (sc_class num) score_df q1_gold
                 q2_pred = Ok v) (seq 0 (List.length id)) cls
    /\ rows_to_keep num num_gt num_eq num_isnan id tool_ent
         (map (as_cell num) cls) = Ok keep
    /\ Forall2 (fun k x => nth_error (map (as_cell num) cls) k
                           = Some (SNum num x)
                           /\ num_isnan x = false) keep xs
    /\ (text_column num num_isnan (map (as_cell num) cls) = false ->
        get_class_score num num_gt num_eq num_isnan mean text_mean score_df
          id tool_ent gold_ent q1_gold q2_pred = Ok (mean xs))
    /\ (text_column num num_isnan (map (as_cell num) cls) = true ->
        keep = []
        /\ get_class_score num num_gt num_eq num_isnan mean text_mean
             score_df id tool_ent gold_ent q1_gold q2_pred = text_mean).
Proof.
  intros H1 H2 H3 H4 Hcol.
  destruct (score_mean (sc_class num) score_df id tool_ent q1_gold q2_pred
              H3 H4 Hcol)
    as (cls & keep & xs & Hall & Hk & Hxs & Hc & Hnum & Htext).
  exists cls, keep, xs. repeat (split; [assumption|]).
  assert (Hrun : get_class_score num num_gt num_eq num_isnan mean text_mean
                   score_df id tool_ent gold_ent q1_gold q2_pred
                 = kept_mean num num_isnan mean text_mean
                     (map (as_cell num) cls) keep).
  { unfold get_class_score.
    rewrite (eval_frame_ok _ _ _ _ _ H1 H2 H3 H4). cbn [rbind].
    destruct (apply_retrieve_ok (sc_q1_label num) score_df q1_gold q2_pred
                (seq 0 (List.length id))) as (gl & -> & _).
    { intros i Hi. apply in_seq in Hi. lia. }
    destruct (apply_retrieve_ok (sc_q2_label num) score_df q1_gold q2_pred
                (seq 0 (List.length id))) as (pl & -> & _).
    { intros i Hi. apply in_seq in Hi. lia. }
    cbn [rbind]. rewrite Hc. cbn [rbind]. rewrite Hk. reflexivity. }
  rewrite Hrun. split; assumption.
Qed.

(** X24: the same of get_jc_score and the 'jc' column. On lists of one
    length and a 'jc' column of [score_df] without text other than the
    empty [str], the loops return their rows, each with a number in
    'jc'; unless the retrieved column is a column of text,
    get_jc_score returns the mean of exactly these numbers, and on a
    column of text no row is kept and the result is what [.mean()]
    answers on such a column. *)
Theorem get_jc_score_mean (score_df : list (score_rec num))
    (id tool_ent gold_ent q1_gold : list string) (q2_pred : list cell) :
  List.length tool_ent = List.length id ->
  List.length gold_ent = List.length id ->
  List.length q1_gold = List.length id ->
  List.length q2_pred = List.length id ->
  (forall r s, In r score_df -> sc_jc num r = SStr num s -> s = "") ->
  exists jc keep xs,
    Forall2 (fun i v =>
               retrieve_score_vals (score_rec num) (scoreval num) (sc_q1 num)
                 (sc_q2 num) (Z.of_nat i) (sc_jc num) score_df q1_gold
                 q2_pred = Ok v) (seq 0 (List.length id)) jc
    /\ rows_to_keep num num_gt num_eq num_isnan id tool_ent
         (map (as_cell num) jc) = Ok keep
    /\ Forall2 (fun k x => nth_error (map (as_cell num) jc) k
                           = Some (SNum num x)
                           /\ num_isnan x = false) keep xs
    /\ (text_column num num_isnan (map (as_cell num) jc) = false ->
        get_jc_score num num_gt num_eq num_isnan mean text_mean score_df
          id tool_ent gold_ent q1_gold q2_pred = Ok (mean xs))
    /\ (text_column num num_isnan (map (as_cell num) jc) = true ->
        keep = []
        /\ get_jc_score num num_gt num_eq num_isnan mean text_mean
             score_df id tool_ent gold_ent q1_gold q2_pred = text_mean).
Proof.
  intros H1 H2 H3 H4 Hcol.
  destruct (score_mean (sc_jc num) score_df id tool_ent q1_gold q2_pred
              H3 H4 Hcol)
    as (jc & keep & xs & Hall & Hk & Hxs & Hc & Hnum & Htext).
  exists jc, keep, xs. repeat (split; [assumption|]).
  assert (Hrun : get_jc_score num num_gt num_eq num_isnan mean text_mean
                   score_df id tool_ent gold_ent q1_gold q2_pred
                 = kept_mean num num_isnan mean text_mean
                     (map (as_cell num) jc) keep).
  { unfold get_jc_score.
    rewrite (eval_frame_ok _ _ _ _ _ H1 H2 H3 H4). cbn [rbind].
    destruct (apply_retrieve_ok (sc_q1_label num) score_df q1_gold q2_pred
                (seq 0 (List.length id))) as (gl & -> & _).
    { intros i Hi. apply in_seq in Hi. lia. }
    destruct (apply_retrieve_ok (sc_q2_label num) score_df q1_gold q2_pred
                (seq 0 (List.length id))) as (pl & -> & _).
    { intros i Hi. apply in_seq in Hi. lia. }
    cbn [rbind]. rewrite Hc. cbn [rbind]. rewrite Hk. reflexivity. }
  rewrite Hrun. split; assumption.
Qed.

End ScoreMeans.

Lemma sample_laws : num_laws sample_gt sample_eq sample_isnan.
Proof.
  split.
  - intros [a|] [b|] H; simpl in *; try reflexivity; try discriminate.
    destruct (Qle_bool b a) eqn:E; [reflexivity|].
    destruct (Qlt_le_dec a b) as [Hlt|Hle].
    + apply Qlt_le_weak, Qle_bool_iff in Hlt. rewrite Hlt in H. discriminate.
    + apply Qle_bool_iff in Hle. congruence.
  - intros [a|] [b|] [c|] Hy H1 H2; simpl in *; try reflexivity;
      try discriminate.
    apply negb_false_iff in H1. apply negb_false_iff in H2.
    apply negb_false_iff. apply Qle_bool_iff.
    apply Qle_bool_iff in H1. apply Qle_bool_iff in H2.
    now apply (Qle_trans _ b).
  - intros [a|] H; simpl in *; [|discriminate].
    apply Qeq_bool_iff. reflexivity.
  - intros [a|] [b|] H; simpl in *; try discriminate. reflexivity.
  - intros [a|] [b|] [c|] H; simpl in *; try discriminate; try reflexivity.
    apply Qeq_bool_iff in H. f_equal.
    destruct (Qle_bool c a) eqn:E1, (Qle_bool c b) eqn:E2; try reflexivity.
    + apply Qle_bool_iff in E1. rewrite H in E1.
      apply Qle_bool_iff in E1. congruence.
    + apply Qle_bool_iff in E2. rewrite <- H in E2.
      apply Qle_bool_iff in E2. congruence.
  - intros [a|] [b|] [c|] H; simpl in *; try discriminate; try reflexivity.
    apply Qeq_bool_iff in H.
    destruct (Qeq_bool c a) eqn:E1, (Qeq_bool c b) eqn:E2; try reflexivity.
    + apply Qeq_bool_iff in E1. rewrite H in E1.
      apply Qeq_bool_iff in E1. congruence.
    + apply Qeq_bool_iff in E2. rewrite <- H in E2.
      apply Qeq_bool_iff in E2. congruence.
Qed.

Lemma sample_class_no_text : no_text sample_class.
Proof.
  intros s [H|[H|[H|[H|[]]]]]; discriminate.
Qed.

Lemma rows_to_keep_best_witness :
  exists keep,
    rows_to_keep sample_num sample_gt sample_eq sample_isnan sample_ids
      sample_ents sample_class = Ok keep
    /\ NoDup keep.
Proof.
  destruct (rows_to_keep_best sample_num sample_gt sample_eq sample_isnan
              sample_laws sample_ids sample_ents sample_class
              sample_class_no_text) as (keep & Hk & Hnd & _).
  exists keep. split; assumption.
Defined.

(** Of the three rows of d1 and FUEL the second is kept: it is the
    first with the greatest score. The row of d2 has no score. *)
Example rows_to_keep_sample :
  rows_to_keep sample_num sample_gt sample_eq sample_isnan sample_ids
    sample_ents sample_class = Ok [1%nat].
Proof.
  reflexivity.
Qed.

Lemma rows_to_keep_text_witness :
  rows_to_keep sample_num sample_gt sample_eq sample_isnan ["d1"; "d2"]
    ["FUEL"; "TREE"]
    [SNum sample_num (Some 1); SStr sample_num "high"]
  = Raise TypeError.
Proof.
  apply (rows_to_keep_text sample_num sample_gt sample_eq sample_isnan
           sample_laws ["d1"; "d2"] ["FUEL"; "TREE"]
           [SNum sample_num (Some 1); SStr sample_num "high"]
           1 "d2" "TREE" "high"); try reflexivity.
  discriminate.
Defined.

Lemma get_class_score_mean_witness :
  exists xs,
    get_class_score sample_num sample_gt sample_eq sample_isnan sample_mean
      sample_text_mean sample_score_df sample_ids sample_ents sample_ents
      sample_q1 sample_q2
    = Ok (sample_mean xs).
Proof.
  destruct (get_class_score_mean sample_num sample_gt sample_eq sample_isnan
              sample_mean sample_text_mean sample_laws sample_score_df
              sample_ids sample_ents sample_ents sample_q1 sample_q2
              eq_refl eq_refl eq_refl eq_refl)
    as (cls & keep & xs & Hcls & _ & _ & H & _).
  - intros r s [<-|[<-|[]]]; discriminate.
  - exists xs. apply H.
    repeat match goal with
           | Hf : Forall2 _ _ _ |- _ => inversion Hf; subst; clear Hf
           end.
    repeat match goal with
           | Hv : retrieve_score_vals _ _ _ _ _ _ _ _ _ = Ok _ |- _ =>
               vm_compute in Hv; injection Hv as <-
           end.
    reflexivity.
Defined.

Lemma get_jc_score_mean_witness :
  exists xs,
    get_jc_score sample_num sample_gt sample_eq sample_isnan sample_mean
      sample_text_mean sample_score_df sample_ids sample_ents sample_ents
      sample_q1 sample_q2
    = Ok (sample_mean xs).
Proof.
  destruct (get_jc_score_mean sample_num sample_gt sample_eq sample_isnan
              sample_mean sample_text_mean sample_laws sample_score_df
              sample_ids sample_ents sample_ents sample_q1 sample_q2
              eq_refl eq_refl eq_refl eq_refl)
    as (jc & keep & xs & Hjc & _ & _ & H & _).
  - intros r s [<-|[<-|[]]]; simpl; intros H; [discriminate|].
    now injection H as <-.
  - exists xs. apply H.
    repeat match goal with
           | Hf : Forall2 _ _ _ |- _ => inversion Hf; subst; clear Hf
           end.
    repeat match goal with
           | Hv : retrieve_score_vals _ _ _ _ _ _ _ _ _ = Ok _ |- _ =>
               vm_compute in Hv; injection Hv as <-
           end.
    reflexivity.
Defined.

(** The class scores of the sample rows are 1/2, 1, 1 and none; the
    row kept holds 1. *)
Example get_class_score_sample :
  get_class_score sample_num sample_gt sample_eq sample_isnan sample_mean
    sample_text_mean sample_score_df sample_ids sample_ents sample_ents
    sample_q1 sample_q2
  = Ok (Some 1%Q).
Proof.
  reflexivity.
Qed.

(** A 'jc' column of empty strings only is a column of text: no row is
    kept, and the result is what [.mean()] answers on it. *)
Example get_jc_score_text :
  get_jc_score sample_num sample_gt sample_eq sample_isnan sample_mean
    sample_text_mean sample_score_df ["d1"] ["FUEL"] ["FUEL"] ["Q1"]
    [Some "Q2"]
  = sample_text_mean.
Proof.
  reflexivity.
Qed.

(** *** get_wikidata_description *)

Section WikidataFacts.

Variable requests_get :
  string -> list (string * string) -> list (string * string)
  -> result response.

(** X15: when the status of the response is not 200 the answer is
    'Failed to fetch data.' and the body is not read, so a body that is
    not JSON does no harm; when the request itself raises, so does the
    function. *)
Theorem get_wikidata_description_failed (qid : string) :
  (forall resp,
      answers requests_get resp -> status_code resp <> 200%Z ->
      get_wikidata_description requests_get qid
      = Ok (JStr "Failed to fetch data."))
  /\ (forall e,
      (forall url headers params,
          requests_get url headers params = Raise e) ->
      get_wikidata_description requests_get qid = Raise e).
Proof.
  split.
  - intros resp Ha Hs. unfold get_wikidata_description.
    rewrite Ha. cbn [rbind].
    destruct (Z.eqb_spec (status_code resp) 200); [contradiction|].
    reflexivity.
  - intros e He. unfold get_wikidata_description. now rewrite He.
Qed.

(** On a 200 response the answer is read from the body. *)
Lemma get_wikidata_description_200 (qid : string) (resp : response) :
  answers requests_get resp -> status_code resp = 200%Z ->
  get_wikidata_description requests_get qid
  = (let? data := resp_json resp in
     let? results := py_get data "results" (JDict []) in
     let? descriptions := py_get results "bindings" (JList []) in
     if truthy descriptions then
       let? d := first_item descriptions in
       let? item := py_item d "itemDescription" in
       py_item item "value"
     else Ok (JStr "No description found.")).
Proof.
  intros Ha Hs. unfold get_wikidata_description.
  rewrite Ha. cbn [rbind]. now rewrite Hs.
Qed.

(** X16: on a 200 response whose body is a SPARQL result document,
    whatever else the document and its bindings hold, the answer is
    'No description found.' when there is no binding and otherwise the
    description value of the first binding, whatever follows it; a body
    without 'results', or with 'results' but no 'bindings', also gives
    'No description found.'. *)
Theorem get_wikidata_description_first (qid : string) (resp : response) :
  answers requests_get resp -> status_code resp = 200%Z ->
  (forall body,
      resp_json resp = Ok body -> sparql_results body [] ->
      get_wikidata_description requests_get qid
      = Ok (JStr "No description found."))
  /\ (forall body b v rest,
         resp_json resp = Ok body -> sparql_results body (b :: rest) ->
         binding b v ->
         get_wikidata_description requests_get qid = Ok v)
  /\ (forall entries,
         resp_json resp = Ok (JDict entries) ->
         dict_lookup entries "results" = None
         \/ (exists results,
                dict_lookup entries "results" = Some (JDict results)
                /\ dict_lookup results "bindings" = None) ->
         get_wikidata_description requests_get qid
         = Ok (JStr "No description found.")).
Proof.
  intros Ha Hs. rewrite (get_wikidata_description_200 qid resp Ha Hs).
  split; [|split].
  - intros body -> (results & (e1 & -> & H1) & (e2 & -> & H2)).
    cbn [rbind py_get]. rewrite H1. cbn [rbind py_get]. rewrite H2.
    reflexivity.
  - intros body b v rest -> (results & (e1 & -> & H1) & (e2 & -> & H2))
      (item & (e3 & -> & H3) & (e4 & -> & H4)).
    cbn [rbind py_get]. rewrite H1. cbn [rbind py_get]. rewrite H2.
    cbn [truthy List.length Nat.eqb negb first_item rbind py_item].
    change (py_getitem (JDict e3 :: rest) 0) with (@Ok pyjson (JDict e3)).
    cbn [rbind py_item]. rewrite H3. cbn [rbind py_item]. now rewrite H4.
  - intros entries -> [Hn|(results & Hr & Hb)]; cbn [rbind py_get].
    + rewrite Hn. reflexivity.
    + rewrite Hr. cbn [rbind py_get]. rewrite Hb. reflexivity.
Qed.

(** X17: on a 200 response the function raises where the body has not
    the expected shape: ValueError passes through when the body is not
    JSON, AttributeError when the body or its 'results' is not an
    object (a null 'results' is not replaced by the default), and
    KeyError when the first binding of a SPARQL result document is an
    object without 'itemDescription'. *)
Theorem get_wikidata_description_raises (qid : string) (resp : response) :
  answers requests_get resp -> status_code resp = 200%Z ->
  (forall e, resp_json resp = Raise e ->
             get_wikidata_description requests_get qid = Raise e)
  /\ (forall entries results,
         resp_json resp = Ok (JDict entries) ->
         dict_lookup entries "results" = Some results ->
         (forall d, results <> JDict d) ->
         get_wikidata_description requests_get qid = Raise AttributeError)
  /\ (forall body,
         resp_json resp = Ok body -> (forall d, body <> JDict d) ->
         get_wikidata_description requests_get qid = Raise AttributeError)
  /\ (forall body first rest,
         resp_json resp = Ok body ->
         sparql_results body (JDict first :: rest) ->
         dict_lookup first "itemDescription" = None ->
         get_wikidata_description requests_get qid = Raise KeyError).
Proof.
  intros Ha Hs. rewrite (get_wikidata_description_200 qid resp Ha Hs).
  split; [|split; [|split]].
  - intros e ->. reflexivity.
  - intros entries results -> Hr Hnd. cbn [rbind py_get]. rewrite Hr.
    destruct results; try reflexivity. exfalso. now apply (Hnd entries0).
  - intros body -> Hnd.
    destruct body; try reflexivity. exfalso. now apply (Hnd entries).
  - intros body first rest -> (results & (e1 & -> & H1) & (e2 & -> & H2)) Hn.
    cbn [rbind py_get]. rewrite H1. cbn [rbind py_get]. rewrite H2.
    cbn [truthy List.length Nat.eqb negb first_item rbind py_item].
    change (py_getitem (JDict first :: rest) 0)
      with (@Ok pyjson (JDict first)).
    cbn [rbind py_item]. now rewrite Hn.
Qed.

End WikidataFacts.

Lemma get_wikidata_description_failed_witness :
  get_wikidata_description
    (always {| status_code := 404; resp_json := Raise ValueError |}) "Q42"
  = Ok (JStr "Failed to fetch data.").
Proof.
  apply (proj1 (get_wikidata_description_failed
                  (always {| status_code := 404;
                             resp_json := Raise ValueError |}) "Q42")
           {| status_code := 404; resp_json := Raise ValueError |}).
  - intros url headers params. reflexivity.
  - discriminate.
Defined.

Lemma described_results :
  sparql_results
    (sparql_answer [JDict [("itemDescription", literal "English writer")];
                    JDict [("itemDescription", literal "another")]])
    [JDict [("itemDescription", literal "English writer")];
     JDict [("itemDescription", literal "another")]].
Proof.
  eexists. split; eexists; split; reflexivity.
Qed.

Lemma get_wikidata_description_first_witness :
  get_wikidata_description (always described) "Q42"
  = Ok (JStr "English writer").
Proof.
  apply (proj1 (proj2 (get_wikidata_description_first
                         (always described) "Q42" described
                         (fun _ _ _ => eq_refl) eq_refl))
           _ (JDict [("itemDescription", literal "English writer")])
           (JStr "English writer")
           [JDict [("itemDescription", literal "another")]] eq_refl
           described_results).
  eexists. split; eexists; split; reflexivity.
Defined.

Lemma get_wikidata_description_raises_witness :
  get_wikidata_description (always null_results) "Q42"
  = Raise AttributeError
  /\ get_wikidata_description (always other_variable) "Q42"
     = Raise KeyError.
Proof.
  split.
  - apply (proj1 (proj2 (get_wikidata_description_raises
                           (always null_results) "Q42" null_results
                           (fun _ _ _ => eq_refl) eq_refl))
             [("results", JNull)] JNull).
    + reflexivity.
    + reflexivity.
    + discriminate.
  - apply (proj2 (proj2 (proj2 (get_wikidata_description_raises
                                  (always other_variable) "Q42"
                                  other_variable
                                  (fun _ _ _ => eq_refl) eq_refl)))
             _ [("itemLabel", literal "Douglas Adams")] [] eq_refl).
    + eexists. split; eexists; split; reflexivity.
    + reflexivity.
Defined.

End NelEvalMore.

(** * Further properties of the UniRel reformatting notebook *)

Module UniRelMore.

Import UniRel UniRelSpec UniRelFacts.

Section ReformatMore.

Variable literal_eval : string -> result pylit.

Lemma emit_triples_keys (r : result_row) (output : list pylit)
    (out_df out_df' : list out_row) :
  emit_triples r output out_df = Ok out_df' ->
  map key_out out_df'
  = map key_out out_df ++ repeat (key_in r) (List.length output).
Proof.
  revert out_df; induction output as [|triple output IH]; intros out_df H.
  - injection H as <-. simpl. now rewrite app_nil_r.
  - cbn [emit_triples] in H.
    destruct (py_subscript triple 0) as [h|e]; [|discriminate].
    destruct (py_subscript triple 1) as [rel|e]; [|discriminate].
    destruct (py_subscript triple 2) as [t|e]; [|discriminate].
    cbn [rbind] in H. apply IH in H. rewrite H.
    unfold append_row. rewrite map_app, <- app_assoc. reflexivity.
Qed.

Lemma reformat_loop_keys (result_df : list result_row)
    (out_df out_df' : list out_row) :
  reformat_loop literal_eval result_df out_df = Ok out_df' ->
  exists ns,
    List.length ns = List.length result_df
    /\ Forall (fun n => (1 <= n)%nat) ns
    /\ map key_out out_df'
       = map key_out out_df
         ++ flat_map (fun rn => repeat (key_in (fst rn)) (snd rn))
              (combine result_df ns).
Proof.
  revert out_df; induction result_df as [|r result_df IH]; intros out_df H.
  - injection H as <-. exists []. simpl. rewrite app_nil_r. auto.
  - cbn [reformat_loop] in H.
    destruct (literal_eval (c119_output r)) as [parsed|e]; [|discriminate].
    cbn [rbind] in H.
    destruct (py_subscript parsed 0) as [output|e]; [|discriminate].
    cbn [rbind] in H. unfold py_len in H.
    destruct (items_of output) as [items|e] eqn:Ei; [|discriminate].
    cbn [rbind] in H.
    destruct (Z.eqb_spec (Z.of_nat (List.length items)) 0) as [Hz|Hnz].
    + cbn [rbind] in H. apply IH in H.
      destruct H as (ns & Hlen & Hpos & Hmap).
      exists (1%nat :: ns). split; [simpl; lia|].
      split; [constructor; [lia|exact Hpos]|].
      rewrite Hmap. unfold append_row. rewrite map_app, <- app_assoc.
      reflexivity.
    + destruct (emit_triples r items out_df) as [out1|e] eqn:Ee;
        [|discriminate].
      cbn [rbind] in H. apply IH in H.
      destruct H as (ns & Hlen & Hpos & Hmap).
      exists (List.length items :: ns). split; [simpl; lia|].
      split; [constructor; [lia|exact Hpos]|].
      rewrite Hmap, (emit_triples_keys _ _ _ _ Ee), <- app_assoc.
      reflexivity.
Qed.

(** X18: whatever the cells parse to, when the loop ends no input row
    is lost or moved: the output is, input row after input row, one or
    more rows that carry the row's c5, c119 and c119_output cells. *)
Theorem reformat_keeps_rows (result_df : list result_row)
    (out_df : list out_row) :
  reformat literal_eval result_df = Ok out_df ->
  exists ns,
    List.length ns = List.length result_df
    /\ Forall (fun n => (1 <= n)%nat) ns
    /\ map key_out out_df
       = flat_map (fun rn => repeat (key_in (fst rn)) (snd rn))
           (combine result_df ns).
Proof.
  intros H. unfold reformat in H. apply reformat_loop_keys in H.
  destruct H as (ns & Hlen & Hpos & Hmap). exists ns. auto.
Qed.

(** The frame the loops leave when they end is the frame of the loops
    without the global, and they raise alike. *)
Lemma fill_triples_outcome (r : result_row) (output : list pylit)
    (out_df : list out_row) :
  outcome (fill_triples r output out_df) = emit_triples r output out_df.
Proof.
  revert out_df; induction output as [|triple output IH]; intros out_df;
    [reflexivity|].
  cbn [fill_triples emit_triples].
  destruct (py_subscript triple 0) as [h|e]; [|reflexivity].
  destruct (py_subscript triple 1) as [rel|e]; [|reflexivity].
  destruct (py_subscript triple 2) as [t|e]; [|reflexivity].
  cbn [rbind]. apply IH.
Qed.

Lemma fill_loop_outcome (result_df : list result_row)
    (out_df : list out_row) :
  outcome (fill_loop literal_eval result_df out_df)
  = reformat_loop literal_eval result_df out_df.
Proof.
  revert out_df; induction result_df as [|r result_df IH]; intros out_df;
    [reflexivity|].
  cbn [fill_loop reformat_loop].
  destruct (literal_eval (c119_output r)) as [parsed|e]; [|reflexivity].
  cbn [rbind].
  destruct (py_subscript parsed 0) as [output|e]; [|reflexivity].
  cbn [rbind].
  destruct (py_len output) as [n|e]; [|reflexivity].
  cbn [rbind].
  destruct (n =? 0)%Z.
  - cbn [rbind]. apply IH.
  - destruct (items_of output) as [triples|e]; [|reflexivity].
    cbn [rbind]. rewrite <- fill_triples_outcome.
    destruct (fill_triples r triples out_df) as [[u|e] out1];
      cbn [outcome rbind]; [apply IH|reflexivity].
Qed.

Lemma fill_triples_tuples (r : result_row) (triples : list triple)
    (out_df : list out_row) :
  fill_triples r (map as_tuple triples) out_df
  = (Ok tt, out_df ++ triple_rows r triples).
Proof.
  revert out_df; induction triples as [|[[h rel] tl] triples IH];
    intros out_df.
  - simpl. now rewrite app_nil_r.
  - cbn [map fill_triples as_tuple].
    change (py_subscript (LTuple [h; rel; tl]) 0) with (Ok h).
    change (py_subscript (LTuple [h; rel; tl]) 1) with (Ok rel).
    change (py_subscript (LTuple [h; rel; tl]) 2) with (Ok tl).
    cbn [rbind]. rewrite IH. unfold append_row, triple_rows, row_with.
    cbn [map]. now rewrite <- app_assoc.
Qed.

Lemma fill_triples_app (r : result_row) (l1 l2 : list pylit)
    (out_df : list out_row) :
  fill_triples r (l1 ++ l2) out_df
  = match fill_triples r l1 out_df with
    | (Ok _, out1) => fill_triples r l2 out1
    | (Raise e, out1) => (Raise e, out1)
    end.
Proof.
  revert out_df; induction l1 as [|triple l1 IH]; intros out_df;
    [reflexivity|].
  cbn [app fill_triples].
  destruct (py_subscript triple 0) as [h|e]; [|reflexivity].
  destruct (py_subscript triple 1) as [rel|e]; [|reflexivity].
  destruct (py_subscript triple 2) as [t|e]; [|reflexivity].
  cbn [rbind]. apply IH.
Qed.

Lemma fill_short_tuple (r : result_row) (short : list pylit)
    (more : list pylit) (out_df : list out_row) :
  (List.length short < 3)%nat ->
  fill_triples r (LTuple short :: more) out_df = (Raise IndexError, out_df).
Proof.
  intros H. destruct short as [|a [|b [|c short]]]; simpl in H;
    try lia; reflexivity.
Qed.

Lemma fill_loop_rows (result_df : list result_row)
    (shape : list (list triple)) (out_df : list out_row) :
  Forall2 (parses_to literal_eval) result_df shape ->
  fill_loop literal_eval result_df out_df
  = (Ok tt, out_df ++ flat_map (fun rt => rows_for (fst rt) (snd rt))
                        (combine result_df shape)).
Proof.
  intros H.
  pose proof (fill_loop_outcome result_df out_df) as Ho.
  rewrite (reformat_loop_rows _ _ shape out_df H) in Ho.
  destruct (fill_loop literal_eval result_df out_df) as [[[]|e] out1];
    cbn [outcome] in Ho; [|discriminate].
  now injection Ho as ->.
Qed.

Lemma fill_loop_app (l1 l2 : list result_row) (out_df : list out_row) :
  fill_loop literal_eval (l1 ++ l2) out_df
  = match fill_loop literal_eval l1 out_df with
    | (Ok _, out1) => fill_loop literal_eval l2 out1
    | (Raise e, out1) => (Raise e, out1)
    end.
Proof.
  revert out_df; induction l1 as [|r l1 IH]; intros out_df; [reflexivity|].
  cbn [app fill_loop].
  destruct (literal_eval (c119_output r)) as [parsed|e]; [|reflexivity].
  cbn [rbind].
  destruct (py_subscript parsed 0) as [output|e]; [|reflexivity].
  cbn [rbind].
  destruct (py_len output) as [n|e]; [|reflexivity].
  cbn [rbind].
  destruct (if (n =? 0)%Z then _ else _) as [[u|e] out1]; [|reflexivity].
  apply IH.
Qed.

(** X19: a bad cell stops the cell with an exception and leaves
    [out_df] partly filled. After rows that parse to lists of triples,
    a row whose cell does not parse raises what [ast.literal_eval]
    raises, a row whose cell parses to an empty list raises IndexError,
    and so does a row with a tuple of fewer than three components among
    its triples. [out_df] then holds the output rows of the rows before
    the bad one and, in the last case, the rows of its triples before
    the short tuple; the rows after the bad one are not read. *)
Theorem reformat_bad_row (pre post : list result_row)
    (shape : list (list triple)) (r : result_row) :
  Forall2 (parses_to literal_eval) pre shape ->
  let done := flat_map (fun rt => rows_for (fst rt) (snd rt))
                (combine pre shape) in
  (forall e, literal_eval (c119_output r) = Raise e ->
             reformat_in_place literal_eval (pre ++ r :: post)
             = (Raise e, done))
  /\ (literal_eval (c119_output r) = Ok (LList []) ->
      reformat_in_place literal_eval (pre ++ r :: post)
      = (Raise IndexError, done))
  /\ (forall good short more rest,
         literal_eval (c119_output r)
         = Ok (LList (LList (map as_tuple good ++ LTuple short :: more)
                      :: rest)) ->
         (List.length short < 3)%nat ->
         reformat_in_place literal_eval (pre ++ r :: post)
         = (Raise IndexError, done ++ triple_rows r good)).
Proof.
  intros Hpre done. unfold reformat_in_place.
  rewrite fill_loop_app, (fill_loop_rows _ shape [] Hpre).
  cbn [app fill_loop]. fold done.
  split; [|split].
  - intros e ->. reflexivity.
  - intros ->. reflexivity.
  - intros good short more rest -> Hshort. cbn [rbind].
    change (py_subscript
              (LList (LList (map as_tuple good ++ LTuple short :: more)
                      :: rest)) 0)
      with (@Ok pylit (LList (map as_tuple good ++ LTuple short :: more))).
    cbn [rbind py_len items_of].
    destruct (Z.eqb_spec
                (Z.of_nat (List.length
                             (map as_tuple good ++ LTuple short :: more))) 0)
      as [Hz|_].
    { rewrite length_app in Hz. simpl in Hz. lia. }
    rewrite fill_triples_app, fill_triples_tuples.
    now rewrite fill_short_tuple.
Qed.

End ReformatMore.

Lemma reformat_keeps_rows_witness :
  exists ns,
    List.length ns = List.length sample_df
    /\ Forall (fun n => (1 <= n)%nat) ns
    /\ map key_out
         (flat_map (fun rt => rows_for (fst rt) (snd rt))
            (combine sample_df
               [[(LStr "RQD", LStr "/business/person/company",
                  LStr "ALCOHOL")]; []]))
       = flat_map (fun rn => repeat (key_in (fst rn)) (snd rn))
           (combine sample_df ns).
Proof.
  apply (reformat_keeps_rows sample_eval sample_df). reflexivity.
Defined.

Lemma reformat_bad_row_witness :
  reformat_in_place sample_eval
    (sample_df ++ {| c5 := "19910202000000B"; c119 := "ENGINE QUIT.";
                     c119_output := "nan" |} :: sample_df)
  = (Raise ValueError,
     flat_map (fun rt => rows_for (fst rt) (snd rt))
       (combine sample_df
          [[(LStr "RQD", LStr "/business/person/company", LStr "ALCOHOL")];
           []]))
  /\ reformat_in_place sample_eval
       (sample_df ++ {| c5 := "19910202000000B"; c119 := "ENGINE QUIT.";
                        c119_output := "[]" |} :: sample_df)
     = (Raise IndexError,
        flat_map (fun rt => rows_for (fst rt) (snd rt))
          (combine sample_df
             [[(LStr "RQD", LStr "/business/person/company",
                LStr "ALCOHOL")]; []])).
Proof.
  split.
  - apply (proj1 (reformat_bad_row sample_eval sample_df sample_df
                    [[(LStr "RQD", LStr "/business/person/company",
                       LStr "ALCOHOL")]; []]
                    {| c5 := "19910202000000B"; c119 := "ENGINE QUIT.";
                       c119_output := "nan" |}
                    ltac:(repeat constructor; exists []; reflexivity))).
    reflexivity.
  - apply (proj1 (proj2 (reformat_bad_row sample_eval sample_df sample_df
                           [[(LStr "RQD", LStr "/business/person/company",
                              LStr "ALCOHOL")]; []]
                           {| c5 := "19910202000000B"; c119 := "ENGINE QUIT.";
                              c119_output := "[]" |}
                           ltac:(repeat constructor; exists [];
                                 reflexivity)))).
    reflexivity.
Defined.

End UniRelMore.
